(** * ai-resume-score: the resume scoring engine

    A shallow embedding of [score_resume] as it is written in
    [ai_resume_score_app.py] (the flat-rate weighting, module [V1]) and in
    [ai_resume_score_app_v2.py] (the coverage-blend weighting with the
    job-description similarity stage, module [V2]), with the properties of
    the specification stated over it.

    Conventions of the embedding.
    - A Python [str] is a Rocq [string] holding its UTF-8 encoding.  The
      model is exact on ASCII text; a character beyond ASCII is read as a
      symbol without case that is neither alphanumeric nor white space
      (which is what the source's own non-ASCII characters are).  Module
      [Unicode] gives [lower] and [strip] as Python runs them on any
      text, and the Keywords stage over them; statements that depend on
      a text being ASCII say so.
    - A Python number is a rational [Q]: floats are idealised as the exact
      value they approximate, and [round(x, 1)] is rounding to the nearest
      tenth, ties to even.  The two agree on what the engines report except
      where an exact value is a tie (it ends in 5 in its second decimal;
      of the values the engines round, only the formatting points of the
      flat-rate engine and a similarity times 35 can); there the float
      lies on one side of the tie.  Module [Binary64] gives the exact
      value of a float, to check an example in float arithmetic.
    - Python lists and dicts are lists and association lists (a dict keeps
      insertion order); where a property is about mutation the objects
      live in an explicit store (module [Store]).
    - scikit-learn is not part of the repository: the record [V2.sklearn]
      stands for it.  Its analyzer (lower-casing, the token pattern, the
      stop words) and its failure on an empty vocabulary are modelled; the
      cosine of two tf-idf rows is a field of the record.
    - The helpers next to [score_resume], the pre-checks and the text
      extraction of an upload, and the blocks that handle a submitted
      form are embedded as well (modules [Helpers], [Upload], [Page]).
      An upload and the PDF and DOCX readers are records of what a call
      on them returns or raises, and so is [save_lead] on the page of
      ai_resume_score_app_v2.py (the block of the v1.3 copy is modelled
      up to the call of [save_lead]); Streamlit itself is outside the
      model. *)

From Stdlib Require Import ZArith QArith Qround Qminmax Qabs List String Ascii Bool Arith Lia Lqa.
From Stdlib Require Import Sorted.
From Stdlib Require Floats DecimalString.
Import ListNotations.

Open Scope string_scope.
Open Scope nat_scope.

(* ================================================================= *)
(** ** Python strings *)

Module PyStr.

Definition code (c : ascii) : N := N_of_ascii c.

Definition between (lo hi : N) (c : ascii) : bool :=
  ((lo <=? code c) && (code c <=? hi))%N.

(** [ch.isspace()] on ASCII: tab, LF, VT, FF, CR, FS, GS, RS, US, space. *)
Definition isspace (c : ascii) : bool :=
  between 9 13 c || between 28 32 c.

Definition isdigit (c : ascii) : bool := between 48 57 c.
Definition isupper (c : ascii) : bool := between 65 90 c.
Definition islower (c : ascii) : bool := between 97 122 c.
Definition isalpha (c : ascii) : bool := isupper c || islower c.

(** [ch.isalnum()] *)
Definition isalnum (c : ascii) : bool := isalpha c || isdigit c.

(** A byte that continues a UTF-8 character; [len] and the iteration
    [for ch in text] count characters, not bytes. *)
Definition is_continuation (c : ascii) : bool := between 128 191 c.

Definition lower_char (c : ascii) : ascii :=
  if isupper c then ascii_of_N (code c + 32) else c.

Definition upper_char (c : ascii) : ascii :=
  if islower c then ascii_of_N (code c - 32) else c.

(** [s.lower()] *)
Fixpoint lower (s : string) : string :=
  match s with
  | EmptyString => EmptyString
  | String c s' => String (lower_char c) (lower s')
  end.

(** [w in s] for strings: substring containment. *)
Fixpoint contains (w s : string) : bool :=
  prefix w s ||
  match s with
  | EmptyString => false
  | String _ s' => contains w s'
  end.

(** [s.split()]: the maximal runs of characters that are not white space. *)
Fixpoint split (s : string) : list string :=
  match s with
  | EmptyString => []
  | String c s' =>
      if isspace c then split s'
      else match s' with
           | EmptyString => [String c EmptyString]
           | String c' _ =>
               if isspace c' then String c EmptyString :: split s'
               else match split s' with
                    | w :: ws => String c w :: ws
                    | [] => [String c EmptyString]
                    end
           end
  end.

(** [s.split(sep)] for a one-character separator. *)
Fixpoint split_on (sep : ascii) (s : string) : list string :=
  match s with
  | EmptyString => [EmptyString]
  | String c s' =>
      if Ascii.eqb c sep then EmptyString :: split_on sep s'
      else match split_on sep s' with
           | w :: ws => String c w :: ws
           | [] => [String c EmptyString]
           end
  end.

Fixpoint lstrip (s : string) : string :=
  match s with
  | EmptyString => EmptyString
  | String c s' => if isspace c then lstrip s' else s
  end.

Fixpoint rstrip (s : string) : string :=
  match s with
  | EmptyString => EmptyString
  | String c s' =>
      match rstrip s' with
      | EmptyString => if isspace c then EmptyString else String c EmptyString
      | r => String c r
      end
  end.

(** [s.strip()] *)
Definition strip (s : string) : string := rstrip (lstrip s).

(** Truth value of a string: [if s:] *)
Definition truthy (s : string) : bool :=
  match s with EmptyString => false | _ => true end.

(** The characters of a string as [for ch in text] sees them: one entry,
    the leading byte, per character. *)
Fixpoint chars (s : string) : list ascii :=
  match s with
  | EmptyString => []
  | String c s' => if is_continuation c then chars s' else c :: chars s'
  end.

(** [len(s)] *)
Definition len (s : string) : nat := List.length (chars s).

(** [ch in chars_of] for a one-character [ch] and an ASCII string. *)
Fixpoint char_in (c : ascii) (s : string) : bool :=
  match s with
  | EmptyString => false
  | String c' s' => Ascii.eqb c c' || char_in c s'
  end.

(** [x in l] for a list of strings. *)
Definition mem (x : string) (l : list string) : bool :=
  existsb (String.eqb x) l.

(** [sep.join(l)] *)
Definition join (sep : string) (l : list string) : string := String.concat sep l.

(** [sorted(set(l))]: the distinct elements in increasing order. *)
Fixpoint insert_sorted (x : string) (l : list string) : list string :=
  match l with
  | [] => [x]
  | y :: l' =>
      match String.compare x y with
      | Lt => x :: l
      | Eq => l
      | Gt => y :: insert_sorted x l'
      end
  end.

Definition sorted_set (l : list string) : list string :=
  fold_right insert_sorted [] l.

(** [sorted(set(a) - set(b))] *)
Definition sorted_difference (a b : list string) : list string :=
  sorted_set (filter (fun x => negb (mem x b)) a).

(** [n] copies of [s], as [s * n] builds them. *)
Fixpoint repeat_str (s : string) (n : nat) : string :=
  match n with
  | O => EmptyString
  | S n' => s ++ repeat_str s n'
  end.

End PyStr.

(* ================================================================= *)
(** ** The fragment of Python's [re] the source uses

    A backtracking matcher with Python's priorities: alternatives are tried
    left to right, repetitions are greedy, [search] returns at the leftmost
    position that matches and [findall] scans for non-overlapping matches
    from left to right. *)

Module Re.
Import PyStr.

Inductive regex : Type :=
| Lit (c : ascii)                              (* a literal character *)
| Str (s : string)                             (* a literal string *)
| Class (p : ascii -> bool)                    (* [...] , \d , \w , \s *)
| Seq (r1 r2 : regex)                          (* r1 r2 *)
| Alt (r1 r2 : regex)                          (* r1 | r2 *)
| Rep (lo : nat) (hi : option nat) (r : regex) (* r{lo,hi}, greedy *)
| WordB.                                       (* \b *)

Definition plus (r : regex) : regex := Rep 1 None r.       (* r+ *)
Definition opt (r : regex) : regex := Rep 0 (Some 1) r.    (* r? *)

(** [\w], [\d], [\s] *)
Definition word_char (c : ascii) : bool := isalnum c || Ascii.eqb c "_".
Definition digit : regex := Class isdigit.

(** A position in the subject: the character before it, and what follows. *)
Definition pos : Type := option ascii * string.

Definition is_word (o : option ascii) : bool :=
  match o with Some c => word_char c | None => false end.

Definition next_char (s : string) : option ascii :=
  match s with EmptyString => None | String c _ => Some c end.

(** [re.I]: a character matches if it or its other case does. *)
Definition class_match (icase : bool) (p : ascii -> bool) (c : ascii) : bool :=
  p c || (icase && (p (lower_char c) || p (upper_char c))).

Fixpoint match_str (icase : bool) (w : string) (p : pos) : option pos :=
  match w with
  | EmptyString => Some p
  | String c w' =>
      match snd p with
      | EmptyString => None
      | String c' s' =>
          if class_match icase (Ascii.eqb c) c' then match_str icase w' (Some c', s')
          else None
      end
  end.

Definition below (n : nat) (hi : option nat) : bool :=
  match hi with None => true | Some h => n <? h end.

(** [run r k p]: match [r] at [p], then the rest of the pattern [k]. *)
Fixpoint run (icase : bool) (r : regex) (k : pos -> option pos) (p : pos) : option pos :=
  match r with
  | Lit c => match match_str icase (String c EmptyString) p with
             | Some p' => k p'
             | None => None
             end
  | Str w => match match_str icase w p with
             | Some p' => k p'
             | None => None
             end
  | Class f =>
      match snd p with
      | EmptyString => None
      | String c s' => if class_match icase f c then k (Some c, s') else None
      end
  | Seq r1 r2 => run icase r1 (run icase r2 k) p
  | Alt r1 r2 =>
      match run icase r1 k p with
      | Some q => Some q
      | None => run icase r2 k p
      end
  | Rep lo hi r1 =>
      (fix loop (fuel n : nat) (p : pos) {struct fuel} : option pos :=
         let stop := fun _ : unit => if lo <=? n then k p else None in
         match fuel with
         | O => stop tt
         | S fuel' =>
             if below n hi then
               match run icase r1 (loop fuel' (S n)) p with
               | Some q => Some q
               | None => stop tt
               end
             else stop tt
         end) (String.length (snd p)) 0 p
  | WordB => if xorb (is_word (fst p)) (is_word (next_char (snd p))) then k p else None
  end.

(** One attempt at a position: where the match ends, if there is one. *)
Definition match_at (icase : bool) (r : regex) (p : pos) : option pos :=
  run icase r Some p.

Fixpoint search_from (icase : bool) (r : regex) (prev : option ascii) (s : string) : bool :=
  match match_at icase r (prev, s) with
  | Some _ => true
  | None =>
      match s with
      | EmptyString => false
      | String c s' => search_from icase r (Some c) s'
      end
  end.

(** [bool(re.search(r, s))] *)
Definition search (icase : bool) (r : regex) (s : string) : bool :=
  search_from icase r None s.

Fixpoint findall_from (fuel : nat) (icase : bool) (r : regex)
         (prev : option ascii) (s : string) : list string :=
  match fuel with
  | O => []
  | S fuel' =>
      let skip := fun _ : unit =>
        match s with
        | EmptyString => []
        | String c s' => findall_from fuel' icase r (Some c) s'
        end in
      match match_at icase r (prev, s) with
      | Some (prev', rest) =>
          let n := String.length s - String.length rest in
          if (0 <? n)%nat then substring 0 n s :: findall_from fuel' icase r prev' rest
          else EmptyString :: skip tt
      | None => skip tt
      end
  end.

(** [re.findall(r, s)] for a pattern without groups (with groups the list
    has the same length). *)
Definition findall (icase : bool) (r : regex) (s : string) : list string :=
  findall_from (S (String.length s)) icase r None s.

End Re.

(* ================================================================= *)
(** ** The patterns of the source (the same in both files) *)

Module Patterns.
Import PyStr Re.

Definition newline : ascii := ascii_of_N 10.

(** [[A-Za-z]] and the two classes of the e-mail pattern. *)
Definition email_local (c : ascii) : bool := isalnum c || char_in c "._%+-".
Definition email_domain (c : ascii) : bool := isalnum c || char_in c ".-".

(** r"\b\d+[%k]?\b" *)
Definition NUMBER : regex :=
  Seq WordB (Seq (plus digit) (Seq (opt (Class (fun c => char_in c "%k"))) WordB)).

(** r"[A-Za-z0-9._%+-]+@[A-Za-z0-9.-]+\.[A-Za-z]{2,}" *)
Definition EMAIL : regex :=
  Seq (plus (Class email_local))
      (Seq (Lit "@")
           (Seq (plus (Class email_domain))
                (Seq (Lit ".") (Rep 2 None (Class isalpha))))).

(** r"\b(\+?\d{1,3}[-\s]?)?\d{10}\b" *)
Definition PHONE : regex :=
  Seq WordB
      (Seq (opt (Seq (opt (Lit "+"))
                     (Seq (Rep 1 (Some 3) digit)
                          (opt (Class (fun c => Ascii.eqb c "-" || isspace c))))))
           (Seq (Rep 10 (Some 10) digit) WordB)).

(** r"(\n[-•·])|•" *)
Definition BULLET : regex :=
  Alt (Seq (Lit newline) (Alt (Lit "-") (Alt (Str "•") (Str "·"))))
      (Str "•").

(** [count_regex(text, pattern, flags=re.I)] *)
Definition count_regex (text : string) (pattern : regex) : nat :=
  List.length (findall true pattern text).

End Patterns.

(* ================================================================= *)
(** ** Python numbers *)

Module PyNum.

Definition of_nat (n : nat) : Q := inject_Z (Z.of_nat n).

(** The nearest integer, ties to the even one. *)
Definition round_half_even (x : Q) : Z :=
  let f := Qfloor x in
  match Qcompare (x - inject_Z f) (1 # 2) with
  | Lt => f
  | Gt => (f + 1)%Z
  | Eq => if Z.even f then f else (f + 1)%Z
  end.

(** [round(x, 1)] *)
Definition round1 (x : Q) : Q := (inject_Z (round_half_even (x * 10)) / 10)%Q.

(** A number with at most one decimal. *)
Definition tenths (x : Q) : Prop := exists z : Z, (x == inject_Z z / 10)%Q.

(** [a < b] as a test *)
Definition Qltb (a b : Q) : bool :=
  match Qcompare a b with Lt => true | _ => false end.

(** [sum(xs)] *)
Definition Qsum (xs : list Q) : Q := fold_right Qplus 0%Q xs.

End PyNum.

(** The floats CPython computes with, for checking an example against the
    idealisation: the exact value of a binary64 number.  Python's
    [round(x, 1)] rounds that exact value, so on a float it gives the
    decimal [round1] gives on its value. *)
Module Binary64.
Import Floats.

Definition value (x : float) : option Q :=
  match Prim2SF x with
  | S754_zero _ => Some 0%Q
  | S754_finite s m e =>
      Some ((if s then -1 else 1) * (inject_Z (Z.pos m) * Qpower 2 e))%Q
  | _ => None
  end.

(** [10 - abs(5 - 600)/100], the formatting points of a five-word text. *)
Definition fmt_points_5 : float := (10 - 595 / 100)%float.

(** The sum the flat-rate engine rounds into the total for "led a b c d":
    structure 0, keywords 0.0, impact 11.5, education 0, ATS 2. *)
Definition sum_led_a_b_c_d : float := (0 + 0 + 11.5 + 0 + 2 + fmt_points_5)%float.

End Binary64.

(* ================================================================= *)
(** ** Results of a scoring call *)

Module Result.

(** What a call can end in: a value or a raised exception. *)
Inductive exn : Type :=
| ValueError (message : string)
| KeyError (key : string)
| TypeError.

Inductive outcome (A : Type) : Type :=
| Ok (a : A)
| Raise (e : exn).
Arguments Ok {A} a.
Arguments Raise {A} e.

(** The breakdown dict: category name to number, in insertion order. *)
Definition breakdown : Type := list (string * Q).

(** total, breakdown, suggestions *)
Definition triple : Type := (Q * breakdown * list string)%type.

Definition total (r : triple) : Q := fst (fst r).
Definition breakdown_of (r : triple) : breakdown := snd (fst r).
Definition suggestions (r : triple) : list string := snd r.

(** [d.get(k)] on an association list *)
Fixpoint lookup {A : Type} (k : string) (d : list (string * A)) : option A :=
  match d with
  | [] => None
  | (k', v) :: d' => if String.eqb k k' then Some v else lookup k d'
  end.

(** The sub-scores: every entry but the word count. *)
Definition sub_scores (b : breakdown) : list (string * Q) :=
  filter (fun e => negb (String.eqb (fst e) "Word Count")) b.

(** [breakdown[name]] is the number [x]. *)
Definition entry (b : breakdown) (name : string) (x : Q) : Prop :=
  exists v, lookup name b = Some v /\ (v == x)%Q.

(** The sum of the sub-scores a breakdown reports. *)
Definition reported_sum (b : breakdown) : Q := PyNum.Qsum (map snd (sub_scores b)).

(** A result respects a table of band maxima: the total lies between 0
    and the sum of the maxima, and every sub-score between 0 and the
    maximum of its category. *)
Definition within (bands : list (string * Q)) (r : triple) : Prop :=
  (0 <= total r /\ total r <= PyNum.Qsum (map snd bands))%Q /\
  forall name v, In (name, v) (sub_scores (breakdown_of r)) ->
                 exists band, lookup name bands = Some band /\ (0 <= v /\ v <= band)%Q.

(** The loop that removes repeated suggestions, first occurrence kept:
    [for s in suggestions: if s not in cleaned: cleaned.append(s)]. *)
Definition dedup (suggestions : list string) : list string :=
  fold_left (fun cleaned s => if PyStr.mem s cleaned then cleaned else (cleaned ++ [s])%list)
            suggestions [].

End Result.

(* ================================================================= *)
(** ** ai_resume_score_app.py: the flat-rate weighting *)

Module V1.
Import PyStr Re Patterns PyNum Result.

Definition ROLE_KEYWORDS : list (string * list string) :=
  [ ("General / Fresher",
     ["project"; "internship"; "team"; "lead"; "communication"; "problem solving"; "python"; "excel";
      "sql"; "presentation"; "achievement"; "award"; "certification"]);
    ("Data Analyst",
     ["excel"; "sql"; "python"; "pandas"; "power bi"; "tableau"; "dax"; "visualization"; "dashboard";
      "etl"; "statistics"; "a/b testing"; "business intelligence"; "insights"; "kpi"; "data cleaning"]);
    ("Business Analyst",
     ["requirements"; "user stories"; "process mapping"; "stakeholder"; "jira"; "confluence"; "bpmn";
      "use case"; "gap analysis"; "brd"; "frd"; "acceptance criteria"; "sql"; "reporting"; "kpi"]);
    ("Digital Marketing",
     ["seo"; "sem"; "google ads"; "meta ads"; "content"; "copywriting"; "email marketing"; "crm";
      "analytics"; "utm"; "landing page"; "roi"; "cpc"; "ctr"; "campaign"; "canva"]);
    ("Project Management",
     ["pmp"; "agile"; "scrum"; "kanban"; "jira"; "risk"; "stakeholder"; "timeline"; "budget";
      "milestone"; "scope"; "resources"; "status report"; "dependencies"; "deliverables"]);
    ("UI/UX Design",
     ["figma"; "wireframe"; "prototype"; "user research"; "usability"; "interaction design"; "ui kit";
      "persona"; "journey map"; "design system"; "accessibility"; "heuristics"; "visual design"]);
    ("Software Developer",
     ["python"; "java"; "javascript"; "react"; "node"; "api"; "microservices"; "docker"; "git";
      "testing"; "ci/cd"; "design patterns"; "oop"; "algorithm"; "data structures"]) ].

Definition ACTION_VERBS : list string :=
  ["led"; "built"; "created"; "developed"; "designed"; "launched"; "optimized"; "reduced"; "increased";
   "improved"; "automated"; "migrated"; "enhanced"; "analysed"; "analyzed"; "implemented"; "managed";
   "delivered"; "deployed"; "streamlined"; "orchestrated"; "scaled"; "designed"; "architected";
   "spearheaded"].

(** The table of the v1.3 copy in the same file: "designed" once. *)
Definition ACTION_VERBS_v1_3 : list string :=
  ["led"; "built"; "created"; "developed"; "designed"; "launched"; "optimized"; "reduced"; "increased";
   "improved"; "automated"; "migrated"; "enhanced"; "analysed"; "analyzed"; "implemented"; "managed";
   "delivered"; "deployed"; "streamlined"; "orchestrated"; "scaled"; "architected"; "spearheaded"].

Definition CERT_WORDS : list string :=
  ["certified"; "certificate"; "coursera"; "udemy"; "pl-300"; "pmp"; "six sigma"; "itil"; "aws";
   "azure"; "gcp"; "google analytics"; "meta"; "hubspot"].

Definition EDU_WORDS : list string :=
  ["b.e"; "btech"; "b.tech"; "bsc"; "b.sc"; "msc"; "m.sc"; "mca"; "bca"; "mba"; "bachelor"; "master";
   "degree"; "college"; "university"].

Definition SECTION_HINTS : list (string * list string) :=
  [ ("Summary/Objectives", ["summary"; "objective"; "profile"]);
    ("Experience", ["experience"; "work experience"; "professional experience"; "employment"]);
    ("Projects", ["projects"; "project experience"]);
    ("Education", ["education"; "academics"]);
    ("Skills", ["skills"; "technical skills"]);
    ("Certifications", ["certifications"; "certificates"; "licenses"]);
    ("Achievements", ["awards"; "achievements"; "accomplishments"]) ].

(** The band maxima the page prints next to each sub-score
    ([f"{breakdown['Structure']}/20"] and so on). *)
Definition BAND_MAX : list (string * Q) :=
  [ ("Structure", 20%Q); ("Keywords", 30%Q); ("Impact", 20%Q);
    ("Education/Certs", 10%Q); ("ATS", 10%Q); ("Formatting", 10%Q) ].

(** [contains_any(text, words)] *)
Definition contains_any (text : string) (words : list string) : list string :=
  let tl := lower text in
  filter (fun w => contains w tl) words.

(** [any(a in tl for a in aliases)] *)
Definition any_in (tl : string) (aliases : list string) : bool :=
  existsb (fun a => contains a tl) aliases.

(** The extra keywords of a request:
    [[k.strip().lower() for k in extra_keywords.split(",") if k.strip()]] *)
Definition extra_list (extra_keywords : string) : list string :=
  map (fun k => lower (strip k))
      (filter (fun k => truthy (strip k)) (split_on "," extra_keywords)).

Definition msg_section (sec : string) : string :=
  "Add a clear “" ++ sec ++ "” section.".
Definition msg_keywords (target_role : string) (missing : list string) : string :=
  "Include more role keywords (target: " ++ target_role ++ "). Missing examples: "
    ++ join ", " missing.
Definition msg_quantify : string := "Quantify achievements (%, ₹, numbers) to show impact.".
Definition msg_verbs : string :=
  "Start bullet points with strong action verbs (Led, Built, Improved...).".
Definition msg_education : string := "Add Education details (degree, college, year).".
Definition msg_certs : string :=
  "List relevant certifications (PMP, PL-300, Google, Meta, etc.).".
Definition msg_email : string := "Add a professional email address in header.".
Definition msg_phone : string := "Add a valid phone number with country code.".
Definition msg_concise : string :=
  "Keep resume concise (1–2 pages; ~600–800 words recommended).".

(** The body of [score_resume], over the module's tables. *)
Section Engine.

Variable ROLE_KEYWORDS : list (string * list string).
Variable SECTION_HINTS : list (string * list string).
Variables ACTION_VERBS CERT_WORDS EDU_WORDS : list string.

(** 1) Structure (20) *)
Definition structure_hits (tl : string) : list (string * bool) :=
  map (fun '(sec, aliases) => (sec, any_in tl aliases)) SECTION_HINTS.

Definition structure_sum (tl : string) : Q :=
  fold_left (fun points '(_, hit) =>
               if hit : bool then (points + 20 / of_nat (List.length SECTION_HINTS))%Q else points)
            (structure_hits tl) 0%Q.

Definition structure_points (tl : string) : Q := round1 (structure_sum tl).

(** The number of catalog sections detected in a text (the k of the
    specification). *)
Definition sections_detected (tl : string) : nat :=
  List.length (filter snd (structure_hits tl)).

Definition structure_suggestions (tl : string) : list string :=
  flat_map (fun '(sec, hit) => if hit : bool then [] else [msg_section sec]) (structure_hits tl).

(** 2) Keywords match (30) *)
Definition default_role_words : list string :=
  match lookup "General / Fresher" ROLE_KEYWORDS with Some l => l | None => [] end.

(** [ROLE_KEYWORDS.get(target_role, ROLE_KEYWORDS["General / Fresher"])] *)
Definition role_table_words (target_role : string) : list string :=
  match lookup target_role ROLE_KEYWORDS with
  | Some l => l
  | None => default_role_words
  end.

(** The copy, extended by the extra keywords when there are any. *)
Definition role_words (target_role : string) (extra_keywords : option string) : list string :=
  let copy := role_table_words target_role in
  match extra_keywords with
  | Some e => if truthy e then (copy ++ extra_list e)%list else copy
  | None => copy
  end.

Definition found_role (tl : string) (role_words : list string) : list string :=
  contains_any tl role_words.

Definition kw_points_of (found : nat) : Q := Qmin (of_nat found * (30 / 12)) 30.

Definition kw_points (tl : string) (role_words : list string) : Q :=
  kw_points_of (List.length (found_role tl role_words)).

Definition missing_keywords (tl : string) (role_words : list string) : list string :=
  firstn 8 (sorted_difference role_words (found_role tl role_words)).

Definition keyword_suggestions (tl target_role : string) (role_words : list string)
  : list string :=
  if List.length (found_role tl role_words) <? 8
  then [msg_keywords target_role (missing_keywords tl role_words)]
  else [].

(** 3) Impact & Achievements (20) *)
Definition nums (tl : string) : nat := count_regex tl NUMBER.
Definition action_uses (tl : string) : nat := List.length (contains_any tl ACTION_VERBS).

Definition impact_points (tl : string) : Q :=
  Qmin (10 + of_nat (Nat.min (nums tl) 5) * 2 + of_nat (Nat.min (action_uses tl) 5) * (3 # 2)) 20.

Definition impact_suggestions (tl : string) : list string :=
  ((if nums tl <? 3 then [msg_quantify] else []) ++
   (if action_uses tl <? 3 then [msg_verbs] else []))%list.

(** 4) Education/Certifications (10) *)
Definition edu_hits (tl : string) : nat := List.length (contains_any tl EDU_WORDS).
Definition cert_hits (tl : string) : nat := List.length (contains_any tl CERT_WORDS).

Definition edu_points (tl : string) : Q :=
  of_nat (Nat.min (edu_hits tl * 2 + Nat.min (cert_hits tl) 3 * 2) 10).

Definition edu_suggestions (tl : string) : list string :=
  ((if edu_hits tl =? 0 then [msg_education] else []) ++
   (if cert_hits tl =? 0 then [msg_certs] else []))%list.

(** 5) ATS Compliance (10) *)
Definition email_ok (tl : string) : bool := search false EMAIL tl.
Definition phone_ok (tl : string) : bool := search false PHONE tl.
Definition bullets (text : string) : nat := count_regex text BULLET.

Definition is_special (ch : ascii) : bool :=
  negb (isalnum ch || isspace ch || char_in ch ".,;:-()/&+%").

Definition special_ratio (text : string) : Q :=
  (of_nat (List.length (filter is_special (chars text))) / of_nat (Nat.max (len text) 1))%Q.

Definition ats_points (text tl : string) : Q :=
  of_nat ((if email_ok tl then 3 else 0) + (if phone_ok tl then 3 else 0) +
          (if 5 <=? bullets text then 2 else 0) +
          (if Qltb (special_ratio text) (5 # 100) then 2 else 0)).

Definition ats_suggestions (tl : string) : list string :=
  ((if email_ok tl then [] else [msg_email]) ++
   (if phone_ok tl then [] else [msg_phone]))%list.

(** 6) Formatting / Length (10) *)
Definition in_ideal_length (word_count : nat) : bool :=
  (350 <=? word_count) && (word_count <=? 900).

Definition fmt_points (word_count : nat) : Q :=
  if in_ideal_length word_count then 10
  else Qmax 0 (10 - Qabs (of_nat word_count - 600) / 100).

Definition fmt_suggestions (word_count : nat) : list string :=
  if in_ideal_length word_count then [] else [msg_concise].

(** The function once [role_words] is built. *)
Definition score_body (role_words : list string) (text target_role : string) : triple :=
  let tl := lower text in
  let word_count := List.length (split tl) in
  let suggestions :=
    (structure_suggestions tl ++ keyword_suggestions tl target_role role_words ++
     impact_suggestions tl ++ edu_suggestions tl ++ ats_suggestions tl ++
     fmt_suggestions word_count)%list in
  let total :=
    round1 (structure_points tl + kw_points tl role_words + impact_points tl
            + edu_points tl + ats_points text tl + fmt_points word_count) in
  let breakdown :=
    [ ("Structure", structure_points tl);
      ("Keywords", round1 (kw_points tl role_words));
      ("Impact", round1 (impact_points tl));
      ("Education/Certs", round1 (edu_points tl));
      ("ATS", round1 (ats_points text tl));
      ("Formatting", round1 (fmt_points word_count));
      ("Word Count", of_nat word_count) ] in
  (total, breakdown, firstn 8 (dedup suggestions)).

Definition score_resume (text target_role : string) (extra_keywords : option string) : triple :=
  score_body (role_words target_role extra_keywords) text target_role.

End Engine.

(** [score_resume] with the tables of the module. *)
Definition score (text target_role : string) (extra_keywords : option string) : triple :=
  score_resume ROLE_KEYWORDS SECTION_HINTS ACTION_VERBS CERT_WORDS EDU_WORDS
               text target_role extra_keywords.

(** The sum [score_resume] rounds into the total: the sub-scores before
    the breakdown rounds each of them. *)
Definition unrounded_sum (text target_role : string) (extra_keywords : option string) : Q :=
  let tl := lower text in
  (structure_points SECTION_HINTS tl
   + kw_points tl (role_words ROLE_KEYWORDS target_role extra_keywords)
   + impact_points ACTION_VERBS tl
   + edu_points CERT_WORDS EDU_WORDS tl
   + ats_points text tl
   + fmt_points (List.length (split tl)))%Q.

(** The v1.3 copy of the engine in the same file differs in its verb table only. *)
Definition score_v1_3 (text target_role : string) (extra_keywords : option string) : triple :=
  score_resume ROLE_KEYWORDS SECTION_HINTS ACTION_VERBS_v1_3 CERT_WORDS EDU_WORDS
               text target_role extra_keywords.

End V1.

(* ================================================================= *)
(** ** ai_resume_score_app_v2.py: the coverage-blend weighting with the
       job-description similarity stage *)

Module V2.
Import PyStr Re Patterns PyNum Result.

(** scikit-learn as the file sees it.  [TfidfVectorizer] is false when the
    import failed (the name is then [None]); [ENGLISH_STOP_WORDS] is the
    list behind [stop_words="english"]; [cosine_similarity] gives the
    number [cosine_similarity(m[0:1], m[1:2])[0][0]] for the tf-idf rows of
    two documents, which depends on the terms of the two documents only. *)
Record sklearn : Type := {
  TfidfVectorizer : bool;
  ENGLISH_STOP_WORDS : list string;
  cosine_similarity : list string -> list string -> Q
}.

Definition STANDARD_SECTIONS : list (string * list string) :=
  [ ("Header", ["contact"; "email"; "phone"]);
    ("Summary", ["summary"; "objective"; "profile"]);
    ("Experience", ["experience"; "work experience"; "professional experience"; "employment"]);
    ("Education", ["education"; "academics"; "university"; "college"]);
    ("Skills", ["skills"; "technical skills"]);
    ("Certifications", ["certifications"; "licenses"; "certificates"]) ].

Definition ROLE_KEYWORDS : list (string * list string) :=
  [ ("Data Analyst",
     ["excel"; "sql"; "python"; "pandas"; "power bi"; "tableau"; "dax"; "visualization"; "dashboard";
      "etl"; "statistics"; "a/b testing"; "business intelligence"; "insights"; "kpi"; "data cleaning";
      "data model"; "storytelling"]);
    ("Business Analyst",
     ["requirements"; "user stories"; "process mapping"; "stakeholder"; "jira"; "confluence"; "bpmn";
      "use case"; "gap analysis"; "brd"; "frd"; "acceptance criteria"; "sql"; "reporting"; "kpi";
      "as-is"; "to-be"; "roadmap"]);
    ("Digital Marketing",
     ["seo"; "sem"; "google ads"; "meta ads"; "content"; "copywriting"; "email marketing"; "crm";
      "analytics"; "utm"; "landing page"; "roi"; "cpc"; "ctr"; "campaign"; "canva";
      "keyword research"; "remarketing"]);
    ("Project Management",
     ["pmp"; "agile"; "scrum"; "kanban"; "jira"; "risk"; "stakeholder"; "timeline"; "budget";
      "milestone"; "scope"; "resources"; "status report"; "dependencies"; "deliverables"; "burndown";
      "retrospective"]);
    ("UI/UX Design",
     ["figma"; "wireframe"; "prototype"; "user research"; "usability"; "interaction design"; "ui kit";
      "persona"; "journey map"; "design system"; "accessibility"; "heuristics"; "visual design";
      "hifi"; "lofi"]);
    ("General / Fresher",
     ["project"; "internship"; "team"; "lead"; "communication"; "problem solving"; "python"; "excel";
      "sql"; "presentation"; "achievement"; "award"; "certification"]) ].

Definition ACTION_VERBS : list string :=
  ["led"; "built"; "created"; "developed"; "designed"; "launched"; "optimized"; "reduced"; "increased";
   "improved"; "automated"; "migrated"; "enhanced"; "analyzed"; "implemented"; "managed"; "delivered";
   "deployed"; "streamlined"; "orchestrated"; "scaled"; "architected"; "spearheaded"; "boosted";
   "transformed"].

Definition CERT_WORDS : list string :=
  ["certified"; "certificate"; "pl-300"; "pmp"; "six sigma"; "itil"; "aws"; "azure"; "gcp";
   "google analytics"; "meta"; "hubspot"; "scrum"].

Definition EDU_WORDS : list string :=
  ["b.e"; "btech"; "b.tech"; "bsc"; "b.sc"; "msc"; "m.sc"; "mca"; "bca"; "mba"; "bachelor"; "master";
   "degree"; "college"; "university"].

(** The dict literal the structure loop of [score_resume] iterates over. *)
Definition SECTIONS : list (string * list string) :=
  [ ("Summary/Objectives", ["summary"; "objective"; "profile"]);
    ("Experience", ["experience"; "work experience"; "professional experience"; "employment"]);
    ("Education", ["education"; "academics"; "university"; "college"]);
    ("Skills", ["skills"; "technical skills"]);
    ("Certifications", ["certifications"; "licenses"; "certificates"]) ].

(** The band maxima the page prints ([f"{breakdown['JD Similarity']}/35"] ...). *)
Definition BAND_MAX : list (string * Q) :=
  [ ("JD Similarity", 35%Q); ("Keywords", 25%Q); ("Structure", 15%Q);
    ("Impact", 15%Q); ("ATS", 10%Q); ("Education/Certs", 5%Q) ].

(** [has_any(text, words)] *)
Definition has_any (text : string) (words : list string) : list string :=
  let tl := lower text in
  filter (fun w => contains w tl) words.

Definition any_in (tl : string) (aliases : list string) : bool :=
  existsb (fun a => contains a tl) aliases.

Definition msg_tailor : string :=
  "Tailor content to the job description—add specific tools/skills from the JD.".
Definition msg_paste_jd : string := "Paste a Job Description to improve match scoring.".
Definition msg_keywords (role missing : string) : string :=
  "Add relevant " ++ role ++ " keywords (e.g., " ++ missing ++ ").".
Definition msg_section (sec : string) : string :=
  "Add a clear “" ++ sec ++ "” section.".
Definition msg_quantify : string :=
  "Quantify achievements with numbers (%, ₹, users, time saved).".
Definition msg_verbs : string :=
  "Start bullets with strong action verbs (Led, Built, Improved...).".
Definition msg_email : string := "Add a professional email in the header.".
Definition msg_phone : string := "Add a valid phone number with country code.".
Definition msg_graphics : string := "Avoid heavy graphics/tables; use simple text formatting.".
Definition msg_education : string := "Include Education (degree, college, year).".
Definition msg_certs : string :=
  "Add relevant certifications (PMP, PL-300, Google/Meta, etc.).".
Definition msg_length : string := "Keep resume ~1–2 pages (approx. 600–800 words).".

Definition msg_empty_vocabulary : string :=
  "empty vocabulary; perhaps the documents only contain stop words".

(** Two instances of the library for examples: one that is installed and
    gives 1 for two documents with the same terms and 0 otherwise, and one
    that is missing. *)
Definition same_terms (a b : list string) : bool :=
  if list_eq_dec string_dec a b then true else false.

Definition sklearn_installed : sklearn :=
  {| TfidfVectorizer := true;
     ENGLISH_STOP_WORDS := ["a"; "an"; "and"; "the"; "of"; "to"; "in"; "is"];
     cosine_similarity := fun a b => if same_terms a b then 1%Q else 0%Q |}.

(** The library's contract the bounds rely on: tf-idf weights are not
    negative, so neither is a cosine of two rows. *)
Definition nonneg_cosine (sk : sklearn) : Prop :=
  forall a b, (0 <= cosine_similarity sk a b)%Q.

Definition sklearn_missing : sklearn :=
  {| TfidfVectorizer := false;
     ENGLISH_STOP_WORDS := [];
     cosine_similarity := fun _ _ => 0%Q |}.

Section Engine.

Variable sk : sklearn.
Variable ROLE_KEYWORDS : list (string * list string).
Variables ACTION_VERBS CERT_WORDS EDU_WORDS : list string.

(** The vectorizer's default token pattern, r"(?u)\b\w\w+\b". *)
Definition TOKEN : regex :=
  Seq WordB (Seq (Class word_char) (Seq (plus (Class word_char)) WordB)).

(** The terms [TfidfVectorizer(stop_words="english")] extracts from a
    document: lower-cased tokens that are not stop words. *)
Definition terms (doc : string) : list string :=
  filter (fun t => negb (mem t (ENGLISH_STOP_WORDS sk))) (findall false TOKEN (lower doc)).

(** [vec.fit_transform([a, b])] fails on an empty vocabulary. *)
Definition fit_transform (a b : string) : outcome (list string * list string) :=
  match (terms a ++ terms b)%list with
  | [] => Raise (ValueError msg_empty_vocabulary)
  | _ => Ok (terms a, terms b)
  end.

Definition tfidf_similarity (a b : string) : outcome Q :=
  if negb (TfidfVectorizer sk) || negb (truthy (strip a)) || negb (truthy (strip b))
  then Ok 0%Q
  else match fit_transform a b with
       | Raise e => Raise e
       | Ok (ra, rb) => Ok (cosine_similarity sk ra rb)
       end.

(** A) JD Similarity (0-35): the points and the suggestion of the stage. *)
Definition jd_supplied (jd_text : option string) : bool :=
  match jd_text with
  | Some jd => truthy jd && (20 <? List.length (split jd))
  | None => false
  end.

Definition jd_stage (text : string) (jd_text : option string) : outcome (Q * list string) :=
  match jd_text with
  | Some jd =>
      if jd_supplied jd_text then
        match tfidf_similarity text jd with
        | Raise e => Raise e
        | Ok sim =>
            Ok (Qmin 35 (round1 (sim * 35)),
                if Qltb sim (25 # 100) then [msg_tailor] else [])
        end
      else Ok (0%Q, [msg_paste_jd])
  | None => Ok (0%Q, [msg_paste_jd])
  end.

(** B) Role Keywords Coverage (0-25) *)
Definition default_role_words : list string :=
  match lookup "General / Fresher" ROLE_KEYWORDS with Some l => l | None => [] end.

(** [ROLE_KEYWORDS.get(role, ROLE_KEYWORDS["General / Fresher"])] *)
Definition role_words (role : string) : list string :=
  match lookup role ROLE_KEYWORDS with
  | Some l => l
  | None => default_role_words
  end.

Definition found (tl : string) (role_words : list string) : list string :=
  has_any tl role_words.

Definition coverage_of (n_found n_set : nat) : Q :=
  (of_nat n_found / of_nat (Nat.max n_set 1))%Q.

Definition coverage (tl : string) (role_words : list string) : Q :=
  coverage_of (List.length (found tl role_words)) (List.length (sorted_set role_words)).

Definition kw_points_of (n_found n_set : nat) : Q :=
  Qmin 25 (round1 (coverage_of n_found n_set * 25 + of_nat (Nat.min n_found 12))).

Definition kw_points (tl : string) (role_words : list string) : Q :=
  kw_points_of (List.length (found tl role_words)) (List.length (sorted_set role_words)).

Definition missing (tl : string) (role_words : list string) : string :=
  join ", " (firstn 10 (sorted_difference role_words (found tl role_words))).

Definition keyword_suggestions (tl role : string) (role_words : list string) : list string :=
  if Qltb (coverage tl role_words) (1 # 2)
  then [msg_keywords role (missing tl role_words)]
  else [].

(** C) Structure & Sections (0-15) *)
Definition struct_sum (tl : string) : Q :=
  fold_left (fun struct '(_, aliases) =>
               if any_in tl aliases then (struct + 15 / 5)%Q else struct)
            SECTIONS 0%Q.

Definition struct (tl : string) : Q := round1 (struct_sum tl).

(** The number of catalog sections detected in a text (the k of the
    specification). *)
Definition sections_detected (tl : string) : nat :=
  List.length (filter (fun '(_, aliases) => any_in tl aliases) SECTIONS).

Definition struct_suggestions (tl : string) : list string :=
  flat_map (fun '(sec, aliases) => if any_in tl aliases then [] else [msg_section sec]) SECTIONS.

(** D) Impact Signals (0-15) *)
Definition nums (tl : string) : nat := count_regex tl NUMBER.
Definition actions (tl : string) : nat := List.length (has_any tl ACTION_VERBS).

Definition impact (tl : string) : Q :=
  Qmin 15 (round1 (of_nat (Nat.min (nums tl) 6) * (18 # 10)
                   + of_nat (Nat.min (actions tl) 6) * (9 # 10))).

Definition impact_suggestions (tl : string) : list string :=
  ((if nums tl <? 3 then [msg_quantify] else []) ++
   (if actions tl <? 3 then [msg_verbs] else []))%list.

(** E) ATS Basics & Formatting (0-10) *)
Definition email_ok (tl : string) : bool := search false EMAIL tl.
Definition phone_ok (tl : string) : bool := search false PHONE tl.
Definition bullets (text : string) : nat := count_regex text BULLET.

Definition is_special (ch : ascii) : bool :=
  negb (isalnum ch || isspace ch || char_in ch ".,;:-()/&+%").

Definition specials (text : string) : Q :=
  (of_nat (List.length (filter is_special (chars text))) / of_nat (Nat.max (len text) 1))%Q.

Definition ats (text tl : string) : Q :=
  of_nat ((if email_ok tl then 3 else 0) + (if phone_ok tl then 3 else 0) +
          (if 5 <=? bullets text then 2 else 0) +
          (if Qltb (specials text) (5 # 100) then 2 else 0)).

Definition ats_suggestions (text tl : string) : list string :=
  ((if email_ok tl then [] else [msg_email]) ++
   (if phone_ok tl then [] else [msg_phone]) ++
   (if Qltb (specials text) (5 # 100) then [] else [msg_graphics]))%list.

(** F) Education & Certifications (0-5) *)
Definition edu_hits (tl : string) : nat := List.length (has_any tl EDU_WORDS).
Definition cert_hits (tl : string) : nat := List.length (has_any tl CERT_WORDS).

Definition edu (tl : string) : Q :=
  Qmin 5 (round1 (of_nat ((if 0 <? edu_hits tl then 1 else 0) * 3)
                  + of_nat (Nat.min (cert_hits tl) 2) * 1)).

Definition edu_suggestions (tl : string) : list string :=
  ((if edu_hits tl =? 0 then [msg_education] else []) ++
   (if cert_hits tl =? 0 then [msg_certs] else []))%list.

Definition length_suggestions (word_count : nat) : list string :=
  if (300 <=? word_count) && (word_count <=? 900) then [] else [msg_length].

(** The function once [role_words] is looked up. *)
Definition score_body (role_words : list string) (text role : string) (jd_text : option string)
  : outcome triple :=
  let tl := lower text in
  let word_count := List.length (split tl) in
  match jd_stage text jd_text with
  | Raise e => Raise e
  | Ok (jd_points, jd_suggestions) =>
      let suggestions :=
        (jd_suggestions ++ keyword_suggestions tl role role_words ++ struct_suggestions tl ++
         impact_suggestions tl ++ ats_suggestions text tl ++ edu_suggestions tl ++
         length_suggestions word_count)%list in
      let total :=
        round1 (jd_points + kw_points tl role_words + struct tl + impact tl + ats text tl
                + edu tl) in
      let breakdown :=
        [ ("JD Similarity", jd_points);
          ("Keywords", kw_points tl role_words);
          ("Structure", struct tl);
          ("Impact", impact tl);
          ("ATS", ats text tl);
          ("Education/Certs", edu tl);
          ("Word Count", of_nat word_count) ] in
      Ok (total, breakdown, firstn 10 (dedup suggestions))
  end.

Definition score_resume (text role : string) (jd_text : option string) : outcome triple :=
  score_body (role_words role) text role jd_text.

End Engine.

(** [score_resume] with the tables of the module. *)
Definition score (sk : sklearn) (text role : string) (jd_text : option string) : outcome triple :=
  score_resume sk ROLE_KEYWORDS ACTION_VERBS CERT_WORDS EDU_WORDS text role jd_text.

End V2.

(* ================================================================= *)
(** ** The module state: tables as shared, mutable objects

    The tables of both files are module-level lists and dicts, which
    Python passes by reference.  Here they are objects in a store; a name
    of the module is bound to a location.  [score_resume] is written a
    second time as a store-passing program that follows the source's
    object operations ([.get], [.copy()], [+=], iteration); everything
    else is the body defined above. *)

Module Store.
Import PyStr PyNum Result.

Definition loc : Type := nat.

Inductive pyobj : Type :=
| PList (items : list string)
| PDict (entries : list (string * loc)).

Definition heap : Type := list pyobj.

(** A computation on the store. *)
Definition M (A : Type) : Type := heap -> outcome A * heap.

Definition ret {A : Type} (a : A) : M A := fun h => (Ok a, h).

Definition bind {A B : Type} (m : M A) (f : A -> M B) : M B :=
  fun h => match m h with
           | (Ok a, h') => f a h'
           | (Raise e, h') => (Raise e, h')
           end.

Definition raise {A : Type} (e : exn) : M A := fun h => (Raise e, h).

Definition lift {A : Type} (o : outcome A) : M A := fun h => (o, h).

Notation "x <- m ;; f" := (bind m (fun x => f))
  (at level 61, m at next level, right associativity).

(** Replace the object at a location. *)
Fixpoint update (l : loc) (o : pyobj) (h : heap) : heap :=
  match h, l with
  | [], _ => []
  | _ :: h', O => o :: h'
  | x :: h', S l' => x :: update l' o h'
  end.

(** A new object. *)
Definition alloc (o : pyobj) : M loc :=
  fun h => (Ok (List.length h), (h ++ [o])%list).

(** Reading a list object; an object of another kind is a [TypeError]. *)
Definition list_load (l : loc) : M (list string) :=
  fun h => match nth_error h l with
           | Some (PList items) => (Ok items, h)
           | _ => (Raise TypeError, h)
           end.

Definition dict_load (l : loc) : M (list (string * loc)) :=
  fun h => match nth_error h l with
           | Some (PDict entries) => (Ok entries, h)
           | _ => (Raise TypeError, h)
           end.

(** [l.copy()]: a new list object with the same items. *)
Definition list_copy (l : loc) : M loc :=
  items <- list_load l ;; alloc (PList items).

(** [l += more]: the list object itself is extended. *)
Definition list_iadd (l : loc) (more : list string) : M unit :=
  items <- list_load l ;;
  fun h => (Ok tt, update l (PList (items ++ more)) h).

(** [d[key]] *)
Definition dict_subscript (d : loc) (key : string) : M loc :=
  entries <- dict_load d ;;
  match lookup key entries with
  | Some l => ret l
  | None => raise (KeyError key)
  end.

(** [d.get(key, default)], the default already evaluated *)
Definition dict_get (d : loc) (key : string) (default : loc) : M loc :=
  entries <- dict_load d ;;
  match lookup key entries with
  | Some l => ret l
  | None => ret default
  end.

(** [d.items()] of a dict of lists, each list read as the loop reaches it. *)
Fixpoint load_items (entries : list (string * loc)) : M (list (string * list string)) :=
  match entries with
  | [] => ret []
  | (k, l) :: rest =>
      items <- list_load l ;;
      others <- load_items rest ;;
      ret ((k, items) :: others)
  end.

Definition dict_items (d : loc) : M (list (string * list string)) :=
  entries <- dict_load d ;; load_items entries.

(** The names a module binds to its tables. *)
Record globals : Type := {
  g_sections : loc;     (* SECTION_HINTS, STANDARD_SECTIONS *)
  g_roles : loc;        (* ROLE_KEYWORDS *)
  g_verbs : loc;        (* ACTION_VERBS *)
  g_certs : loc;        (* CERT_WORDS *)
  g_edu : loc           (* EDU_WORDS *)
}.

(** Building a dict display whose values are list displays. *)
Fixpoint alloc_entries (table : list (string * list string)) : M (list (string * loc)) :=
  match table with
  | [] => ret []
  | (k, items) :: rest =>
      l <- alloc (PList items) ;;
      others <- alloc_entries rest ;;
      ret ((k, l) :: others)
  end.

Definition alloc_table (table : list (string * list string)) : M loc :=
  entries <- alloc_entries table ;; alloc (PDict entries).

(** The top-level assignments of ai_resume_score_app.py, in order. *)
Definition v1_init : M globals :=
  roles <- alloc_table V1.ROLE_KEYWORDS ;;
  verbs <- alloc (PList V1.ACTION_VERBS) ;;
  certs <- alloc (PList V1.CERT_WORDS) ;;
  edu <- alloc (PList V1.EDU_WORDS) ;;
  sections <- alloc_table V1.SECTION_HINTS ;;
  ret {| g_sections := sections; g_roles := roles; g_verbs := verbs;
         g_certs := certs; g_edu := edu |}.

(** The top-level assignments of ai_resume_score_app_v2.py, in order. *)
Definition v2_init : M globals :=
  sections <- alloc_table V2.STANDARD_SECTIONS ;;
  roles <- alloc_table V2.ROLE_KEYWORDS ;;
  verbs <- alloc (PList V2.ACTION_VERBS) ;;
  certs <- alloc (PList V2.CERT_WORDS) ;;
  edu <- alloc (PList V2.EDU_WORDS) ;;
  ret {| g_sections := sections; g_roles := roles; g_verbs := verbs;
         g_certs := certs; g_edu := edu |}.

(** The state of each module once it is loaded. *)
Definition globals_of (init : M globals) : globals :=
  match fst (init []) with
  | Ok g => g
  | Raise _ => {| g_sections := 0; g_roles := 0; g_verbs := 0; g_certs := 0; g_edu := 0 |}
  end.

Definition v1_globals : globals := Eval vm_compute in globals_of v1_init.
Definition v1_heap : heap := Eval vm_compute in snd (v1_init []).
Definition v2_globals : globals := Eval vm_compute in globals_of v2_init.
Definition v2_heap : heap := Eval vm_compute in snd (v2_init []).

(** [score_resume] of ai_resume_score_app.py on the store. *)
Definition v1_score_resume (g : globals) (text target_role : string)
           (extra_keywords : option string) : M triple :=
  hints <- dict_items (g_sections g) ;;
  default <- dict_subscript (g_roles g) "General / Fresher" ;;
  entry <- dict_get (g_roles g) target_role default ;;
  role_words <- list_copy entry ;;
  _ <- match extra_keywords with
       | Some e => if truthy e then list_iadd role_words (V1.extra_list e) else ret tt
       | None => ret tt
       end ;;
  words <- list_load role_words ;;
  verbs <- list_load (g_verbs g) ;;
  edu <- list_load (g_edu g) ;;
  certs <- list_load (g_certs g) ;;
  ret (V1.score_body hints verbs certs edu words text target_role).

(** [score_resume] of ai_resume_score_app_v2.py on the store. *)
Definition v2_score_resume (sk : V2.sklearn) (g : globals) (text role : string)
           (jd_text : option string) : M triple :=
  default <- dict_subscript (g_roles g) "General / Fresher" ;;
  role_words <- dict_get (g_roles g) role default ;;
  words <- list_load role_words ;;
  verbs <- list_load (g_verbs g) ;;
  edu <- list_load (g_edu g) ;;
  certs <- list_load (g_certs g) ;;
  lift (V2.score_body sk verbs certs edu words text role jd_text).

(** A computation that only reads the store. *)
Definition reads {A : Type} (m : M A) : Prop := forall h : heap, snd (m h) = h.

(** The entries of a dict are the lists of a table, key by key. *)
Definition holds_table (h : heap) (entries : list (string * loc))
           (table : list (string * list string)) : Prop :=
  Forall2 (fun e t => fst e = fst t /\ nth_error h (snd e) = Some (PList (snd t)))
          entries table.

(** The dicts of the loaded modules. *)
Definition v1_role_entries : list (string * loc) :=
  [("General / Fresher", 0); ("Data Analyst", 1); ("Business Analyst", 2);
   ("Digital Marketing", 3); ("Project Management", 4); ("UI/UX Design", 5);
   ("Software Developer", 6)].

Definition v1_section_entries : list (string * loc) :=
  [("Summary/Objectives", 11); ("Experience", 12); ("Projects", 13); ("Education", 14);
   ("Skills", 15); ("Certifications", 16); ("Achievements", 17)].

Definition v2_role_entries : list (string * loc) :=
  [("Data Analyst", 7); ("Business Analyst", 8); ("Digital Marketing", 9);
   ("Project Management", 10); ("UI/UX Design", 11); ("General / Fresher", 12)].

(** A computation keeps the objects below [n]: run on a store that has
    them, it leaves each of them as it was, and what it returns satisfies
    [post]. *)
Definition keeps (n : nat) {A : Type} (m : M A) (post : A -> Prop) : Prop :=
  forall h : heap,
    n <= List.length h ->
    firstn n (snd (m h)) = firstn n h /\
    n <= List.length (snd (m h)) /\
    (forall a, fst (m h) = Ok a -> post a).

End Store.

(* ================================================================= *)
(** ** Inputs used in the examples below *)

Module Inputs.
Import PyStr.

(** Twenty-one words, none of them long enough to be a token. *)
Definition short_words : string := repeat_str "a " 21.

(** Twenty-one words, each a term and a keyword. *)
Definition keyword_words : string := repeat_str "sql " 21.

(** A text that earns every band of the blend variant when it is also
    pasted as the job description. *)
Definition full_marks : string :=
  "summary experience education skills certifications project internship team lead communication python excel sql presentation award led built created developed designed launched 1 2 3 4 5 6 a@b.co 9876543210 degree certified aws
- 
- 
- 
- 
- ".

End Inputs.

(* ================================================================= *)
(** ** ai_resume_score_app.py: the helpers next to [score_resume] *)

Module Helpers.
Import PyStr PyNum.

(** [int(x)]: the integer part, truncated toward zero. *)
Definition int_of (x : Q) : Z := Z.quot (Qnum x) (Z.pos (Qden x)).

(** [pct(n, d)] *)
Definition pct (n d : Q) : Q :=
  if Qeq_bool d 0 then 0%Q else round1 (n / d * 100).

(** [estimate_read_time_words(text)]: the words and the minutes. *)
Definition estimate_read_time_words (text : string) : nat * Z :=
  let words := List.length (split text) in
  (words, Z.max 1 (int_of (of_nat words / 200))).

End Helpers.

(* ================================================================= *)
(** ** Uploaded files: the pre-checks and the text extraction

    The upload, PyPDF2 (or pypdf) and docx2txt are not part of the
    repository.  They are modelled by what the source does with them: a
    call returns or raises, and the same bytes give the same answer. *)

Module Upload.
Import PyStr PyNum Result.

(** [s.endswith(suffix)] *)
Fixpoint endswith (s suffix : string) : bool :=
  String.eqb s suffix ||
  match s with
  | EmptyString => false
  | String _ s' => endswith s' suffix
  end.

(** [s[n:]] *)
Fixpoint drop (n : nat) (s : string) : string :=
  match n, s with
  | O, _ => s
  | S n', String _ s' => drop n' s'
  | S _, EmptyString => EmptyString
  end.

(** [s.rfind(c)] for a one-character [c]; [None] is Python's -1. *)
Fixpoint rfind_from (c : ascii) (s : string) (i : nat) (last : option nat) : option nat :=
  match s with
  | EmptyString => last
  | String c' s' => rfind_from c s' (S i) (if Ascii.eqb c' c then Some i else last)
  end.

Definition rfind (c : ascii) (s : string) : option nat := rfind_from c s 0 None.

(** [os.path.splitext(p)] (posixpath): the extension starts at the last
    dot of the last path component, unless only dots come before it. *)
Definition splitext (p : string) : string * string :=
  let sepIndex := rfind "/" p in
  let dotIndex := rfind "." p in
  let filenameIndex := match sepIndex with Some i => S i | None => 0 end in
  match dotIndex with
  | Some d =>
      if (filenameIndex <=? d) &&
         existsb (fun i => match String.get i p with
                           | Some c => negb (Ascii.eqb c ".")
                           | None => false
                           end)
                 (seq filenameIndex (d - filenameIndex))
      then (substring 0 d p, drop d p)
      else (p, EmptyString)
  | None => (p, EmptyString)
  end.

(** An uploaded file: [file.name], [getattr(file, "size", None)] and what
    [file.read()] gives. *)
Record file : Type := {
  name : string;
  size : option N;
  read : outcome string
}.

(** [page.extract_text()] returns a string or [None], or raises. *)
Definition page : Type := outcome (option string).

(** A reader [PdfReader(io.BytesIO(data))] built: [reader.pages] is
    fetched page by page, and fetching a page can raise. *)
Record pdf_reader : Type := {
  is_encrypted : bool;                (* getattr(reader, "is_encrypted", False) *)
  decrypt : outcome unit;             (* reader.decrypt("") *)
  pages : list (outcome page)
}.

(** The libraries as a module sees them; [None] when the import failed.
    [docx2txt] stands for writing the bytes to a temporary file and
    [docx2txt.process(path)] on it; [decode] for
    [data.decode("utf-8", errors="ignore")]. *)
Record libs : Type := {
  PyPDF2 : option (string -> outcome pdf_reader);
  docx2txt : option (string -> outcome (option string));
  decode : string -> outcome string
}.

(** [x or ""] *)
Definition or_empty (x : option string) : string :=
  match x with Some s => s | None => EmptyString end.

(** [try: text += page.extract_text() or "" / except Exception: continue] *)
Definition add_page (text : string) (p : page) : string :=
  match p with
  | Ok t => text ++ or_empty t
  | Raise _ => text
  end.

(** [for page in pages: ...]: the text gathered, and the exception that
    ended the loop when a page could not be fetched. *)
Fixpoint read_pages (ps : list (outcome page)) (text : string) : string * option exn :=
  match ps with
  | [] => (text, None)
  | Raise e :: _ => (text, Some e)
  | Ok p :: rest => read_pages rest (add_page text p)
  end.

Definition raises {A : Type} (o : outcome A) : bool :=
  match o with Raise _ => true | Ok _ => false end.

Definition blank (s : string) : bool := negb (truthy (strip s)).

(** *** [extract_text_from_file] of ai_resume_score_app.py and
        [extract_text] of ai_resume_score_app_v2.py *)

(** The PDF attempt: what [text] holds when the [try] block is left. *)
Definition pdf_text (PdfReader : string -> outcome pdf_reader) (data : string) : string :=
  match PdfReader data with
  | Ok reader => fst (read_pages (pages reader) EmptyString)
  | Raise _ => EmptyString
  end.

(** The plain-text fallback. *)
Definition decoded (lib : libs) (data : string) : string :=
  match decode lib data with
  | Ok s => s
  | Raise _ => EmptyString
  end.

Definition docx_attempt (lib : libs) (name data : string) : string :=
  match (if endswith name ".docx" then docx2txt lib else None) with
  | Some process =>
      match process data with
      | Ok t => if blank (or_empty t) then decoded lib data else or_empty t
      | Raise _ => decoded lib data
      end
  | None => decoded lib data
  end.

Definition extract_text (lib : libs) (f : file) : outcome string :=
  let name := lower (name f) in
  match read f with
  | Raise e => Raise e
  | Ok data =>
      match (if endswith name ".pdf" then PyPDF2 lib else None) with
      | Some PdfReader =>
          let text := pdf_text PdfReader data in
          if blank text then Ok (docx_attempt lib name data) else Ok text
      | None => Ok (docx_attempt lib name data)
      end
  end.

(** *** The v1.3 copy in ai_resume_score_app.py *)

Definition ALLOWED_EXTS : list string := [".pdf"; ".docx"; ".txt"].
Definition MAX_FILE_MB : N := 5.
Definition MAX_FILE_BYTES : N := MAX_FILE_MB * 1024 * 1024.

(** [str(n)] for a number that is not negative. *)
Definition str_of_N (n : N) : string :=
  DecimalString.NilZero.string_of_uint (N.to_uint n).

(** [f"{x:.1f}"] for a number that is not negative. *)
Definition format_1f (x : Q) : string :=
  let t := Z.to_N (round_half_even (x * 10)) in
  str_of_N (t / 10) ++ "." ++ str_of_N (t mod 10).

(** [fmt_mb(num_bytes)] *)
Definition fmt_mb (num_bytes : N) : string :=
  format_1f (inject_Z (Z.of_N num_bytes) / 1024 / 1024) ++ " MB".

Definition msg_unsupported : string :=
  "Unsupported file type. Please upload PDF, DOCX or TXT.".
Definition msg_empty : string := "This file is empty. Please upload a valid resume file.".
Definition msg_too_large (size : N) : string :=
  "File too large (" ++ fmt_mb size ++ "). Max allowed is " ++ str_of_N MAX_FILE_MB ++ " MB.".
Definition msg_no_pdf_reader : string :=
  "PDF reader is not available on server. Ask us at the desk or upload DOCX.".
Definition msg_protected : string :=
  "This PDF is password-protected. Export an unlocked PDF or upload DOCX.".
Definition msg_scanned : string :=
  "This PDF looks like a scanned image. Upload a text-based PDF or DOCX.".
Definition msg_cannot_open_pdf : string :=
  "We couldn't open this PDF. Export a new text-based PDF or upload DOCX.".
Definition msg_cannot_read : string :=
  "We couldn't read this file. Re-upload or try a different format.".
Definition msg_pdf_reader_missing : string := "PDF reader not available on server.".
Definition msg_docx_reader_missing : string := "DOCX reader not available on server.".
Definition msg_docx_no_text : string :=
  "We couldn't read text from this DOCX. Save again or upload as PDF.".
Definition msg_cannot_open_docx : string :=
  "We couldn't open this DOCX. Save again or upload as PDF.".
Definition msg_txt_unreadable : string :=
  "This text file could not be read. Please try a PDF or DOCX.".

(** The dict [checks] of [precheck_file]. *)
Record checks : Type := {
  type_supported : bool;
  size_ok : bool;
  not_empty : bool;
  readable_text : bool;
  not_password_protected : bool;
  pdf_reader_available : bool
}.

(** [checks["readable_text"] = b] and [checks["not_password_protected"] = b] *)
Definition set_readable_text (c : checks) (b : bool) : checks :=
  {| type_supported := type_supported c; size_ok := size_ok c; not_empty := not_empty c;
     readable_text := b; not_password_protected := not_password_protected c;
     pdf_reader_available := pdf_reader_available c |}.

Definition set_not_password_protected (c : checks) (b : bool) : checks :=
  {| type_supported := type_supported c; size_ok := size_ok c; not_empty := not_empty c;
     readable_text := readable_text c; not_password_protected := b;
     pdf_reader_available := pdf_reader_available c |}.

Definition is_some {A : Type} (o : option A) : bool :=
  match o with Some _ => true | None => false end.

(** The extension [precheck_file] tests. *)
Definition ext_of (f : file) : string := lower (snd (splitext (name f))).

(** The checks as the dict display builds them. *)
Definition initial_checks (lib : libs) (f : file) : checks :=
  let ext := ext_of f in
  {| type_supported := mem ext ALLOWED_EXTS;
     size_ok := match size f with Some n => (n <=? MAX_FILE_BYTES)%N | None => false end;
     not_empty := (0 <? match size f with Some n => n | None => 0 end)%N;
     readable_text := false;
     not_password_protected := true;
     pdf_reader_available := if String.eqb ext ".pdf" then is_some (PyPDF2 lib) else true |}.

(** The part of [precheck_file] inside the outer [try]. *)
Definition precheck_read (lib : libs) (f : file) (c : checks) : checks * string :=
  match read f with
  | Raise _ => (c, msg_cannot_read)
  | Ok data =>
      match (if String.eqb (ext_of f) ".pdf" then PyPDF2 lib else None) with
      | Some PdfReader =>
          match PdfReader data with
          | Raise _ => (c, msg_cannot_open_pdf)
          | Ok reader =>
              if is_encrypted reader && raises (decrypt reader)
              then (set_not_password_protected c false, msg_protected)
              else match read_pages (firstn 2 (pages reader)) EmptyString with
                   | (_, Some _) => (c, msg_cannot_open_pdf)
                   | (txt, None) =>
                       let c' := set_readable_text c (truthy (strip txt)) in
                       if readable_text c' then (c', EmptyString) else (c', msg_scanned)
                   end
          end
      | None => (set_readable_text c true, EmptyString)
      end
  end.

(** [precheck_file(file)]: the checks and the first error. *)
Definition precheck_file (lib : libs) (f : file) : outcome (checks * string) :=
  let c := initial_checks lib f in
  if negb (type_supported c) then Ok (c, msg_unsupported)
  else if negb (not_empty c) then Ok (c, msg_empty)
  else if negb (size_ok c) then
    match size f with
    | Some n => Ok (c, msg_too_large n)
    | None => Raise TypeError            (* fmt_mb(None) *)
    end
  else if String.eqb (ext_of f) ".pdf" && negb (pdf_reader_available c)
  then Ok (c, msg_no_pdf_reader)
  else Ok (precheck_read lib f c).

(** [extract_text_from_file(uploaded_file)]: the text and a hint. *)
Definition extract_text_from_file (lib : libs) (f : file) : outcome (string * string) :=
  let name := lower (name f) in
  match read f with
  | Raise e => Raise e
  | Ok data =>
      if endswith name ".pdf" then
        match PyPDF2 lib with
        | None => Ok (EmptyString, msg_pdf_reader_missing)
        | Some PdfReader =>
            match PdfReader data with
            | Raise _ => Ok (EmptyString, msg_cannot_open_pdf)
            | Ok reader =>
                if is_encrypted reader && raises (decrypt reader)
                then Ok (EmptyString, msg_protected)
                else match read_pages (pages reader) EmptyString with
                     | (_, Some _) => Ok (EmptyString, msg_cannot_open_pdf)
                     | (text, None) =>
                         if blank text then Ok (EmptyString, msg_scanned)
                         else Ok (text, EmptyString)
                     end
            end
        end
      else if endswith name ".docx" then
        match docx2txt lib with
        | None => Ok (EmptyString, msg_docx_reader_missing)
        | Some process =>
            match process data with
            | Raise _ => Ok (EmptyString, msg_cannot_open_docx)
            | Ok t =>
                let text := or_empty t in
                if blank text then Ok (EmptyString, msg_docx_no_text)
                else Ok (text, EmptyString)
            end
        end
      else if endswith name ".txt" then
        match decode lib data with
        | Raise _ => Ok (EmptyString, msg_txt_unreadable)
        | Ok text => Ok (text, EmptyString)
        end
      else Ok (EmptyString, msg_unsupported)
  end.

End Upload.

(* ================================================================= *)
(** ** The pages: what a submitted form leads to *)

Module Page.
Import PyStr PyNum Result Upload.

(** The row a page hands to [save_lead] (the timestamp and the CSV file
    it is appended to are outside the model). *)
Record lead : Type := {
  lead_name : string;
  lead_email : string;
  lead_phone : string;
  lead_target_role : string;
  lead_extra_keywords : option string;
  lead_score : Q;
  lead_breakdown : breakdown;
  lead_word_count : Q
}.

(** What a submission shows: an error, or a score after its lead is saved. *)
Inductive shown : Type :=
| Error (message : string)               (* st.error(message) *)
| Scored (r : triple) (row : lead).      (* save_lead(row); st.success(...); the metrics *)

(** [breakdown.get("Word Count", 0)] *)
Definition word_count_of (b : breakdown) : Q :=
  match lookup "Word Count" b with Some v => v | None => 0%Q end.

Definition msg_fill_v1 : string :=
  "Please fill all fields, upload a resume, and accept the consent checkbox.".
Definition msg_no_text_v1_3 : string :=
  "We couldn't read any text. Please upload a **text-based** PDF or a DOCX file (not a photo/scanned image).".
Definition msg_fill_v2 : string :=
  "Please fill all fields, upload a resume, and accept consent.".
Definition msg_no_text_v2 : string :=
  "Could not read your file. Please upload a text-based PDF/DOCX/TXT.".

(** The [if submitted:] block of the v1.3 copy in ai_resume_score_app.py. *)
Definition submit_v1_3 (lib : libs) (name email phone : string) (uploaded : option file)
           (agree : bool) (target_role extra_kw : string) : outcome shown :=
  match uploaded with
  | Some f =>
      if truthy name && truthy email && truthy phone && agree then
        match precheck_file lib f with
        | Raise e => Raise e
        | Ok (_, first_error) =>
            if truthy first_error then Ok (Error first_error)
            else
              match extract_text_from_file lib f with
              | Raise e => Raise e
              | Ok (raw_text, hint) =>
                  if truthy hint then Ok (Error hint)
                  else if blank raw_text then Ok (Error msg_no_text_v1_3)
                  else
                    let r := V1.score_v1_3 raw_text target_role (Some extra_kw) in
                    Ok (Scored r {| lead_name := name; lead_email := email;
                                    lead_phone := phone; lead_target_role := target_role;
                                    lead_extra_keywords := Some extra_kw;
                                    lead_score := total r;
                                    lead_breakdown := breakdown_of r;
                                    lead_word_count := word_count_of (breakdown_of r) |})
              end
        end
      else Ok (Error msg_fill_v1)
  | None => Ok (Error msg_fill_v1)
  end.

(** The [if submitted:] block of ai_resume_score_app_v2.py, up to the
    point where the score is shown.  [save_lead] stands for the function
    of that name: what appending the row to the CSV file returns or
    raises. *)
Definition submit_v2 (sk : V2.sklearn) (lib : libs) (save_lead : lead -> outcome unit)
           (name email phone role : string)
           (resume_file : option file) (jd_text : string) (consent : bool) : outcome shown :=
  match resume_file with
  | Some f =>
      if truthy name && truthy email && truthy phone && consent then
        match extract_text lib f with
        | Raise e => Raise e
        | Ok raw =>
            if blank raw then Ok (Error msg_no_text_v2)
            else
              match V2.score sk raw role (Some jd_text) with
              | Raise e => Raise e
              | Ok r =>
                  let row := {| lead_name := name; lead_email := email;
                                lead_phone := phone; lead_target_role := role;
                                lead_extra_keywords := None;
                                lead_score := total r;
                                lead_breakdown := breakdown_of r;
                                lead_word_count := word_count_of (breakdown_of r) |} in
                  match save_lead row with
                  | Raise e => Raise e
                  | Ok _ => Ok (Scored r row)
                  end
              end
        end
      else Ok (Error msg_fill_v2)
  | None => Ok (Error msg_fill_v2)
  end.

End Page.

(* ================================================================= *)
(** ** Notions used in the statements and proofs below *)

Module Notions.
Import PyStr Re Result.

(** A position of the matcher, lower-cased. *)
Definition lower_pos (p : pos) : pos := (option_map lower_char (fst p), lower (snd p)).

(** A continuation [k'] does on lower-cased positions what [k] does. *)
Definition lowered (k k' : pos -> option pos) : Prop :=
  forall p, k' (lower_pos p) = option_map lower_pos (k p).

(** One turn of the loop that removes repeated suggestions. *)
Definition dedup_step (cleaned : list string) (s : string) : list string :=
  if mem s cleaned then cleaned else (cleaned ++ [s])%list.

(** The order [sorted] puts strings in. *)
Definition str_lt (x y : string) : Prop := String.compare x y = Lt.

(** A string with a character that is not white space. *)
Fixpoint inked (s : string) : bool :=
  match s with
  | EmptyString => false
  | String c s' => negb (isspace c) || inked s'
  end.

(** All six pre-checks passed. *)
Definition all_passed (c : Upload.checks) : bool :=
  Upload.type_supported c && Upload.size_ok c && Upload.not_empty c &&
  Upload.readable_text c && Upload.not_password_protected c && Upload.pdf_reader_available c.

End Notions.

(* ================================================================= *)
(** ** Uploads used in the examples below *)

Module Samples.
Import Result Upload.

(** Libraries that are installed: the PDF reader finds one page holding
    the bytes as text, the DOCX reader returns the bytes, the bytes decode
    to themselves. *)
Definition plain_libs : libs :=
  {| PyPDF2 := Some (fun data =>
                       Ok {| is_encrypted := false; decrypt := Ok tt;
                             pages := [Ok (Ok (Some data))] |});
     docx2txt := Some (fun data => Ok (Some data));
     decode := fun data => Ok data |}.

(** A server without the optional libraries. *)
Definition no_libs : libs :=
  {| PyPDF2 := None; docx2txt := None; decode := fun data => Ok data |}.

Definition cv_pdf : file :=
  {| name := "CV.PDF"; size := Some 2048%N; read := Ok "Led a team of 12; SQL and Excel" |}.

(** A file named like a hidden file: no extension for [os.path.splitext]. *)
Definition dot_pdf : file :=
  {| name := ".pdf"; size := Some 2048%N; read := Ok "Led a team of 12" |}.

End Samples.

(* ================================================================= *)
(** ** Python strings beyond ASCII *)

(** [str.lower()] and [str.strip()] as CPython 3.11 runs them on any text
    (Unicode 14.0), and the Keywords stage of the flat-rate [score_resume]
    over them.  On ASCII text they are the functions of [PyStr]. *)
Module Unicode.
Import PyStr PyNum.
Local Open Scope N_scope.

(** [s.isascii()] *)
Fixpoint is_ascii (s : string) : bool :=
  match s with
  | EmptyString => true
  | String c s' => (code c <? 128) && is_ascii s'
  end.

Definition is_ascii_opt (o : option string) : bool :=
  match o with Some s => is_ascii s | None => true end.

(** The six low bits of a continuation byte. *)
Definition payload (c : ascii) : N := code c mod 64.

(** The characters (code points) of a string, from its UTF-8 encoding.
    A byte that is not part of a well-formed sequence, which no Python
    [str] has, is read as a character of its own. *)
Fixpoint decode (s : string) : list N :=
  match s with
  | EmptyString => []
  | String a s1 =>
      if code a <? 192 then code a :: decode s1
      else if code a <? 224 then
        match s1 with
        | String b s2 => ((code a - 192) * 64 + payload b) :: decode s2
        | EmptyString => [code a]
        end
      else if code a <? 240 then
        match s1 with
        | String b (String c s3) =>
            (((code a - 224) * 64 + payload b) * 64 + payload c) :: decode s3
        | _ => code a :: decode s1
        end
      else
        match s1 with
        | String b (String c (String d s4)) =>
            ((((code a - 240) * 64 + payload b) * 64 + payload c) * 64 + payload d) :: decode s4
        | _ => code a :: decode s1
        end
  end.

Definition byte (n : N) : ascii := ascii_of_N n.

Definition encode_point (c : N) : string :=
  if c <? 128 then String (byte c) EmptyString
  else if c <? 2048 then
    String (byte (192 + c / 64)) (String (byte (128 + c mod 64)) EmptyString)
  else if c <? 65536 then
    String (byte (224 + c / 4096))
      (String (byte (128 + c / 64 mod 64)) (String (byte (128 + c mod 64)) EmptyString))
  else
    String (byte (240 + c / 262144))
      (String (byte (128 + c / 4096 mod 64))
         (String (byte (128 + c / 64 mod 64)) (String (byte (128 + c mod 64)) EmptyString))).

Fixpoint encode (l : list N) : string :=
  match l with
  | [] => EmptyString
  | c :: l' => (encode_point c ++ encode l')%string
  end.

Definition in_ranges (ranges : list (N * N)) (c : N) : bool :=
  existsb (fun '(lo, hi) => (lo <=? c) && (c <=? hi)) ranges.

(** The characters with a lower-case form of one character: those from
    [lo] to [hi] in steps of [step], the first of which becomes [target],
    the next [target + step], and so on. *)
Definition LOWER : list (N * N * N * N) :=
  [
   (65, 90, 1, 97); (192, 214, 1, 224); (216, 222, 1, 248); (256, 302, 2, 257);
   (306, 310, 2, 307); (313, 327, 2, 314); (330, 374, 2, 331); (376, 376, 1, 255);
   (377, 381, 2, 378); (385, 385, 1, 595); (386, 388, 2, 387); (390, 390, 1, 596);
   (391, 391, 1, 392); (393, 394, 1, 598); (395, 395, 1, 396); (398, 398, 1, 477);
   (399, 399, 1, 601); (400, 400, 1, 603); (401, 401, 1, 402); (403, 403, 1, 608);
   (404, 404, 1, 611); (406, 406, 1, 617); (407, 407, 1, 616); (408, 408, 1, 409);
   (412, 412, 1, 623); (413, 413, 1, 626); (415, 415, 1, 629); (416, 420, 2, 417);
   (422, 422, 1, 640); (423, 423, 1, 424); (425, 425, 1, 643); (428, 428, 1, 429);
   (430, 430, 1, 648); (431, 431, 1, 432); (433, 434, 1, 650); (435, 437, 2, 436);
   (439, 439, 1, 658); (440, 440, 1, 441); (444, 444, 1, 445); (452, 452, 1, 454);
   (453, 453, 1, 454); (455, 455, 1, 457); (456, 456, 1, 457); (458, 458, 1, 460);
   (459, 475, 2, 460); (478, 494, 2, 479); (497, 497, 1, 499); (498, 500, 2, 499);
   (502, 502, 1, 405); (503, 503, 1, 447); (504, 542, 2, 505); (544, 544, 1, 414);
   (546, 562, 2, 547); (570, 570, 1, 11365); (571, 571, 1, 572); (573, 573, 1, 410);
   (574, 574, 1, 11366); (577, 577, 1, 578); (579, 579, 1, 384); (580, 580, 1, 649);
   (581, 581, 1, 652); (582, 590, 2, 583); (880, 882, 2, 881); (886, 886, 1, 887);
   (895, 895, 1, 1011); (902, 902, 1, 940); (904, 906, 1, 941); (908, 908, 1, 972);
   (910, 911, 1, 973); (913, 929, 1, 945); (931, 939, 1, 963); (975, 975, 1, 983);
   (984, 1006, 2, 985); (1012, 1012, 1, 952); (1015, 1015, 1, 1016); (1017, 1017, 1, 1010);
   (1018, 1018, 1, 1019); (1021, 1023, 1, 891); (1024, 1039, 1, 1104); (1040, 1071, 1, 1072);
   (1120, 1152, 2, 1121); (1162, 1214, 2, 1163); (1216, 1216, 1, 1231); (1217, 1229, 2, 1218);
   (1232, 1326, 2, 1233); (1329, 1366, 1, 1377); (4256, 4293, 1, 11520);
   (4295, 4295, 1, 11559); (4301, 4301, 1, 11565); (5024, 5103, 1, 43888);
   (5104, 5109, 1, 5112); (7312, 7354, 1, 4304); (7357, 7359, 1, 4349); (7680, 7828, 2, 7681);
   (7838, 7838, 1, 223); (7840, 7934, 2, 7841); (7944, 7951, 1, 7936); (7960, 7965, 1, 7952);
   (7976, 7983, 1, 7968); (7992, 7999, 1, 7984); (8008, 8013, 1, 8000); (8025, 8031, 2, 8017);
   (8040, 8047, 1, 8032); (8072, 8079, 1, 8064); (8088, 8095, 1, 8080); (8104, 8111, 1, 8096);
   (8120, 8121, 1, 8112); (8122, 8123, 1, 8048); (8124, 8124, 1, 8115); (8136, 8139, 1, 8050);
   (8140, 8140, 1, 8131); (8152, 8153, 1, 8144); (8154, 8155, 1, 8054); (8168, 8169, 1, 8160);
   (8170, 8171, 1, 8058); (8172, 8172, 1, 8165); (8184, 8185, 1, 8056); (8186, 8187, 1, 8060);
   (8188, 8188, 1, 8179); (8486, 8486, 1, 969); (8490, 8490, 1, 107); (8491, 8491, 1, 229);
   (8498, 8498, 1, 8526); (8544, 8559, 1, 8560); (8579, 8579, 1, 8580); (9398, 9423, 1, 9424);
   (11264, 11311, 1, 11312); (11360, 11360, 1, 11361); (11362, 11362, 1, 619);
   (11363, 11363, 1, 7549); (11364, 11364, 1, 637); (11367, 11371, 2, 11368);
   (11373, 11373, 1, 593); (11374, 11374, 1, 625); (11375, 11375, 1, 592);
   (11376, 11376, 1, 594); (11378, 11378, 1, 11379); (11381, 11381, 1, 11382);
   (11390, 11391, 1, 575); (11392, 11490, 2, 11393); (11499, 11501, 2, 11500);
   (11506, 11506, 1, 11507); (42560, 42604, 2, 42561); (42624, 42650, 2, 42625);
   (42786, 42798, 2, 42787); (42802, 42862, 2, 42803); (42873, 42875, 2, 42874);
   (42877, 42877, 1, 7545); (42878, 42886, 2, 42879); (42891, 42891, 1, 42892);
   (42893, 42893, 1, 613); (42896, 42898, 2, 42897); (42902, 42920, 2, 42903);
   (42922, 42922, 1, 614); (42923, 42923, 1, 604); (42924, 42924, 1, 609);
   (42925, 42925, 1, 620); (42926, 42926, 1, 618); (42928, 42928, 1, 670);
   (42929, 42929, 1, 647); (42930, 42930, 1, 669); (42931, 42931, 1, 43859);
   (42932, 42946, 2, 42933); (42948, 42948, 1, 42900); (42949, 42949, 1, 642);
   (42950, 42950, 1, 7566); (42951, 42953, 2, 42952); (42960, 42960, 1, 42961);
   (42966, 42968, 2, 42967); (42997, 42997, 1, 42998); (65313, 65338, 1, 65345);
   (66560, 66599, 1, 66600); (66736, 66771, 1, 66776); (66928, 66964, 2, 66967);
   (66929, 66938, 1, 66968); (66941, 66954, 1, 66980); (66957, 66962, 1, 66996);
   (66965, 66965, 1, 67004); (68736, 68786, 1, 68800); (71840, 71871, 1, 71872);
   (93760, 93791, 1, 93792); (125184, 125217, 1, 125218) ].

(** The characters with the property Case_Ignorable. *)
Definition CASE_IGNORABLE : list (N * N) :=
  [
   (39, 39); (46, 46); (58, 58); (94, 94); (96, 96); (168, 168); (173, 173); (175, 175);
   (180, 180); (183, 184); (688, 879); (884, 885); (890, 890); (900, 901); (903, 903);
   (1155, 1161); (1369, 1369); (1375, 1375); (1425, 1469); (1471, 1471); (1473, 1474);
   (1476, 1477); (1479, 1479); (1524, 1524); (1536, 1541); (1552, 1562); (1564, 1564);
   (1600, 1600); (1611, 1631); (1648, 1648); (1750, 1757); (1759, 1768); (1770, 1773);
   (1807, 1807); (1809, 1809); (1840, 1866); (1958, 1968); (2027, 2037); (2042, 2042);
   (2045, 2045); (2070, 2093); (2137, 2139); (2184, 2184); (2192, 2193); (2200, 2207);
   (2249, 2306); (2362, 2362); (2364, 2364); (2369, 2376); (2381, 2381); (2385, 2391);
   (2402, 2403); (2417, 2417); (2433, 2433); (2492, 2492); (2497, 2500); (2509, 2509);
   (2530, 2531); (2558, 2558); (2561, 2562); (2620, 2620); (2625, 2626); (2631, 2632);
   (2635, 2637); (2641, 2641); (2672, 2673); (2677, 2677); (2689, 2690); (2748, 2748);
   (2753, 2757); (2759, 2760); (2765, 2765); (2786, 2787); (2810, 2815); (2817, 2817);
   (2876, 2876); (2879, 2879); (2881, 2884); (2893, 2893); (2901, 2902); (2914, 2915);
   (2946, 2946); (3008, 3008); (3021, 3021); (3072, 3072); (3076, 3076); (3132, 3132);
   (3134, 3136); (3142, 3144); (3146, 3149); (3157, 3158); (3170, 3171); (3201, 3201);
   (3260, 3260); (3263, 3263); (3270, 3270); (3276, 3277); (3298, 3299); (3328, 3329);
   (3387, 3388); (3393, 3396); (3405, 3405); (3426, 3427); (3457, 3457); (3530, 3530);
   (3538, 3540); (3542, 3542); (3633, 3633); (3636, 3642); (3654, 3662); (3761, 3761);
   (3764, 3772); (3782, 3782); (3784, 3789); (3864, 3865); (3893, 3893); (3895, 3895);
   (3897, 3897); (3953, 3966); (3968, 3972); (3974, 3975); (3981, 3991); (3993, 4028);
   (4038, 4038); (4141, 4144); (4146, 4151); (4153, 4154); (4157, 4158); (4184, 4185);
   (4190, 4192); (4209, 4212); (4226, 4226); (4229, 4230); (4237, 4237); (4253, 4253);
   (4348, 4348); (4957, 4959); (5906, 5908); (5938, 5939); (5970, 5971); (6002, 6003);
   (6068, 6069); (6071, 6077); (6086, 6086); (6089, 6099); (6103, 6103); (6109, 6109);
   (6155, 6159); (6211, 6211); (6277, 6278); (6313, 6313); (6432, 6434); (6439, 6440);
   (6450, 6450); (6457, 6459); (6679, 6680); (6683, 6683); (6742, 6742); (6744, 6750);
   (6752, 6752); (6754, 6754); (6757, 6764); (6771, 6780); (6783, 6783); (6823, 6823);
   (6832, 6862); (6912, 6915); (6964, 6964); (6966, 6970); (6972, 6972); (6978, 6978);
   (7019, 7027); (7040, 7041); (7074, 7077); (7080, 7081); (7083, 7085); (7142, 7142);
   (7144, 7145); (7149, 7149); (7151, 7153); (7212, 7219); (7222, 7223); (7288, 7293);
   (7376, 7378); (7380, 7392); (7394, 7400); (7405, 7405); (7412, 7412); (7416, 7417);
   (7468, 7530); (7544, 7544); (7579, 7679); (8125, 8125); (8127, 8129); (8141, 8143);
   (8157, 8159); (8173, 8175); (8189, 8190); (8203, 8207); (8216, 8217); (8228, 8228);
   (8231, 8231); (8234, 8238); (8288, 8292); (8294, 8303); (8305, 8305); (8319, 8319);
   (8336, 8348); (8400, 8432); (11388, 11389); (11503, 11505); (11631, 11631); (11647, 11647);
   (11744, 11775); (11823, 11823); (12293, 12293); (12330, 12333); (12337, 12341);
   (12347, 12347); (12441, 12446); (12540, 12542); (40981, 40981); (42232, 42237);
   (42508, 42508); (42607, 42610); (42612, 42621); (42623, 42623); (42652, 42655);
   (42736, 42737); (42752, 42785); (42864, 42864); (42888, 42890); (42994, 42996);
   (43000, 43001); (43010, 43010); (43014, 43014); (43019, 43019); (43045, 43046);
   (43052, 43052); (43204, 43205); (43232, 43249); (43263, 43263); (43302, 43309);
   (43335, 43345); (43392, 43394); (43443, 43443); (43446, 43449); (43452, 43453);
   (43471, 43471); (43493, 43494); (43561, 43566); (43569, 43570); (43573, 43574);
   (43587, 43587); (43596, 43596); (43632, 43632); (43644, 43644); (43696, 43696);
   (43698, 43700); (43703, 43704); (43710, 43711); (43713, 43713); (43741, 43741);
   (43756, 43757); (43763, 43764); (43766, 43766); (43867, 43871); (43881, 43883);
   (44005, 44005); (44008, 44008); (44013, 44013); (64286, 64286); (64434, 64450);
   (65024, 65039); (65043, 65043); (65056, 65071); (65106, 65106); (65109, 65109);
   (65279, 65279); (65287, 65287); (65294, 65294); (65306, 65306); (65342, 65342);
   (65344, 65344); (65392, 65392); (65438, 65439); (65507, 65507); (65529, 65531);
   (66045, 66045); (66272, 66272); (66422, 66426); (67456, 67461); (67463, 67504);
   (67506, 67514); (68097, 68099); (68101, 68102); (68108, 68111); (68152, 68154);
   (68159, 68159); (68325, 68326); (68900, 68903); (69291, 69292); (69446, 69456);
   (69506, 69509); (69633, 69633); (69688, 69702); (69744, 69744); (69747, 69748);
   (69759, 69761); (69811, 69814); (69817, 69818); (69821, 69821); (69826, 69826);
   (69837, 69837); (69888, 69890); (69927, 69931); (69933, 69940); (70003, 70003);
   (70016, 70017); (70070, 70078); (70089, 70092); (70095, 70095); (70191, 70193);
   (70196, 70196); (70198, 70199); (70206, 70206); (70367, 70367); (70371, 70378);
   (70400, 70401); (70459, 70460); (70464, 70464); (70502, 70508); (70512, 70516);
   (70712, 70719); (70722, 70724); (70726, 70726); (70750, 70750); (70835, 70840);
   (70842, 70842); (70847, 70848); (70850, 70851); (71090, 71093); (71100, 71101);
   (71103, 71104); (71132, 71133); (71219, 71226); (71229, 71229); (71231, 71232);
   (71339, 71339); (71341, 71341); (71344, 71349); (71351, 71351); (71453, 71455);
   (71458, 71461); (71463, 71467); (71727, 71735); (71737, 71738); (71995, 71996);
   (71998, 71998); (72003, 72003); (72148, 72151); (72154, 72155); (72160, 72160);
   (72193, 72202); (72243, 72248); (72251, 72254); (72263, 72263); (72273, 72278);
   (72281, 72283); (72330, 72342); (72344, 72345); (72752, 72758); (72760, 72765);
   (72767, 72767); (72850, 72871); (72874, 72880); (72882, 72883); (72885, 72886);
   (73009, 73014); (73018, 73018); (73020, 73021); (73023, 73029); (73031, 73031);
   (73104, 73105); (73109, 73109); (73111, 73111); (73459, 73460); (78896, 78904);
   (92912, 92916); (92976, 92982); (92992, 92995); (94031, 94031); (94095, 94111);
   (94176, 94177); (94179, 94180); (110576, 110579); (110581, 110587); (110589, 110590);
   (113821, 113822); (113824, 113827); (118528, 118573); (118576, 118598); (119143, 119145);
   (119155, 119170); (119173, 119179); (119210, 119213); (119362, 119364); (121344, 121398);
   (121403, 121452); (121461, 121461); (121476, 121476); (121499, 121503); (121505, 121519);
   (122880, 122886); (122888, 122904); (122907, 122913); (122915, 122916); (122918, 122922);
   (123184, 123197); (123566, 123566); (123628, 123631); (125136, 125142); (125252, 125259);
   (127995, 127999); (917505, 917505); (917536, 917631); (917760, 917999) ].

(** The characters with the property Cased. *)
Definition CASED : list (N * N) :=
  [
   (65, 90); (97, 122); (170, 170); (181, 181); (186, 186); (192, 214); (216, 246); (248, 442);
   (444, 447); (452, 659); (661, 696); (704, 705); (736, 740); (837, 837); (880, 883);
   (886, 887); (890, 893); (895, 895); (902, 902); (904, 906); (908, 908); (910, 929);
   (931, 1013); (1015, 1153); (1162, 1327); (1329, 1366); (1376, 1416); (4256, 4293);
   (4295, 4295); (4301, 4301); (4304, 4346); (4349, 4351); (5024, 5109); (5112, 5117);
   (7296, 7304); (7312, 7354); (7357, 7359); (7424, 7615); (7680, 7957); (7960, 7965);
   (7968, 8005); (8008, 8013); (8016, 8023); (8025, 8025); (8027, 8027); (8029, 8029);
   (8031, 8061); (8064, 8116); (8118, 8124); (8126, 8126); (8130, 8132); (8134, 8140);
   (8144, 8147); (8150, 8155); (8160, 8172); (8178, 8180); (8182, 8188); (8305, 8305);
   (8319, 8319); (8336, 8348); (8450, 8450); (8455, 8455); (8458, 8467); (8469, 8469);
   (8473, 8477); (8484, 8484); (8486, 8486); (8488, 8488); (8490, 8493); (8495, 8500);
   (8505, 8505); (8508, 8511); (8517, 8521); (8526, 8526); (8544, 8575); (8579, 8580);
   (9398, 9449); (11264, 11492); (11499, 11502); (11506, 11507); (11520, 11557);
   (11559, 11559); (11565, 11565); (42560, 42605); (42624, 42653); (42786, 42887);
   (42891, 42894); (42896, 42954); (42960, 42961); (42963, 42963); (42965, 42969);
   (42997, 42998); (43000, 43002); (43824, 43866); (43868, 43880); (43888, 43967);
   (64256, 64262); (64275, 64279); (65313, 65338); (65345, 65370); (66560, 66639);
   (66736, 66771); (66776, 66811); (66928, 66938); (66940, 66954); (66956, 66962);
   (66964, 66965); (66967, 66977); (66979, 66993); (66995, 67001); (67003, 67004);
   (67456, 67456); (67459, 67461); (67463, 67504); (67506, 67514); (68736, 68786);
   (68800, 68850); (71840, 71903); (93760, 93823); (119808, 119892); (119894, 119964);
   (119966, 119967); (119970, 119970); (119973, 119974); (119977, 119980); (119982, 119993);
   (119995, 119995); (119997, 120003); (120005, 120069); (120071, 120074); (120077, 120084);
   (120086, 120092); (120094, 120121); (120123, 120126); (120128, 120132); (120134, 120134);
   (120138, 120144); (120146, 120485); (120488, 120512); (120514, 120538); (120540, 120570);
   (120572, 120596); (120598, 120628); (120630, 120654); (120656, 120686); (120688, 120712);
   (120714, 120744); (120746, 120770); (120772, 120779); (122624, 122633); (122635, 122654);
   (125184, 125251); (127280, 127305); (127312, 127337); (127344, 127369) ].

(** The characters [str.isspace()] accepts. *)
Definition SPACE : list (N * N) :=
  [ (9, 13); (28, 32); (133, 133); (160, 160); (5760, 5760); (8192, 8202); (8232, 8233); (8239, 8239); (8287, 8287); (12288, 12288) ].

Definition case_ignorable (c : N) : bool := in_ranges CASE_IGNORABLE c.
Definition cased (c : N) : bool := in_ranges CASED c.
Definition isspace (c : N) : bool := in_ranges SPACE c.

(** The lower-case form of a character other than capital sigma; only
    U+0130 has one of two characters. *)
Definition to_lower (c : N) : list N :=
  if c =? 304 then [105; 775]
  else match find (fun '(lo, hi, step, _) =>
                     (lo <=? c) && (c <=? hi) && ((c - lo) mod step =? 0)) LOWER with
       | Some (lo, _, _, target) => [target + (c - lo)]
       | None => [c]
       end.

(** The nearest character that is not case-ignorable. *)
Fixpoint first_solid (l : list N) : option N :=
  match l with
  | [] => None
  | c :: l' => if case_ignorable c then first_solid l' else Some c
  end.

(** A capital sigma is final when a cased character comes before it and
    none after it, case-ignorable characters aside. *)
Definition final_sigma (before after : list N) : bool :=
  match first_solid before with
  | Some c =>
      cased c && match first_solid after with
                 | Some d => negb (cased d)
                 | None => true
                 end
  | None => false
  end.

(** The characters after those of [before] (nearest first), lower-cased. *)
Fixpoint lower_from (before l : list N) : list N :=
  match l with
  | [] => []
  | c :: l' =>
      ((if c =? 931 then [if final_sigma before l' then 962 else 963] else to_lower c)
       ++ lower_from (c :: before) l')%list
  end.

(** [s.lower()] *)
Definition lower (s : string) : string := encode (lower_from [] (decode s)).

Fixpoint lstrip (l : list N) : list N :=
  match l with
  | [] => []
  | c :: l' => if isspace c then lstrip l' else l
  end.

Fixpoint rstrip (l : list N) : list N :=
  match l with
  | [] => []
  | c :: l' =>
      match rstrip l' with
      | [] => if isspace c then [] else [c]
      | r => c :: r
      end
  end.

(** [s.strip()] *)
Definition strip (s : string) : string := encode (rstrip (lstrip (decode s))).

(** [[k.strip().lower() for k in extra_keywords.split(",") if k.strip()]] *)
Definition extra_list (extra_keywords : string) : list string :=
  map (fun k => lower (strip k))
      (filter (fun k => truthy (strip k)) (split_on "," extra_keywords)).

(** [contains_any(text, words)] *)
Definition contains_any (text : string) (words : list string) : list string :=
  let tl := lower text in
  filter (fun w => contains w tl) words.

Definition role_words (target_role : string) (extra_keywords : option string) : list string :=
  let copy := V1.role_table_words V1.ROLE_KEYWORDS target_role in
  match extra_keywords with
  | Some e => if truthy e then (copy ++ extra_list e)%list else copy
  | None => copy
  end.

(** [found_role] in [score_resume(text, target_role, extra_keywords)] *)
Definition found_role (text target_role : string) (extra_keywords : option string)
  : list string :=
  contains_any (lower text) (role_words target_role extra_keywords).

(** The Keywords entry of the breakdown. *)
Definition keywords (text target_role : string) (extra_keywords : option string) : Q :=
  round1 (V1.kw_points_of (List.length (found_role text target_role extra_keywords))).

End Unicode.

(* ================================================================= *)
(** * Properties *)

Import PyStr PyNum Result.

(** ** The embedding on small inputs *)

Example split_words :
  split "  led a   team
of 12 " = ["led"; "a"; "team"; "of"; "12"].
Proof. reflexivity. Qed.

Example strip_blanks : strip "  power bi  " = "power bi" /\ strip "   " = "".
Proof. split; reflexivity. Qed.

Example extra_list_of_request : V1.extra_list " Snowflake , ,sql" = ["snowflake"; "sql"].
Proof. reflexivity. Qed.

Example sorted_difference_of_lists : sorted_difference ["b"; "a"; "c"; "a"] ["c"] = ["a"; "b"].
Proof. reflexivity. Qed.

Example numbers_found :
  Re.findall true Patterns.NUMBER "grew 30% in 2020, 5k users a12 12a 50%x 7 _9 3.5"
  = ["30"; "2020"; "5k"; "50%"; "7"; "3"; "5"].
Proof. reflexivity. Qed.

Example email_and_phone_found :
  Re.search false Patterns.EMAIL "mail john.doe@example.com" = true /\
  Re.search false Patterns.EMAIL "john@example.c" = false /\
  Re.search false Patterns.PHONE "call +91 9876543210 now" = true /\
  Re.search false Patterns.PHONE "12345678901234" = false.
Proof. repeat split; reflexivity. Qed.

(** The first table of the flat-rate file lists "designed" twice, so the
    verb is counted twice there; the later copy lists it once. *)
Example designed_counted_twice :
  V1.action_uses V1.ACTION_VERBS "designed" = 2 /\
  V1.action_uses V1.ACTION_VERBS_v1_3 "designed" = 1.
Proof. split; reflexivity. Qed.

(* ----------------------------------------------------------------- *)
(** ** Numbers *)

Section Numbers.
Open Scope Q_scope.

Lemma of_nat_nonneg (n : nat) : 0 <= of_nat n.
Proof. unfold of_nat, Qle; simpl; lia. Qed.

Lemma of_nat_pos (n : nat) : (0 < n)%nat -> 0 < of_nat n.
Proof. intros H. unfold of_nat, Qlt; simpl. lia. Qed.

Lemma of_nat_le (n m : nat) : (n <= m)%nat -> of_nat n <= of_nat m.
Proof. intros H. unfold of_nat, Qle; simpl; lia. Qed.

Lemma of_nat_S (n : nat) : of_nat (S n) == of_nat n + 1.
Proof.
  unfold of_nat. rewrite Nat2Z.inj_succ, <- Z.add_1_r, inject_Z_plus. reflexivity.
Qed.

Lemma inject_Z_le (a b : Z) : (a <= b)%Z -> inject_Z a <= inject_Z b.
Proof. intros H. rewrite <- Zle_Qle. exact H. Qed.

(** [round_half_even] picks the floor or the integer above it. *)
Lemma round_half_even_cases (x : Q) :
  round_half_even x = Qfloor x \/ round_half_even x = (Qfloor x + 1)%Z.
Proof.
  unfold round_half_even.
  destruct (x - inject_Z (Qfloor x) ?= 1 # 2); auto.
  destruct (Z.even (Qfloor x)); auto.
Qed.

Lemma round_half_even_mono (x y : Q) : x <= y -> (round_half_even x <= round_half_even y)%Z.
Proof.
  intros Hxy.
  pose proof (Qfloor_resp_le _ _ Hxy) as Hf.
  destruct (Z.eq_dec (Qfloor x) (Qfloor y)) as [E | N].
  - unfold round_half_even. rewrite <- E.
    destruct (x - inject_Z (Qfloor x) ?= 1 # 2) eqn:Cx;
      destruct (y - inject_Z (Qfloor x) ?= 1 # 2) eqn:Cy;
      try (destruct (Z.even (Qfloor x))); try lia;
      try rewrite <- Qeq_alt in *; try rewrite <- Qlt_alt in *; try rewrite <- Qgt_alt in *;
      exfalso; lra.
  - destruct (round_half_even_cases x) as [-> | ->], (round_half_even_cases y) as [-> | ->]; lia.
Qed.

Lemma round_half_even_Z (z : Z) : round_half_even (inject_Z z) = z.
Proof.
  unfold round_half_even. rewrite Qfloor_Z.
  assert (H : inject_Z z - inject_Z z < 1 # 2) by lra.
  rewrite Qlt_alt in H. rewrite H. reflexivity.
Qed.

(** The rounded integer is within a half of the number. *)
Lemma round_half_even_near (x : Q) :
  inject_Z (round_half_even x) - (1 # 2) <= x /\ x <= inject_Z (round_half_even x) + (1 # 2).
Proof.
  unfold round_half_even.
  pose proof (Qfloor_le x) as Hlo. pose proof (Qlt_floor x) as Hhi.
  rewrite inject_Z_plus in Hhi. change (inject_Z 1) with 1 in Hhi.
  destruct (x - inject_Z (Qfloor x) ?= 1 # 2) eqn:C;
    [rewrite <- Qeq_alt in C | rewrite <- Qlt_alt in C | rewrite <- Qgt_alt in C].
  - destruct (Z.even (Qfloor x));
      [| rewrite inject_Z_plus; change (inject_Z 1) with 1]; split; lra.
  - split; lra.
  - rewrite inject_Z_plus. change (inject_Z 1) with 1. split; lra.
Qed.

#[global] Instance round_half_even_proper : Proper (Qeq ==> eq) round_half_even.
Proof.
  intros x y E. apply Z.le_antisymm; apply round_half_even_mono; rewrite E; apply Qle_refl.
Qed.

#[global] Instance round1_proper : Proper (Qeq ==> Qeq) round1.
Proof. intros x y E. unfold round1. rewrite E. reflexivity. Qed.

Lemma round1_eq (x y : Q) : x == y -> round1 x = round1 y.
Proof. intros E. unfold round1. now rewrite E. Qed.

Lemma round1_mono (x y : Q) : x <= y -> round1 x <= round1 y.
Proof.
  intros H. unfold round1.
  assert (M : (round_half_even (x * 10) <= round_half_even (y * 10))%Z)
    by (apply round_half_even_mono; lra).
  apply inject_Z_le in M. unfold Qdiv.
  apply Qmult_le_compat_r; [exact M | discriminate].
Qed.

(** A number of tenths is its own rounding. *)
Lemma round1_tenths (z : Z) : round1 (inject_Z z / 10) == inject_Z z / 10.
Proof.
  unfold round1.
  assert (E : inject_Z z / 10 * 10 == inject_Z z) by field.
  rewrite E, round_half_even_Z. reflexivity.
Qed.

Lemma round1_int (z : Z) : round1 (inject_Z z) == inject_Z z.
Proof.
  assert (E : inject_Z z == inject_Z (z * 10) / 10) by (rewrite inject_Z_mult; field).
  rewrite E at 1. rewrite round1_tenths. rewrite <- E. reflexivity.
Qed.

(** Rounding to one decimal moves a number by at most 0.05. *)
Lemma round1_near (x : Q) : Qabs (round1 x - x) <= 1 # 20.
Proof.
  unfold round1. destruct (round_half_even_near (x * 10)) as [A B].
  change (inject_Z (round_half_even (x * 10)) / 10)
    with (inject_Z (round_half_even (x * 10)) * (1 # 10)).
  apply Qabs_Qle_condition. split; lra.
Qed.

Lemma round1_nonneg (x : Q) : 0 <= x -> 0 <= round1 x.
Proof.
  intros H. apply round1_mono in H.
  assert (E : round1 0 == 0) by reflexivity.
  rewrite E in H. exact H.
Qed.

Lemma round1_le_int (x : Q) (z : Z) : x <= inject_Z z -> round1 x <= inject_Z z.
Proof. intros H. apply round1_mono in H. rewrite round1_int in H. exact H. Qed.

Lemma round1_bounds_int (x : Q) (lo hi : Z) :
  inject_Z lo <= x <= inject_Z hi -> inject_Z lo <= round1 x <= inject_Z hi.
Proof.
  intros [A B]. split; [| now apply round1_le_int].
  apply round1_mono in A. now rewrite round1_int in A.
Qed.

Lemma qmin_round1_bounds (cap : Z) (x : Q) :
  (0 <= cap)%Z -> 0 <= x -> 0 <= Qmin (inject_Z cap) (round1 x) <= inject_Z cap.
Proof.
  intros Hc Hx. split; [| apply Q.le_min_l].
  apply Q.min_glb; [| now apply round1_nonneg].
  now apply (inject_Z_le 0).
Qed.

Lemma round1_sum_near (t f : Q) : Qabs (round1 (t + f) - (t + round1 f)) <= 1 # 10.
Proof.
  pose proof (round1_near (t + f)) as A. pose proof (round1_near f) as B.
  apply Qabs_Qle_condition in A. apply Qabs_Qle_condition in B.
  apply Qabs_Qle_condition. split; lra.
Qed.

(** An even share of a budget, taken [k] times out of [n]. *)
Lemma share_bound (budget : Q) (k n : nat) :
  0 <= budget -> (k <= n)%nat ->
  0 <= of_nat k * (budget / of_nat n) /\ of_nat k * (budget / of_nat n) <= budget.
Proof.
  intros Hb Hk. destruct n as [| n].
  - assert (k = 0)%nat by lia. subst k.
    assert (E : of_nat 0 * (budget / of_nat 0) == 0) by (unfold of_nat; simpl; ring).
    rewrite E. split; lra.
  - assert (Hn : 0 < of_nat (S n)) by (apply of_nat_pos; lia).
    assert (E : of_nat k * (budget / of_nat (S n)) == (of_nat k * budget) / of_nat (S n))
      by (field; lra).
    rewrite E. split.
    + apply Qle_shift_div_l; [exact Hn |].
      pose proof (of_nat_nonneg k). nra.
    + apply Qle_shift_div_r; [exact Hn |].
      pose proof (of_nat_le _ _ Hk). pose proof (of_nat_nonneg k). nra.
Qed.

End Numbers.

(* ----------------------------------------------------------------- *)
(** ** Numbers with at most one decimal *)

Section Tenths.
Open Scope Q_scope.

#[global] Instance tenths_proper : Proper (Qeq ==> iff) tenths.
Proof.
  intros x y E. unfold tenths.
  split; intros [z H]; exists z; [rewrite <- E | rewrite E]; exact H.
Qed.

Lemma tenths_Z (z : Z) : tenths (inject_Z z).
Proof. exists (z * 10)%Z. rewrite inject_Z_mult. field. Qed.

Lemma tenths_of_nat (n : nat) : tenths (of_nat n).
Proof. apply tenths_Z. Qed.

Lemma tenths_plus (x y : Q) : tenths x -> tenths y -> tenths (x + y).
Proof.
  intros [a Ha] [b Hb]. exists (a + b)%Z. rewrite Ha, Hb, inject_Z_plus. field.
Qed.

Lemma tenths_min (x y : Q) : tenths x -> tenths y -> tenths (Qmin x y).
Proof.
  intros Hx Hy. destruct (Q.min_spec x y) as [[_ E] | [_ E]]; rewrite E; assumption.
Qed.

Lemma tenths_round1 (x : Q) : tenths (round1 x).
Proof. exists (round_half_even (x * 10)). reflexivity. Qed.

Lemma tenths_scale (n : nat) (c : Q) : tenths c -> tenths (of_nat n * c).
Proof.
  intros [z Hz]. exists (Z.of_nat n * z)%Z. rewrite Hz, inject_Z_mult. unfold of_nat. field.
Qed.

Lemma tenths_const (n : positive) : tenths (Z.pos n # 1).
Proof. apply (tenths_Z (Z.pos n)). Qed.

Lemma round1_of_tenths (x : Q) : tenths x -> round1 x == x.
Proof. intros [z Hz]. rewrite Hz. apply round1_tenths. Qed.

End Tenths.

Create HintDb tenths.
#[global] Hint Resolve tenths_of_nat tenths_plus tenths_min tenths_round1 tenths_scale
  tenths_const : tenths.

(* ----------------------------------------------------------------- *)
(** ** Strings and lists *)

Lemma lower_char_idem (c : ascii) : lower_char (lower_char c) = lower_char c.
Proof. destruct c as [[] [] [] [] [] [] [] []]; reflexivity. Qed.

Lemma lower_idem (s : string) : lower (lower s) = lower s.
Proof. induction s as [| c s IH]; simpl; [reflexivity | now rewrite lower_char_idem, IH]. Qed.

Lemma lower_app (a b : string) : lower (a ++ b) = lower a ++ lower b.
Proof. induction a as [| c a IH]; simpl; [reflexivity | now rewrite IH]. Qed.

Lemma prefix_app (w s q : string) : prefix w s = true -> prefix w (s ++ q) = true.
Proof.
  revert s. induction w as [| c w IH]; intros s H.
  - destruct s; simpl; [destruct q |]; reflexivity.
  - destruct s as [| d s]; simpl in *; [discriminate |].
    destruct (ascii_dec c d); [now apply IH | discriminate].
Qed.

Lemma contains_app_r (w s q : string) : contains w s = true -> contains w (s ++ q) = true.
Proof.
  induction s as [| c s IH]; simpl; intros H.
  - rewrite orb_false_r in H. destruct w; [| discriminate].
    destruct q; reflexivity.
  - apply orb_true_iff in H. apply orb_true_iff. destruct H as [H | H].
    + left. now apply (prefix_app w (String c s) q).
    + right. now apply IH.
Qed.

Lemma contains_app_l (w p s : string) : contains w s = true -> contains w (p ++ s) = true.
Proof.
  intros H. induction p as [| c p IH]; simpl; [exact H |].
  rewrite IH. apply orb_true_r.
Qed.

(** A substring of a text is a substring of every text around it. *)
Lemma contains_embed (w p s q : string) :
  contains w s = true -> contains w (p ++ s ++ q) = true.
Proof. intros H. now apply contains_app_l, contains_app_r. Qed.

Lemma filter_length_mono {A : Type} (f g : A -> bool) (l : list A) :
  (forall x, f x = true -> g x = true) ->
  List.length (filter f l) <= List.length (filter g l).
Proof.
  intros H. induction l as [| x l IH]; simpl; [lia |].
  destruct (f x) eqn:F.
  - rewrite (H x F). simpl. lia.
  - destruct (g x); simpl; lia.
Qed.

Lemma filter_length_bound {A : Type} (f : A -> bool) (l : list A) :
  List.length (filter f l) <= List.length l.
Proof. induction l as [| x l IH]; simpl; [lia | destruct (f x); simpl; lia]. Qed.

Lemma lookup_in {A : Type} (k : string) (d : list (string * A)) (v : A) :
  lookup k d = Some v -> In v (map snd d).
Proof.
  induction d as [| [k' v'] d IH]; simpl; [discriminate |].
  destruct (String.eqb k k'); [intros [= ->]; now left | intros H; right; now apply IH].
Qed.

(** White space: a text with a word in it does not strip to nothing. *)
Lemma lstrip_empty_split (s : string) : lstrip s = "" -> split s = [].
Proof.
  induction s as [| c s IH]; simpl; [reflexivity |].
  destruct (isspace c); [exact IH | discriminate].
Qed.

Lemma lstrip_head (s : string) :
  lstrip s = "" \/ exists c s', lstrip s = String c s' /\ isspace c = false.
Proof.
  induction s as [| c s IH]; simpl; [now left |].
  destruct (isspace c) eqn:E; [exact IH | right; now exists c, s].
Qed.

Lemma rstrip_head (c : ascii) (s : string) : isspace c = false -> rstrip (String c s) <> "".
Proof. intros E. simpl. destruct (rstrip s); [rewrite E |]; discriminate. Qed.

Lemma strip_truthy (s : string) : split s <> [] -> truthy (strip s) = true.
Proof.
  intros H. unfold strip.
  destruct (lstrip_head s) as [E | (c & s' & E & Hc)].
  - now apply lstrip_empty_split in E.
  - rewrite E. pose proof (rstrip_head c s' Hc) as N.
    destruct (rstrip (String c s')); [contradiction | reflexivity].
Qed.

(** Suggestions: what is appended first is returned first. *)
Lemma dedup_from_prefix (l acc : list string) :
  exists rest,
    fold_left (fun cleaned s => if mem s cleaned then cleaned else (cleaned ++ [s])%list) l acc
    = (acc ++ rest)%list.
Proof.
  revert acc. induction l as [| s l IH]; intros acc; simpl.
  - exists []. now rewrite app_nil_r.
  - destruct (mem s acc); [apply IH |].
    destruct (IH (acc ++ [s])%list) as [rest ->]. exists (s :: rest).
    now rewrite <- app_assoc.
Qed.

Lemma dedup_head (s : string) (l : list string) (n : nat) :
  In s (firstn (S n) (dedup (s :: l))).
Proof.
  unfold dedup. simpl fold_left.
  destruct (dedup_from_prefix l [s]) as [rest ->]. now left.
Qed.

(* ----------------------------------------------------------------- *)
(** ** The stages of the flat-rate engine *)

Section FlatRate.
Open Scope Q_scope.

Lemma fold_hits (c : Q) (l : list (string * bool)) (a : Q) :
  fold_left (fun points '(_, hit) => if hit : bool then points + c else points) l a
  == a + of_nat (List.length (filter snd l)) * c.
Proof.
  revert a. induction l as [| [sec hit] l IH]; intros a; simpl.
  - unfold of_nat; simpl. ring.
  - rewrite IH. destruct hit; simpl filter; [| reflexivity].
    cbn [List.length]. rewrite of_nat_S. ring.
Qed.

(** The loop adds one even share of the budget per section detected. *)
Lemma structure_sum_share (hints : list (string * list string)) (tl : string) :
  V1.structure_sum hints tl
  == of_nat (V1.sections_detected hints tl) * (20 / of_nat (List.length hints)).
Proof. unfold V1.structure_sum, V1.sections_detected. rewrite fold_hits. ring. Qed.

Lemma sections_detected_le (hints : list (string * list string)) (tl : string) :
  (V1.sections_detected hints tl <= List.length hints)%nat.
Proof.
  unfold V1.sections_detected, V1.structure_hits.
  etransitivity; [apply filter_length_bound |]. now rewrite length_map.
Qed.

Lemma structure_points_bounds (hints : list (string * list string)) (tl : string) :
  0 <= V1.structure_points hints tl <= 20.
Proof.
  unfold V1.structure_points.
  destruct (share_bound 20 (V1.sections_detected hints tl) (List.length hints))
    as [A B]; [lra | apply sections_detected_le |].
  rewrite <- structure_sum_share in A, B. split.
  - now apply round1_nonneg.
  - apply (round1_le_int _ 20). exact B.
Qed.

Lemma v1_kw_points_bounds (n : nat) : 0 <= V1.kw_points_of n <= 30.
Proof.
  unfold V1.kw_points_of. split; [| apply Q.le_min_r].
  apply Q.min_glb; [| lra].
  pose proof (of_nat_nonneg n). change (30 / 12) with (30 # 12). nra.
Qed.


Lemma tenths_v1_kw_points (n : nat) : tenths (V1.kw_points_of n).
Proof.
  unfold V1.kw_points_of. apply tenths_min; [| auto with tenths].
  apply tenths_scale. exists 25%Z. reflexivity.
Qed.

Lemma v1_impact_points_bounds (verbs : list string) (tl : string) :
  10 <= V1.impact_points verbs tl <= 20.
Proof.
  unfold V1.impact_points. split; [| apply Q.le_min_r].
  apply Q.min_glb; [| lra].
  pose proof (of_nat_nonneg (Nat.min (V1.nums tl) 5)).
  pose proof (of_nat_nonneg (Nat.min (V1.action_uses verbs tl) 5)). lra.
Qed.

Lemma tenths_v1_impact (verbs : list string) (tl : string) : tenths (V1.impact_points verbs tl).
Proof.
  unfold V1.impact_points. apply tenths_min; [| auto with tenths].
  repeat apply tenths_plus; auto with tenths.
  apply tenths_scale. exists 15%Z. reflexivity.
Qed.

Lemma v1_edu_points_bounds (certs edu : list string) (tl : string) :
  0 <= V1.edu_points certs edu tl <= 10.
Proof.
  unfold V1.edu_points. split; [apply of_nat_nonneg |].
  apply (of_nat_le _ 10). apply Nat.le_min_r.
Qed.

Lemma v1_ats_points_bounds (text tl : string) : 0 <= V1.ats_points text tl <= 10.
Proof.
  unfold V1.ats_points. split; [apply of_nat_nonneg |].
  apply (of_nat_le _ 10).
  destruct (V1.email_ok tl), (V1.phone_ok tl), (5 <=? V1.bullets text)%nat,
    (Qltb (V1.special_ratio text) (5 # 100)); simpl; lia.
Qed.

Lemma v1_fmt_points_bounds (word_count : nat) : 0 <= V1.fmt_points word_count <= 10.
Proof.
  unfold V1.fmt_points. destruct (V1.in_ideal_length word_count); [split; lra |].
  split; [apply Q.le_max_l |].
  apply Q.max_lub; [lra |].
  pose proof (Qabs_nonneg (of_nat word_count - 600)) as H.
  assert (0 <= Qabs (of_nat word_count - 600) / 100)
    by (apply Qle_shift_div_l; lra).
  lra.
Qed.

(** Whatever the tables, the total of the flat-rate engine and each of
    its sub-scores stay within the bands the page prints (20, 30, 20, 10,
    10, 10, which add up to 100). *)
Lemma v1_within (roles hints : list (string * list string)) (verbs certs edu : list string)
      (text target_role : string) (extra_keywords : option string) :
  within V1.BAND_MAX (V1.score_resume roles hints verbs certs edu text target_role extra_keywords).
Proof.
  unfold V1.score_resume, V1.score_body.
  set (tl := lower text). set (rw := V1.role_words roles target_role extra_keywords).
  pose proof (structure_points_bounds hints tl) as Hs.
  pose proof (v1_kw_points_bounds (List.length (V1.found_role tl rw))) as Hk.
  fold (V1.kw_points tl rw) in Hk.
  assert (Hi : 0 <= V1.impact_points verbs tl <= 20)
    by (pose proof (v1_impact_points_bounds verbs tl); lra).
  pose proof (v1_edu_points_bounds certs edu tl) as He.
  pose proof (v1_ats_points_bounds text tl) as Ha.
  pose proof (v1_fmt_points_bounds (List.length (split tl))) as Hf.
  split.
  - cbn [total fst]. apply (round1_bounds_int _ 0 100).
    change (inject_Z 0) with 0. change (inject_Z 100) with 100. lra.
  - cbn [breakdown_of snd fst sub_scores filter String.eqb Ascii.eqb Bool.eqb negb].
    intros name v Hin.
    repeat (destruct Hin as [Hin | Hin];
            [injection Hin as <- <-; eexists; split; [reflexivity |] |]);
      [ exact Hs
      | apply (round1_bounds_int _ 0 30); exact Hk
      | apply (round1_bounds_int _ 0 20); exact Hi
      | apply (round1_bounds_int _ 0 10); exact He
      | apply (round1_bounds_int _ 0 10); exact Ha
      | apply (round1_bounds_int _ 0 10); exact Hf
      | contradiction ].
Qed.

(** The keyword list of a request: the role's list, then the extras. *)
Lemma v1_role_words_split (roles : list (string * list string)) (role : string)
      (extra : option string) :
  V1.role_words roles role extra
  = (V1.role_table_words roles role
       ++ match extra with Some e => V1.extra_list e | None => [] end)%list.
Proof.
  unfold V1.role_words. destruct extra as [e |]; [| now rewrite app_nil_r].
  destruct e; [now rewrite app_nil_r | reflexivity].
Qed.

Lemma v1_found_count_extra (roles : list (string * list string)) (tl role e : string) :
  List.length (V1.found_role tl (V1.role_words roles role (Some e)))
  = (List.length (V1.found_role tl (V1.role_words roles role None))
     + List.length (V1.contains_any tl (V1.extra_list e)))%nat.
Proof.
  rewrite !v1_role_words_split, app_nil_r.
  unfold V1.found_role, V1.contains_any. now rewrite filter_app, length_app.
Qed.

Lemma v1_keywords_value (text role : string) (extra : option string) :
  entry (breakdown_of (V1.score text role extra)) "Keywords"
        (V1.kw_points_of
           (List.length (V1.found_role (lower text) (V1.role_words V1.ROLE_KEYWORDS role extra)))).
Proof.
  eexists. split; [reflexivity |]. apply round1_of_tenths, tenths_v1_kw_points.
Qed.

Lemma v1_role_table_words_in (role : string) :
  In (V1.role_table_words V1.ROLE_KEYWORDS role) (map snd V1.ROLE_KEYWORDS).
Proof.
  unfold V1.role_table_words.
  destruct (lookup role V1.ROLE_KEYWORDS) eqn:E; [now apply (lookup_in role) |].
  apply (lookup_in "General / Fresher"). reflexivity.
Qed.

(** No keyword of any role is the empty string, so none occurs in the
    empty text. *)
Lemma v1_empty_found (role : string) :
  V1.found_role "" (V1.role_words V1.ROLE_KEYWORDS role None) = [].
Proof.
  unfold V1.role_words.
  assert (H : Forall (fun l => V1.found_role "" l = []) (map snd V1.ROLE_KEYWORDS))
    by (repeat constructor).
  rewrite Forall_forall in H. apply H, v1_role_table_words_in.
Qed.

Lemma v1_role_words_unknown (role : string) (extra : option string) :
  lookup role V1.ROLE_KEYWORDS = None ->
  V1.role_words V1.ROLE_KEYWORDS role extra
  = V1.role_words V1.ROLE_KEYWORDS "General / Fresher" extra.
Proof. intros H. unfold V1.role_words, V1.role_table_words. now rewrite H. Qed.

End FlatRate.

(* ----------------------------------------------------------------- *)
(** ** The stages of the coverage-blend engine *)

Section Blend.
Open Scope Q_scope.

Lemma tfidf_similarity_nonneg (sk : V2.sklearn) (a b : string) (sim : Q) :
  V2.nonneg_cosine sk -> V2.tfidf_similarity sk a b = Ok sim -> 0 <= sim.
Proof.
  intros H. unfold V2.tfidf_similarity.
  destruct (negb (V2.TfidfVectorizer sk) || negb (truthy (strip a)) || negb (truthy (strip b))).
  - intros [= <-]. lra.
  - destruct (V2.fit_transform sk a b) as [[ra rb] | e]; [| discriminate].
    intros [= <-]. apply H.
Qed.

Lemma jd_stage_bounds (sk : V2.sklearn) (text : string) (jd_text : option string)
      (jd_points : Q) (sugg : list string) :
  V2.nonneg_cosine sk -> V2.jd_stage sk text jd_text = Ok (jd_points, sugg) ->
  0 <= jd_points <= 35.
Proof.
  intros H. unfold V2.jd_stage.
  destruct jd_text as [jd |]; [| intros [= <- _]; lra].
  destruct (V2.jd_supplied (Some jd)); [| intros [= <- _]; lra].
  destruct (V2.tfidf_similarity sk text jd) as [sim | e] eqn:E; [| discriminate].
  intros [= <- _]. apply (qmin_round1_bounds 35); [lia |].
  pose proof (tfidf_similarity_nonneg _ _ _ _ H E). lra.
Qed.

Lemma jd_stage_tenths (sk : V2.sklearn) (text : string) (jd_text : option string)
      (jd_points : Q) (sugg : list string) :
  V2.jd_stage sk text jd_text = Ok (jd_points, sugg) -> tenths jd_points.
Proof.
  unfold V2.jd_stage.
  destruct jd_text as [jd |]; [| intros [= <- _]; apply (tenths_Z 0)].
  destruct (V2.jd_supplied (Some jd)); [| intros [= <- _]; apply (tenths_Z 0)].
  destruct (V2.tfidf_similarity sk text jd) as [sim | e]; [| discriminate].
  intros [= <- _]. auto with tenths.
Qed.

Lemma jd_stage_not_supplied (sk : V2.sklearn) (text : string) (jd_text : option string) :
  V2.jd_supplied jd_text = false ->
  V2.jd_stage sk text jd_text = Ok (0, [V2.msg_paste_jd]).
Proof.
  intros H. unfold V2.jd_stage. destruct jd_text as [jd |]; [| reflexivity].
  now rewrite H.
Qed.

Lemma jd_supplied_short (jd_text : option string) :
  match jd_text with Some jd => (List.length (split jd) <= 20)%nat | None => True end ->
  V2.jd_supplied jd_text = false.
Proof.
  destruct jd_text as [jd |]; [| reflexivity]. intros H. unfold V2.jd_supplied.
  apply andb_false_iff. right. apply Nat.ltb_ge. exact H.
Qed.

Lemma jd_supplied_long (jd : string) :
  (20 < List.length (split jd))%nat -> V2.jd_supplied (Some jd) = true.
Proof.
  intros H. unfold V2.jd_supplied. apply andb_true_iff. split.
  - destruct jd; [simpl in H; lia | reflexivity].
  - now apply Nat.ltb_lt.
Qed.

Lemma tfidf_similarity_missing (sk : V2.sklearn) (a b : string) :
  V2.TfidfVectorizer sk = false -> V2.tfidf_similarity sk a b = Ok 0.
Proof. intros H. unfold V2.tfidf_similarity. now rewrite H. Qed.

Lemma tfidf_similarity_self (sk : V2.sklearn) (text : string) :
  V2.TfidfVectorizer sk = true -> split text <> [] -> V2.terms sk text <> [] ->
  V2.tfidf_similarity sk text text
  = Ok (V2.cosine_similarity sk (V2.terms sk text) (V2.terms sk text)).
Proof.
  intros Hlib Hw Ht. unfold V2.tfidf_similarity.
  rewrite Hlib, (strip_truthy text Hw). simpl.
  unfold V2.fit_transform.
  destruct (V2.terms sk text) as [| t ts] eqn:E; [contradiction | reflexivity].
Qed.

Lemma jd_points_full (sim : Q) : sim == 1 -> Qmin 35 (round1 (sim * 35)) == 35.
Proof.
  intros E. assert (E' : sim * 35 == inject_Z 35) by (rewrite E; reflexivity).
  rewrite E', round1_int. reflexivity.
Qed.

(** The stage on a text pasted as its own job description. *)
Lemma jd_stage_self (sk : V2.sklearn) (text : string) :
  (20 < List.length (split text))%nat ->
  V2.TfidfVectorizer sk = true -> V2.terms sk text <> [] ->
  V2.cosine_similarity sk (V2.terms sk text) (V2.terms sk text) == 1 ->
  exists jd_points, V2.jd_stage sk text (Some text) = Ok (jd_points, []) /\ jd_points == 35.
Proof.
  intros Hw Hlib Ht Hc. unfold V2.jd_stage.
  rewrite (jd_supplied_long text Hw).
  rewrite tfidf_similarity_self; [| assumption | intros E; rewrite E in Hw; simpl in Hw; lia
                                  | assumption].
  eexists. split; [| apply jd_points_full; exact Hc].
  f_equal. f_equal.
  assert (L : Qltb (V2.cosine_similarity sk (V2.terms sk text) (V2.terms sk text)) (25 # 100)
              = false).
  { unfold Qltb.
    destruct (V2.cosine_similarity sk (V2.terms sk text) (V2.terms sk text) ?= 25 # 100) eqn:C;
      try reflexivity.
    rewrite <- Qlt_alt in C. lra. }
  now rewrite L.
Qed.

(** What the stage returns is what the call reports for it. *)
Lemma jd_entry (sk : V2.sklearn) (text role : string) (jd_text : option string)
      (jd_points : Q) (sugg : list string) :
  V2.jd_stage sk text jd_text = Ok (jd_points, sugg) ->
  exists r, V2.score sk text role jd_text = Ok r /\
            lookup "JD Similarity" (breakdown_of r) = Some jd_points /\
            (forall s, hd_error sugg = Some s -> In s (suggestions r)).
Proof.
  intros E. unfold V2.score, V2.score_resume, V2.score_body. rewrite E.
  eexists. split; [reflexivity |]. split; [reflexivity |].
  intros s Hs. cbn [suggestions snd].
  destruct sugg as [| s0 sugg]; [discriminate |]. injection Hs as ->.
  rewrite <- app_comm_cons. apply dedup_head.
Qed.

Lemma coverage_of_nonneg (n_found n_set : nat) : 0 <= V2.coverage_of n_found n_set.
Proof.
  unfold V2.coverage_of. apply Qle_shift_div_l.
  - apply of_nat_pos. lia.
  - pose proof (of_nat_nonneg n_found). lra.
Qed.


Lemma v2_kw_points_bounds (n_found n_set : nat) : 0 <= V2.kw_points_of n_found n_set <= 25.
Proof.
  unfold V2.kw_points_of. apply (qmin_round1_bounds 25); [lia |].
  pose proof (coverage_of_nonneg n_found n_set).
  pose proof (of_nat_nonneg (Nat.min n_found 12)). lra.
Qed.


Lemma fold_sections (tl : string) (c : Q) (l : list (string * list string)) (a : Q) :
  fold_left (fun struct '(_, aliases) => if V2.any_in tl aliases then struct + c else struct) l a
  == a + of_nat (List.length (filter (fun '(_, aliases) => V2.any_in tl aliases) l)) * c.
Proof.
  revert a. induction l as [| [sec aliases] l IH]; intros a; simpl.
  - unfold of_nat; simpl. ring.
  - rewrite IH. destruct (V2.any_in tl aliases); [| reflexivity].
    cbn [List.length]. rewrite of_nat_S. ring.
Qed.

Lemma struct_sum_share (tl : string) :
  V2.struct_sum tl == of_nat (V2.sections_detected tl) * (15 / of_nat (List.length V2.SECTIONS)).
Proof.
  unfold V2.struct_sum, V2.sections_detected. rewrite fold_sections.
  change (15 / of_nat (List.length V2.SECTIONS)) with (15 / 5). ring.
Qed.

Lemma v2_sections_detected_le (tl : string) :
  (V2.sections_detected tl <= List.length V2.SECTIONS)%nat.
Proof. apply filter_length_bound. Qed.

Lemma struct_bounds (tl : string) : 0 <= V2.struct tl <= 15.
Proof.
  unfold V2.struct.
  destruct (share_bound 15 (V2.sections_detected tl) (List.length V2.SECTIONS))
    as [A B]; [lra | apply v2_sections_detected_le |].
  rewrite <- struct_sum_share in A, B.
  apply (round1_bounds_int _ 0 15). split; assumption.
Qed.

Lemma v2_impact_bounds (verbs : list string) (tl : string) : 0 <= V2.impact verbs tl <= 15.
Proof.
  unfold V2.impact. apply (qmin_round1_bounds 15); [lia |].
  pose proof (of_nat_nonneg (Nat.min (V2.nums tl) 6)).
  pose proof (of_nat_nonneg (Nat.min (V2.actions verbs tl) 6)). lra.
Qed.

Lemma v2_ats_bounds (text tl : string) : 0 <= V2.ats text tl <= 10.
Proof.
  unfold V2.ats. split; [apply of_nat_nonneg |].
  apply (of_nat_le _ 10).
  destruct (V2.email_ok tl), (V2.phone_ok tl), (5 <=? V2.bullets text)%nat,
    (Qltb (V2.specials text) (5 # 100)); simpl; lia.
Qed.

Lemma v2_edu_bounds (certs edu : list string) (tl : string) : 0 <= V2.edu certs edu tl <= 5.
Proof.
  unfold V2.edu. apply (qmin_round1_bounds 5); [lia |].
  pose proof (of_nat_nonneg ((if (0 <? V2.edu_hits edu tl)%nat then 1 else 0) * 3)).
  pose proof (of_nat_nonneg (Nat.min (V2.cert_hits certs tl) 2)). lra.
Qed.

(** Whatever the tables, a result of the blend engine has every sub-score
    within its band (35, 25, 15, 15, 10, 5) and its total within their sum,
    which is 105; and a call that raises does so in the similarity stage. *)
Lemma v2_within (sk : V2.sklearn) (roles : list (string * list string))
      (verbs certs edu : list string) (text role : string) (jd_text : option string) :
  V2.nonneg_cosine sk ->
  match V2.score_resume sk roles verbs certs edu text role jd_text with
  | Ok r => within V2.BAND_MAX r
  | Raise e => V2.jd_stage sk text jd_text = Raise e
  end.
Proof.
  intros H. unfold V2.score_resume, V2.score_body.
  set (tl := lower text). set (rw := V2.role_words roles role).
  destruct (V2.jd_stage sk text jd_text) as [[jd_points sugg] | e] eqn:E; [| reflexivity].
  pose proof (jd_stage_bounds _ _ _ _ _ H E) as Hj.
  pose proof (v2_kw_points_bounds (List.length (V2.found tl rw))
                                  (List.length (sorted_set rw))) as Hk.
  fold (V2.kw_points tl rw) in Hk.
  pose proof (struct_bounds tl) as Hs.
  pose proof (v2_impact_bounds verbs tl) as Hi.
  pose proof (v2_ats_bounds text tl) as Ha.
  pose proof (v2_edu_bounds certs edu tl) as He.
  split.
  - cbn [total fst]. apply (round1_bounds_int _ 0 105).
    change (inject_Z 0) with 0. change (inject_Z 105) with 105. lra.
  - cbn [breakdown_of snd fst sub_scores filter String.eqb Ascii.eqb Bool.eqb negb].
    intros name v Hin.
    repeat (destruct Hin as [Hin | Hin];
            [injection Hin as <- <-; eexists; split; [reflexivity | assumption] |]).
    contradiction.
Qed.

Lemma v2_role_words_in (role : string) :
  In (V2.role_words V2.ROLE_KEYWORDS role) (map snd V2.ROLE_KEYWORDS).
Proof.
  unfold V2.role_words.
  destruct (lookup role V2.ROLE_KEYWORDS) eqn:E; [now apply (lookup_in role) |].
  apply (lookup_in "General / Fresher"). reflexivity.
Qed.

Lemma v2_empty_found (role : string) :
  V2.found "" (V2.role_words V2.ROLE_KEYWORDS role) = [].
Proof.
  assert (H : Forall (fun l => V2.found "" l = []) (map snd V2.ROLE_KEYWORDS))
    by (repeat constructor).
  rewrite Forall_forall in H. apply H, v2_role_words_in.
Qed.

Lemma v2_role_words_unknown (role : string) :
  lookup role V2.ROLE_KEYWORDS = None ->
  V2.role_words V2.ROLE_KEYWORDS role = V2.role_words V2.ROLE_KEYWORDS "General / Fresher".
Proof. intros H. unfold V2.role_words. now rewrite H. Qed.

End Blend.

(* ----------------------------------------------------------------- *)
(** ** The store *)

Section StoreFacts.
Import Store.

Lemma update_length (l : loc) (o : pyobj) (h : heap) : List.length (update l o h) = List.length h.
Proof.
  revert l. induction h as [| x h IH]; intros l; [now destruct l |].
  destruct l; simpl; [reflexivity | now rewrite IH].
Qed.

Lemma update_firstn (n l : loc) (o : pyobj) (h : heap) :
  n <= l -> firstn n (update l o h) = firstn n h.
Proof.
  revert n l. induction h as [| x h IH]; intros n l H; [now destruct l |].
  destruct l; simpl.
  - assert (n = 0) by lia. now subst.
  - destruct n; [reflexivity |]. simpl. f_equal. apply IH. lia.
Qed.

Lemma update_last (h : heap) (o o' : pyobj) :
  update (List.length h) o' (h ++ [o])%list = (h ++ [o'])%list.
Proof. induction h as [| x h IH]; simpl; [reflexivity | now rewrite IH]. Qed.

Lemma keeps_ret (n : nat) {A} (a : A) (P : A -> Prop) : P a -> keeps n (ret a) P.
Proof. intros Ha h Hh. simpl. repeat split; auto. now intros ? [= <-]. Qed.

Lemma keeps_raise (n : nat) {A} (e : exn) (P : A -> Prop) : keeps n (raise e) P.
Proof. intros h Hh. simpl. repeat split; auto. discriminate. Qed.

Lemma keeps_bind (n : nat) {A B} (m : M A) (f : A -> M B) (P : A -> Prop) (Q : B -> Prop) :
  keeps n m P -> (forall a, P a -> keeps n (f a) Q) -> keeps n (bind m f) Q.
Proof.
  intros Hm Hf h Hh. unfold bind.
  destruct (Hm h Hh) as (F & L & Hp). destruct (m h) as [[a | e] h']; simpl in *.
  - destruct (Hf a (Hp a eq_refl) h' L) as (F' & L' & Hq).
    repeat split; [now rewrite F' | exact L' | exact Hq].
  - repeat split; auto. discriminate.
Qed.

Lemma keeps_alloc (n : nat) (o : pyobj) : keeps n (alloc o) (fun l => n <= l).
Proof.
  intros h Hh. unfold alloc. simpl. repeat split.
  - rewrite firstn_app. replace (n - List.length h) with 0 by lia. apply app_nil_r.
  - rewrite length_app. lia.
  - now intros a [= <-].
Qed.

Lemma keeps_list_load (n : nat) (l : loc) : keeps n (list_load l) (fun _ => True).
Proof.
  intros h Hh. unfold list_load. destruct (nth_error h l) as [[items | entries] |]; simpl;
    repeat split; auto.
Qed.

Lemma keeps_dict_load (n : nat) (l : loc) : keeps n (dict_load l) (fun _ => True).
Proof.
  intros h Hh. unfold dict_load. destruct (nth_error h l) as [[items | entries] |]; simpl;
    repeat split; auto.
Qed.

Lemma keeps_list_copy (n : nat) (l : loc) : keeps n (list_copy l) (fun l' => n <= l').
Proof.
  unfold list_copy. eapply keeps_bind; [apply keeps_list_load |].
  intros items _. apply keeps_alloc.
Qed.

(** [+=] changes the list it is applied to and nothing else. *)
Lemma keeps_list_iadd (n : nat) (l : loc) (more : list string) :
  n <= l -> keeps n (list_iadd l more) (fun _ => True).
Proof.
  intros Hl. unfold list_iadd. eapply keeps_bind; [apply keeps_list_load |].
  intros items _ h Hh. simpl. repeat split.
  - now apply update_firstn.
  - now rewrite update_length.
Qed.

Lemma keeps_dict_subscript (n : nat) (d : loc) (key : string) :
  keeps n (dict_subscript d key) (fun _ => True).
Proof.
  unfold dict_subscript. eapply keeps_bind; [apply keeps_dict_load |].
  intros entries _. destruct (lookup key entries); [now apply keeps_ret | apply keeps_raise].
Qed.

Lemma keeps_dict_get (n : nat) (d : loc) (key : string) (default : loc) :
  keeps n (dict_get d key default) (fun _ => True).
Proof.
  unfold dict_get. eapply keeps_bind; [apply keeps_dict_load |].
  intros entries _. destruct (lookup key entries); now apply keeps_ret.
Qed.

Lemma keeps_load_items (n : nat) (entries : list (string * loc)) :
  keeps n (load_items entries) (fun _ => True).
Proof.
  induction entries as [| [k l] entries IH]; simpl; [now apply keeps_ret |].
  eapply keeps_bind; [apply keeps_list_load |]. intros items _.
  eapply keeps_bind; [apply IH |]. intros others _. now apply keeps_ret.
Qed.

Lemma keeps_dict_items (n : nat) (d : loc) : keeps n (dict_items d) (fun _ => True).
Proof.
  unfold dict_items. eapply keeps_bind; [apply keeps_dict_load |].
  intros entries _. apply keeps_load_items.
Qed.

Lemma keeps_v1_score_resume (n : nat) (g : globals) (text role : string)
      (extra : option string) :
  keeps n (v1_score_resume g text role extra) (fun _ => True).
Proof.
  unfold v1_score_resume.
  eapply keeps_bind; [apply keeps_dict_items |]. intros hints _.
  eapply keeps_bind; [apply keeps_dict_subscript |]. intros default _.
  eapply keeps_bind; [apply keeps_dict_get |]. intros entry _.
  eapply keeps_bind; [apply keeps_list_copy |]. intros role_words Hfresh.
  eapply keeps_bind with (P := fun _ => True).
  { destruct extra as [e |]; [| now apply keeps_ret].
    destruct (truthy e); [now apply keeps_list_iadd | now apply keeps_ret]. }
  intros _ _.
  eapply keeps_bind; [apply keeps_list_load |]. intros words _.
  eapply keeps_bind; [apply keeps_list_load |]. intros verbs _.
  eapply keeps_bind; [apply keeps_list_load |]. intros edu _.
  eapply keeps_bind; [apply keeps_list_load |]. intros certs _.
  now apply keeps_ret.
Qed.

(** What [keeps] says for the whole store the call starts from. *)
Lemma keeps_all {A} (m : M A) (P : A -> Prop) (h : heap) :
  keeps (List.length h) m P -> exists fresh, snd (m h) = (h ++ fresh)%list.
Proof.
  intros K. destruct (K h (le_n _)) as (F & L & _).
  exists (skipn (List.length h) (snd (m h))).
  rewrite <- (firstn_skipn (List.length h) (snd (m h))) at 1.
  now rewrite F, firstn_all.
Qed.

(** The calls on the state of the loaded modules. *)

Lemma nth_error_extend {A} (h rest : list A) (l : nat) (o : A) :
  nth_error h l = Some o -> nth_error (h ++ rest) l = Some o.
Proof.
  intros H. rewrite nth_error_app1; [exact H |].
  apply nth_error_Some. now rewrite H.
Qed.

Lemma list_load_at (h : heap) (l : loc) (items : list string) :
  nth_error h l = Some (PList items) -> list_load l h = (Ok items, h).
Proof. intros H. unfold list_load. now rewrite H. Qed.

Lemma dict_load_at (h : heap) (l : loc) (entries : list (string * loc)) :
  nth_error h l = Some (PDict entries) -> dict_load l h = (Ok entries, h).
Proof. intros H. unfold dict_load. now rewrite H. Qed.

Lemma load_items_table (h : heap) (entries : list (string * loc))
      (table : list (string * list string)) :
  holds_table h entries table -> load_items entries h = (Ok table, h).
Proof.
  induction 1 as [| [k l] [k' items] entries table [Hk Hl] _ IH]; [reflexivity |].
  simpl in *. subst k'. unfold bind. rewrite (list_load_at h l items Hl), IH. reflexivity.
Qed.

Lemma lookup_table (h : heap) (entries : list (string * loc))
      (table : list (string * list string)) (key : string) :
  holds_table h entries table ->
  match lookup key entries, lookup key table with
  | Some l, Some items => nth_error h l = Some (PList items)
  | None, None => True
  | _, _ => False
  end.
Proof.
  induction 1 as [| [k l] [k' items] entries table [Hk Hl] _ IH]; [exact I |].
  simpl in *. subst k'. destruct (String.eqb key k); [exact Hl | exact IH].
Qed.

Lemma holds_table_extend (h rest : heap) (entries : list (string * loc))
      (table : list (string * list string)) :
  holds_table h entries table -> holds_table (h ++ rest)%list entries table.
Proof.
  intros H. eapply Forall2_impl; [| exact H].
  intros e t [Hk Hl]. split; [exact Hk | now apply nth_error_extend].
Qed.

Lemma v1_heap_roles : nth_error v1_heap (g_roles v1_globals) = Some (PDict v1_role_entries).
Proof. reflexivity. Qed.

Lemma v1_roles_table : holds_table v1_heap v1_role_entries V1.ROLE_KEYWORDS.
Proof. repeat constructor. Qed.

Lemma v1_heap_sections :
  nth_error v1_heap (g_sections v1_globals) = Some (PDict v1_section_entries).
Proof. reflexivity. Qed.

Lemma v1_sections_table : holds_table v1_heap v1_section_entries V1.SECTION_HINTS.
Proof. repeat constructor. Qed.

Lemma list_load_last (h : heap) (items : list string) :
  list_load (List.length h) (h ++ [PList items])%list = (Ok items, (h ++ [PList items])%list).
Proof.
  apply list_load_at. rewrite nth_error_app2, Nat.sub_diag by lia. reflexivity.
Qed.

(** The call from the point where the entry of the role is at hand. *)
Lemma v1_score_resume_tail (rest : heap) (text role : string) (extra : option string) (l : loc) :
  nth_error (v1_heap ++ rest)%list l
  = Some (PList (V1.role_table_words V1.ROLE_KEYWORDS role)) ->
  (role_words <- list_copy l ;;
   _ <- match extra with
        | Some e => if truthy e then list_iadd role_words (V1.extra_list e) else ret tt
        | None => ret tt
        end ;;
   words <- list_load role_words ;;
   verbs <- list_load (g_verbs v1_globals) ;;
   edu <- list_load (g_edu v1_globals) ;;
   certs <- list_load (g_certs v1_globals) ;;
   ret (V1.score_body V1.SECTION_HINTS verbs certs edu words text role)) (v1_heap ++ rest)%list
  = (Ok (V1.score text role extra),
     ((v1_heap ++ rest) ++ [PList (V1.role_words V1.ROLE_KEYWORDS role extra)])%list).
Proof.
  set (h := (v1_heap ++ rest)%list). intros Hl.
  set (copy := V1.role_table_words V1.ROLE_KEYWORDS role) in *.
  set (words := V1.role_words V1.ROLE_KEYWORDS role extra).
  assert (Hextra :
            match extra with
            | Some e => if truthy e then list_iadd (List.length h) (V1.extra_list e) else ret tt
            | None => ret tt
            end (h ++ [PList copy])%list
            = (Ok tt, (h ++ [PList words])%list)).
  { unfold words, V1.role_words. fold copy. destruct extra as [e |]; [| reflexivity].
    destruct (truthy e); [| reflexivity].
    unfold list_iadd, bind. rewrite list_load_last. now rewrite update_last. }
  unfold list_copy. unfold bind at 1. unfold bind at 1. rewrite (list_load_at h l _ Hl).
  unfold alloc. unfold bind at 1. rewrite Hextra.
  unfold bind at 1. rewrite list_load_last.
  unfold bind at 1.
  rewrite (list_load_at _ (g_verbs v1_globals) V1.ACTION_VERBS)
    by (unfold h; rewrite <- app_assoc; now apply nth_error_extend).
  unfold bind at 1.
  rewrite (list_load_at _ (g_edu v1_globals) V1.EDU_WORDS)
    by (unfold h; rewrite <- app_assoc; now apply nth_error_extend).
  unfold bind at 1.
  rewrite (list_load_at _ (g_certs v1_globals) V1.CERT_WORDS)
    by (unfold h; rewrite <- app_assoc; now apply nth_error_extend).
  reflexivity.
Qed.

Lemma v1_score_resume_runs (rest : heap) (text role : string) (extra : option string) :
  v1_score_resume v1_globals text role extra (v1_heap ++ rest)%list
  = (Ok (V1.score text role extra),
     ((v1_heap ++ rest) ++ [PList (V1.role_words V1.ROLE_KEYWORDS role extra)])%list).
Proof.
  pose proof (holds_table_extend _ rest _ _ v1_roles_table) as HR.
  pose proof (holds_table_extend _ rest _ _ v1_sections_table) as HS.
  assert (Droles : dict_load (g_roles v1_globals) (v1_heap ++ rest)%list
                   = (Ok v1_role_entries, (v1_heap ++ rest)%list))
    by (apply dict_load_at, nth_error_extend, v1_heap_roles).
  assert (Dsections : dict_load (g_sections v1_globals) (v1_heap ++ rest)%list
                      = (Ok v1_section_entries, (v1_heap ++ rest)%list))
    by (apply dict_load_at, nth_error_extend, v1_heap_sections).
  unfold v1_score_resume, dict_items, dict_subscript, dict_get.
  unfold bind at 1. unfold bind at 1. rewrite Dsections, (load_items_table _ _ _ HS).
  unfold bind at 1. unfold bind at 1. rewrite Droles.
  pose proof (lookup_table _ _ _ "General / Fresher" HR) as Hdefault.
  change (lookup "General / Fresher" v1_role_entries) with (Some 0) in *.
  cbn [ret]. unfold bind at 1. unfold bind at 1. rewrite Droles.
  pose proof (lookup_table _ _ _ role HR) as Hrole.
  unfold V1.role_table_words, V1.default_role_words in *.
  destruct (lookup role v1_role_entries) as [l |] eqn:E;
    cbn [ret]; apply v1_score_resume_tail; unfold V1.role_table_words, V1.default_role_words;
    destruct (lookup role V1.ROLE_KEYWORDS) as [items |]; try contradiction.
  - exact Hrole.
  - destruct (lookup "General / Fresher" V1.ROLE_KEYWORDS); [exact Hdefault | contradiction].
Qed.

Lemma v2_heap_roles : nth_error v2_heap (g_roles v2_globals) = Some (PDict v2_role_entries).
Proof. reflexivity. Qed.

Lemma v2_roles_table : holds_table v2_heap v2_role_entries V2.ROLE_KEYWORDS.
Proof. repeat constructor. Qed.

Lemma v2_score_resume_tail (sk : V2.sklearn) (rest : heap) (text role : string)
      (jd : option string) (l : loc) :
  nth_error (v2_heap ++ rest)%list l = Some (PList (V2.role_words V2.ROLE_KEYWORDS role)) ->
  (words <- list_load l ;;
   verbs <- list_load (g_verbs v2_globals) ;;
   edu <- list_load (g_edu v2_globals) ;;
   certs <- list_load (g_certs v2_globals) ;;
   lift (V2.score_body sk verbs certs edu words text role jd)) (v2_heap ++ rest)%list
  = (V2.score sk text role jd, (v2_heap ++ rest)%list).
Proof.
  intros Hl. unfold bind at 1. rewrite (list_load_at _ l _ Hl).
  unfold bind at 1.
  rewrite (list_load_at _ (g_verbs v2_globals) V2.ACTION_VERBS)
    by now apply nth_error_extend.
  unfold bind at 1.
  rewrite (list_load_at _ (g_edu v2_globals) V2.EDU_WORDS) by now apply nth_error_extend.
  unfold bind at 1.
  rewrite (list_load_at _ (g_certs v2_globals) V2.CERT_WORDS) by now apply nth_error_extend.
  reflexivity.
Qed.

Lemma v2_score_resume_runs (sk : V2.sklearn) (rest : heap) (text role : string)
      (jd : option string) :
  v2_score_resume sk v2_globals text role jd (v2_heap ++ rest)%list
  = (V2.score sk text role jd, (v2_heap ++ rest)%list).
Proof.
  pose proof (holds_table_extend _ rest _ _ v2_roles_table) as HR.
  assert (Droles : dict_load (g_roles v2_globals) (v2_heap ++ rest)%list
                   = (Ok v2_role_entries, (v2_heap ++ rest)%list))
    by (apply dict_load_at, nth_error_extend, v2_heap_roles).
  unfold v2_score_resume, dict_subscript, dict_get.
  unfold bind at 1. unfold bind at 1. rewrite Droles.
  pose proof (lookup_table _ _ _ "General / Fresher" HR) as Hdefault.
  change (lookup "General / Fresher" v2_role_entries) with (Some 12) in *.
  cbn [ret]. unfold bind at 1. unfold bind at 1. rewrite Droles.
  pose proof (lookup_table _ _ _ role HR) as Hrole.
  destruct (lookup role v2_role_entries) as [l |] eqn:E;
    cbn [ret]; apply v2_score_resume_tail; unfold V2.role_words, V2.default_role_words;
    destruct (lookup role V2.ROLE_KEYWORDS) as [items |]; try contradiction.
  - exact Hrole.
  - destruct (lookup "General / Fresher" V2.ROLE_KEYWORDS); [exact Hdefault | contradiction].
Qed.

(** The blend variant only reads. *)
Lemma reads_bind {A B} (m : M A) (f : A -> M B) :
  reads m -> (forall a, reads (f a)) -> reads (bind m f).
Proof.
  intros Hm Hf h. unfold bind. specialize (Hm h).
  destruct (m h) as [[a | e] h']; simpl in *; subst h'; [apply Hf | reflexivity].
Qed.

Lemma reads_list_load (l : loc) : reads (list_load l).
Proof. intros h. unfold list_load. now destruct (nth_error h l) as [[|] |]. Qed.

Lemma reads_dict_load (l : loc) : reads (dict_load l).
Proof. intros h. unfold dict_load. now destruct (nth_error h l) as [[|] |]. Qed.

Lemma reads_v2_score_resume (sk : V2.sklearn) (g : globals) (text role : string)
      (jd : option string) :
  reads (v2_score_resume sk g text role jd).
Proof.
  unfold v2_score_resume, dict_subscript, dict_get.
  apply reads_bind.
  { apply reads_bind; [apply reads_dict_load |]. intros entries.
    now destruct (lookup "General / Fresher" entries). }
  intros default. apply reads_bind.
  { apply reads_bind; [apply reads_dict_load |]. intros entries.
    now destruct (lookup role entries). }
  intros entry.
  repeat (apply reads_bind; [apply reads_list_load | intros ?]).
  now intros h.
Qed.


End StoreFacts.

(* ----------------------------------------------------------------- *)
(** ** ASCII text: the two models of a string agree *)

Section AsciiText.
Import Unicode.


Ltac by_cases_on c :=
  destruct c as [[] [] [] [] [] [] [] []]; vm_compute; intros; first [reflexivity | discriminate].

Lemma lower_char_ascii (c : ascii) :
  (code c <? 128)%N = true -> (code (lower_char c) <? 128)%N = true.
Proof. revert c. intros c. by_cases_on c. Qed.

Lemma is_ascii_lower (s : string) : is_ascii s = true -> is_ascii (PyStr.lower s) = true.
Proof.
  induction s as [| c s IH]; [reflexivity |].
  cbn [PyStr.lower is_ascii]. intros H. apply andb_true_iff in H. destruct H as [Hc Hs].
  now rewrite (lower_char_ascii c Hc), (IH Hs).
Qed.

Lemma to_lower_ascii (c : ascii) :
  (code c <? 128)%N = true -> to_lower (code c) = [code (lower_char c)].
Proof. by_cases_on c. Qed.

Lemma not_sigma_ascii (c : ascii) : (code c <? 128)%N = true -> (code c =? 931)%N = false.
Proof. by_cases_on c. Qed.

Lemma below_192 (c : ascii) : (code c <? 128)%N = true -> (code c <? 192)%N = true.
Proof. by_cases_on c. Qed.

Lemma encode_point_ascii (c : ascii) :
  (code c <? 128)%N = true -> encode_point (code c) = String c EmptyString.
Proof. by_cases_on c. Qed.

Lemma isspace_ascii (c : ascii) :
  (code c <? 128)%N = true -> Unicode.isspace (code c) = PyStr.isspace c.
Proof. by_cases_on c. Qed.

Lemma decode_cons (c : ascii) (s : string) :
  (code c <? 128)%N = true -> decode (String c s) = code c :: decode s.
Proof. intros H. cbn [decode]. now rewrite (below_192 c H). Qed.

Lemma lower_from_ascii (s : string) (before : list N) :
  is_ascii s = true -> encode (lower_from before (decode s)) = PyStr.lower s.
Proof.
  revert before. induction s as [| c s IH]; intros before H; [reflexivity |].
  cbn [is_ascii] in H. apply andb_true_iff in H. destruct H as [Hc Hs].
  rewrite (decode_cons c s Hc). cbn [lower_from].
  rewrite (not_sigma_ascii c Hc), (to_lower_ascii c Hc).
  cbn [app encode]. rewrite (IH _ Hs), (encode_point_ascii _ (lower_char_ascii c Hc)).
  reflexivity.
Qed.

(** On ASCII text [Unicode.lower] is [PyStr.lower]. *)
Lemma lower_ascii (s : string) : is_ascii s = true -> Unicode.lower s = PyStr.lower s.
Proof. apply lower_from_ascii. Qed.

Lemma is_ascii_lstrip (s : string) : is_ascii s = true -> is_ascii (PyStr.lstrip s) = true.
Proof.
  induction s as [| c s IH]; [reflexivity |]. intros H.
  cbn [PyStr.lstrip]. destruct (PyStr.isspace c); [| exact H].
  cbn [is_ascii] in H. apply andb_true_iff in H. now apply IH.
Qed.

Lemma lstrip_ascii (s : string) :
  is_ascii s = true -> Unicode.lstrip (decode s) = decode (PyStr.lstrip s).
Proof.
  induction s as [| c s IH]; [reflexivity |]. intros H.
  pose proof H as H'. cbn [is_ascii] in H. apply andb_true_iff in H. destruct H as [Hc Hs].
  rewrite (decode_cons c s Hc). cbn [Unicode.lstrip PyStr.lstrip].
  rewrite (isspace_ascii c Hc). destruct (PyStr.isspace c); [now apply IH |].
  now rewrite (decode_cons c s Hc).
Qed.

Lemma encode_nil (l : list N) : encode l = EmptyString -> l = [].
Proof.
  destruct l as [| c l]; [reflexivity |]. cbn [encode]. unfold encode_point.
  destruct (c <? 128)%N; [discriminate |]. destruct (c <? 2048)%N; [discriminate |].
  destruct (c <? 65536)%N; discriminate.
Qed.

Lemma rstrip_ascii (s : string) :
  is_ascii s = true -> encode (Unicode.rstrip (decode s)) = PyStr.rstrip s.
Proof.
  induction s as [| c s IH]; [reflexivity |]. intros H.
  cbn [is_ascii] in H. apply andb_true_iff in H. destruct H as [Hc Hs].
  rewrite (decode_cons c s Hc). cbn [Unicode.rstrip PyStr.rstrip].
  specialize (IH Hs). rewrite <- IH, (isspace_ascii c Hc).
  destruct (Unicode.rstrip (decode s)) as [| d r] eqn:E.
  - cbn [encode]. destruct (PyStr.isspace c); [reflexivity |].
    cbn [encode]. now rewrite (encode_point_ascii c Hc).
  - destruct (encode (d :: r)) eqn:F; [apply encode_nil in F; discriminate |].
    rewrite <- F. cbn [encode]. now rewrite (encode_point_ascii c Hc).
Qed.

Lemma is_ascii_rstrip (s : string) : is_ascii s = true -> is_ascii (PyStr.rstrip s) = true.
Proof.
  induction s as [| c s IH]; [reflexivity |]. intros H.
  cbn [is_ascii] in H. apply andb_true_iff in H. destruct H as [Hc Hs].
  cbn [PyStr.rstrip]. specialize (IH Hs). destruct (PyStr.rstrip s).
  - destruct (PyStr.isspace c); [reflexivity |]. cbn [is_ascii]. now rewrite Hc.
  - cbn [is_ascii] in *. now rewrite Hc, IH.
Qed.

(** On ASCII text [Unicode.strip] is [PyStr.strip]. *)
Lemma strip_ascii (s : string) : is_ascii s = true -> Unicode.strip s = PyStr.strip s.
Proof.
  intros H. unfold Unicode.strip, PyStr.strip.
  rewrite (lstrip_ascii s H). apply rstrip_ascii, is_ascii_lstrip, H.
Qed.

Lemma is_ascii_strip (s : string) : is_ascii s = true -> is_ascii (PyStr.strip s) = true.
Proof. intros H. apply is_ascii_rstrip, is_ascii_lstrip, H. Qed.

Lemma is_ascii_split_on (sep : ascii) (s : string) :
  is_ascii s = true -> forallb is_ascii (split_on sep s) = true.
Proof.
  induction s as [| c s IH]; [reflexivity |]. intros H.
  cbn [is_ascii] in H. apply andb_true_iff in H. destruct H as [Hc Hs]. specialize (IH Hs).
  cbn [split_on]. destruct (Ascii.eqb c sep); [exact IH |].
  destruct (split_on sep s) as [| w ws]; cbn [forallb is_ascii] in *; rewrite Hc; [reflexivity |].
  exact IH.
Qed.

Lemma extra_list_ascii (e : string) :
  is_ascii e = true -> Unicode.extra_list e = V1.extra_list e.
Proof.
  intros H. unfold Unicode.extra_list, V1.extra_list.
  pose proof (is_ascii_split_on "," e H) as F. revert F.
  induction (split_on "," e) as [| k ks IH]; [reflexivity |].
  cbn [forallb]. intros F. apply andb_true_iff in F. destruct F as [Hk Hks].
  cbn [filter]. rewrite (strip_ascii k Hk). destruct (truthy (PyStr.strip k)).
  - cbn [map]. rewrite (strip_ascii k Hk), (lower_ascii _ (is_ascii_strip k Hk)), (IH Hks).
    reflexivity.
  - exact (IH Hks).
Qed.

(** On ASCII text and extra keywords the Keywords stage over Python's
    own [lower] and [strip] is the stage of the engine. *)
Lemma keywords_ascii (text role : string) (extra : option string) :
  is_ascii text = true -> is_ascii_opt extra = true ->
  Unicode.found_role text role extra
  = V1.found_role (PyStr.lower text) (V1.role_words V1.ROLE_KEYWORDS role extra) /\
  lookup "Keywords" (breakdown_of (V1.score text role extra))
  = Some (Unicode.keywords text role extra).
Proof.
  intros Ht He.
  assert (W : Unicode.role_words role extra = V1.role_words V1.ROLE_KEYWORDS role extra).
  { unfold Unicode.role_words, V1.role_words. destruct extra as [e |]; [| reflexivity].
    cbn [is_ascii_opt] in He. now rewrite (extra_list_ascii e He). }
  assert (F : Unicode.found_role text role extra
              = V1.found_role (PyStr.lower text) (V1.role_words V1.ROLE_KEYWORDS role extra)).
  { unfold Unicode.found_role, Unicode.contains_any, V1.found_role, V1.contains_any.
    rewrite W, (lower_ascii text Ht), (lower_ascii _ (is_ascii_lower text Ht)). reflexivity. }
  split; [exact F |]. unfold Unicode.keywords. rewrite F. reflexivity.
Qed.

End AsciiText.

(* ================================================================= *)
(** * The claims of the specification *)

Section Claims.
Open Scope Q_scope.

(* ----------------------------------------------------------------- *)
(** ** C1: total and sub-scores within the bands *)

(** The blend engine on a text that earns every band, pasted as its own
    job description: whenever the library is installed, finds a term in
    the text and gives two identical documents the similarity 1, the
    total is 105. *)
Lemma v2_full_marks (sk : V2.sklearn) :
  V2.TfidfVectorizer sk = true ->
  V2.terms sk Inputs.full_marks <> [] ->
  V2.cosine_similarity sk (V2.terms sk Inputs.full_marks) (V2.terms sk Inputs.full_marks) == 1 ->
  exists r,
    V2.score sk Inputs.full_marks "General / Fresher" (Some Inputs.full_marks) = Ok r /\
    total r == 105.
Proof.
  intros Hlib Ht Hc.
  assert (Hw : (20 < List.length (split Inputs.full_marks))%nat) by (vm_compute; lia).
  destruct (jd_stage_self sk Inputs.full_marks Hw Hlib Ht Hc) as (j & Ej & Hj).
  unfold V2.score, V2.score_resume, V2.score_body. rewrite Ej.
  eexists. split; [reflexivity |]. cbn [total fst].
  assert (K : V2.kw_points (lower Inputs.full_marks)
                           (V2.role_words V2.ROLE_KEYWORDS "General / Fresher") == 25)
    by (vm_compute; reflexivity).
  assert (S : V2.struct (lower Inputs.full_marks) == 15) by (vm_compute; reflexivity).
  assert (I : V2.impact V2.ACTION_VERBS (lower Inputs.full_marks) == 15)
    by (vm_compute; reflexivity).
  assert (A : V2.ats Inputs.full_marks (lower Inputs.full_marks) == 10)
    by (vm_compute; reflexivity).
  assert (E : V2.edu V2.CERT_WORDS V2.EDU_WORDS (lower Inputs.full_marks) == 5)
    by (vm_compute; reflexivity).
  revert K S I A E.
  generalize (V2.kw_points (lower Inputs.full_marks)
                           (V2.role_words V2.ROLE_KEYWORDS "General / Fresher"))
             (V2.struct (lower Inputs.full_marks))
             (V2.impact V2.ACTION_VERBS (lower Inputs.full_marks))
             (V2.ats Inputs.full_marks (lower Inputs.full_marks))
             (V2.edu V2.CERT_WORDS V2.EDU_WORDS (lower Inputs.full_marks)).
  intros k s i a e K S I A E.
  assert (X : j + k + s + i + a + e == inject_Z 105) by (rewrite Hj, K, S, I, A, E; reflexivity).
  rewrite X. apply round1_int.
Qed.

(** C1.  The claim bounds the total by 100 under both weightings.  The
    flat-rate engine keeps to it ([v1_within]), and every sub-score of
    both engines stays within its band ([v1_within], [v2_within]); but the
    bands of the blend engine add up to 105, and on the text
    [Inputs.full_marks] pasted as its own job description the blend
    engine returns the total 105, above 100. *)
Theorem blend_total_above_100 :
  exists r,
    V2.score V2.sklearn_installed Inputs.full_marks "General / Fresher"
             (Some Inputs.full_marks) = Ok r /\
    total r == 105 /\ 100 < total r /\
    Qsum (map snd V2.BAND_MAX) == 105 /\ Qsum (map snd V1.BAND_MAX) == 100.
Proof.
  destruct (v2_full_marks V2.sklearn_installed) as (r & Er & Tr);
    [reflexivity | vm_compute; discriminate | vm_compute; reflexivity |].
  exists r. split; [exact Er |]. split; [exact Tr |].
  split; [rewrite Tr; reflexivity |]. split; reflexivity.
Qed.

(* ----------------------------------------------------------------- *)
(** ** C2: the scoring operation is total *)

(** C2.  The claim says that no call raises.  With the library installed,
    the call of the blend engine on the resume text "x" and the job
    description [Inputs.short_words] (21 one-letter words) raises the
    [ValueError] of the vectorizer, whatever the stop words, the
    similarity function and the role: neither document has a token of two
    characters, so the vocabulary is empty, and the guard of
    [tfidf_similarity] only covers blank documents. *)
Theorem similarity_stage_raises (stop : list string) (cosine : list string -> list string -> Q)
        (role : string) :
  (20 < List.length (split Inputs.short_words))%nat /\
  V2.score {| V2.TfidfVectorizer := true; V2.ENGLISH_STOP_WORDS := stop;
              V2.cosine_similarity := cosine |}
           "x" role (Some Inputs.short_words)
  = Raise (ValueError V2.msg_empty_vocabulary).
Proof. split; [vm_compute; lia | reflexivity]. Qed.

(** When a call of the blend engine raises, and only then, the
    similarity stage met an empty vocabulary. *)
Lemma v2_raises_iff (sk : V2.sklearn) (text role : string) (jd_text : option string) (e : exn) :
  V2.score sk text role jd_text = Raise e <->
  exists jd, jd_text = Some jd /\ V2.jd_supplied jd_text = true /\
             V2.TfidfVectorizer sk = true /\
             truthy (strip text) = true /\ truthy (strip jd) = true /\
             (V2.terms sk text ++ V2.terms sk jd)%list = [] /\
             e = ValueError V2.msg_empty_vocabulary.
Proof.
  unfold V2.score, V2.score_resume, V2.score_body, V2.jd_stage, V2.tfidf_similarity,
    V2.fit_transform.
  destruct jd_text as [jd |].
  - destruct (V2.jd_supplied (Some jd)) eqn:S.
    + destruct (V2.TfidfVectorizer sk) eqn:L, (truthy (strip text)) eqn:A,
        (truthy (strip jd)) eqn:B; simpl;
        try (split; [discriminate | intros (jd' & [= <-] & _ & ? & ? & ? & _); congruence]).
      destruct (V2.terms sk text ++ V2.terms sk jd)%list eqn:T.
      * split.
        -- intros [= <-]. exists jd. rewrite B, T. repeat split.
        -- intros (jd' & _ & _ & _ & _ & _ & _ & ->). reflexivity.
      * split; [discriminate | intros (jd' & [= <-] & _ & _ & _ & _ & N & _)].
        rewrite T in N. discriminate.
    + split; [discriminate | intros (jd' & _ & ? & _); discriminate].
  - split; [discriminate | intros (jd' & ? & _); discriminate].
Qed.

(* ----------------------------------------------------------------- *)
(** ** C3: the empty text *)

Ltac entry_by_computation :=
  eexists; split; [reflexivity | vm_compute; reflexivity].

(** On the empty text the flat-rate engine reports 10 impact points and 2
    ATS points, and the blend engine 2 ATS points: not zero. *)
Lemma empty_text_scores_nonzero :
  let b1 := breakdown_of (V1.score "" "Data Analyst" None) in
  entry b1 "Impact" 10 /\ ~ entry b1 "Impact" 0 /\
  entry b1 "ATS" 2 /\ ~ entry b1 "ATS" 0 /\
  exists r2,
    V2.score V2.sklearn_installed "" "Data Analyst" None = Ok r2 /\
    entry (breakdown_of r2) "ATS" 2 /\ ~ entry (breakdown_of r2) "ATS" 0.
Proof.
  cbv zeta. split; [entry_by_computation |].
  split; [intros (v & [= <-] & E); vm_compute in E; discriminate |].
  split; [entry_by_computation |].
  split; [intros (v & [= <-] & E); vm_compute in E; discriminate |].
  eexists. split; [reflexivity |].
  split; [entry_by_computation |].
  intros (v & [= <-] & E); vm_compute in E; discriminate.
Qed.

(** C3, as amended.  For every role, scoring the empty text with no extra
    keywords and no job description gives Word Count 0 and zero keyword,
    structure and education points in both variants; the ATS sub-score is
    2 in both (of the four checks, the special-character ratio 0 passes);
    the Impact sub-score is its base 10 in the flat-rate variant and 0 in
    the blend variant; the Formatting sub-score of the flat-rate variant
    is 4 (10 less 600/100); the totals are 16 and 2. *)
Theorem empty_text_breakdown (role : string) (sk : V2.sklearn) :
  (let b := breakdown_of (V1.score "" role None) in
   entry b "Word Count" 0 /\ entry b "Keywords" 0 /\ entry b "Impact" 10 /\
   entry b "ATS" 2 /\ entry b "Formatting" 4 /\ entry b "Structure" 0 /\
   entry b "Education/Certs" 0 /\ total (V1.score "" role None) == 16) /\
  (exists r,
     V2.score sk "" role None = Ok r /\
     let b := breakdown_of r in
     entry b "Word Count" 0 /\ entry b "JD Similarity" 0 /\ entry b "Keywords" 0 /\
     entry b "Impact" 0 /\ entry b "ATS" 2 /\ entry b "Structure" 0 /\
     entry b "Education/Certs" 0 /\ total r == 2).
Proof.
  split.
  - unfold V1.score, V1.score_resume, V1.score_body.
    cbn [breakdown_of total fst snd lower]. unfold V1.kw_points.
    rewrite v1_empty_found.
    repeat match goal with |- _ /\ _ => split end;
      first [entry_by_computation | vm_compute; reflexivity].
  - eexists. split; [reflexivity |].
    cbn [breakdown_of total fst snd lower]. unfold V2.kw_points.
    rewrite v2_empty_found.
    repeat match goal with |- _ /\ _ => split end;
      first [entry_by_computation | vm_compute; reflexivity].
Qed.

(* ----------------------------------------------------------------- *)
(** ** C4: duplicates in the keyword list *)

(** C4.  The claim says that a keyword listed twice is counted once.
    "python" is a keyword of the role General / Fresher; given again as an
    extra keyword it is counted a second time in the text "python": the
    found count goes from 1 to 2 and the Keywords sub-score from 2.5 to
    5.0, in both copies of the flat-rate engine. *)
Theorem repeated_keyword_counted_twice :
  In "python" (V1.role_table_words V1.ROLE_KEYWORDS "General / Fresher") /\
  V1.found_role "python" (V1.role_words V1.ROLE_KEYWORDS "General / Fresher" None)
  = ["python"] /\
  V1.found_role "python" (V1.role_words V1.ROLE_KEYWORDS "General / Fresher" (Some "python"))
  = ["python"; "python"] /\
  entry (breakdown_of (V1.score "python" "General / Fresher" None)) "Keywords" (25 # 10) /\
  entry (breakdown_of (V1.score "python" "General / Fresher" (Some "python"))) "Keywords" 5 /\
  ~ entry (breakdown_of (V1.score "python" "General / Fresher" (Some "python")))
      "Keywords" (25 # 10) /\
  entry (breakdown_of (V1.score_v1_3 "python" "General / Fresher" None)) "Keywords" (25 # 10) /\
  entry (breakdown_of (V1.score_v1_3 "python" "General / Fresher" (Some "python"))) "Keywords" 5.
Proof.
  split; [vm_compute; tauto |]. split; [reflexivity |]. split; [reflexivity |].
  split; [entry_by_computation |]. split; [entry_by_computation |].
  split; [intros (v & [= <-] & E); vm_compute in E; discriminate |].
  split; entry_by_computation.
Qed.

(** What the code counts: the found count is the number of entries of
    the role's list that occur in the lower-cased text plus the number of
    extra keywords (stripped, lower-cased, blank ones dropped) that occur
    in it, whether or not they repeat a keyword of the role; the Keywords
    sub-score is the smaller of 30 and 30/12 per entry counted. *)
Lemma found_count_with_extras (text role e : string) :
  let tl := lower text in
  let found := List.length (V1.found_role tl (V1.role_words V1.ROLE_KEYWORDS role None)) in
  let repeated := List.length (V1.contains_any tl (V1.extra_list e)) in
  List.length (V1.found_role tl (V1.role_words V1.ROLE_KEYWORDS role (Some e)))
  = (found + repeated)%nat /\
  entry (breakdown_of (V1.score text role None)) "Keywords" (Qmin (of_nat found * (30 / 12)) 30) /\
  entry (breakdown_of (V1.score text role (Some e))) "Keywords"
        (Qmin (of_nat (found + repeated) * (30 / 12)) 30).
Proof.
  cbv zeta. split; [apply v1_found_count_extra |]. split.
  - apply v1_keywords_value.
  - rewrite <- v1_found_count_extra. apply v1_keywords_value.
Qed.

(* ----------------------------------------------------------------- *)
(** ** C5: the total and the sum of the reported sub-scores *)

(** In the blend variant every sub-score is rounded before it is added:
    the total is the sum of the sub-scores reported, as decimals. *)
Lemma v2_total_is_reported (sk : V2.sklearn) (text role : string) (jd : option string)
      (r : triple) :
  V2.score sk text role jd = Ok r -> total r == reported_sum (breakdown_of r).
Proof.
  unfold V2.score, V2.score_resume, V2.score_body.
  destruct (V2.jd_stage sk text jd) as [[j sg] |] eqn:E; [| discriminate].
  intros [= <-].
  pose proof (jd_stage_tenths _ _ _ _ _ E) as Hj.
  set (tl := lower text). set (rw := V2.role_words V2.ROLE_KEYWORDS role).
  change (round1 (j + V2.kw_points tl rw + V2.struct tl + V2.impact V2.ACTION_VERBS tl
                  + V2.ats text tl + V2.edu V2.CERT_WORDS V2.EDU_WORDS tl)
          == j + (V2.kw_points tl rw + (V2.struct tl + (V2.impact V2.ACTION_VERBS tl
                  + (V2.ats text tl + (V2.edu V2.CERT_WORDS V2.EDU_WORDS tl + 0)))))).
  assert (Hs : tenths (j + V2.kw_points tl rw + V2.struct tl + V2.impact V2.ACTION_VERBS tl
                       + V2.ats text tl + V2.edu V2.CERT_WORDS V2.EDU_WORDS tl)).
  { unfold V2.kw_points, V2.kw_points_of, V2.struct, V2.impact, V2.ats, V2.edu.
    repeat apply tenths_plus; auto with tenths. }
  apply round1_of_tenths in Hs. revert Hs.
  generalize (round1 (j + V2.kw_points tl rw + V2.struct tl + V2.impact V2.ACTION_VERBS tl
                      + V2.ats text tl + V2.edu V2.CERT_WORDS V2.EDU_WORDS tl)).
  generalize (V2.kw_points tl rw) (V2.struct tl) (V2.impact V2.ACTION_VERBS tl)
             (V2.ats text tl) (V2.edu V2.CERT_WORDS V2.EDU_WORDS tl).
  intros. lra.
Qed.

(** C5.  The claim says that the total is the exact sum of the sub-scores
    reported.  On the five-word text "led a b c d" the flat-rate engine
    (both copies) returns the total 17.6 and sub-scores that add up to
    17.5: the formatting points 4.05 are rounded to 4.0 in the breakdown
    and take part unrounded in the total.  In binary64 arithmetic, as
    CPython runs it, the formatting points are a float just below 4.05 and
    the sum a float just above 17.55, so [round] gives 4.0 and 17.6 there
    as well. *)
Theorem total_differs_from_reported_sum :
  let r := V1.score "led a b c d" "General / Fresher" None in
  let r' := V1.score_v1_3 "led a b c d" "General / Fresher" None in
  (total r == 176 # 10 /\ reported_sum (breakdown_of r) == 175 # 10 /\
   entry (breakdown_of r) "Formatting" 4 /\ V1.fmt_points 5 == 405 # 100 /\
   ~ total r == reported_sum (breakdown_of r)) /\
  (total r' == 176 # 10 /\ reported_sum (breakdown_of r') == 175 # 10) /\
  exists f s,
    Binary64.value Binary64.fmt_points_5 = Some f /\
    Binary64.value Binary64.sum_led_a_b_c_d = Some s /\
    f < 405 # 100 /\ 1755 # 100 < s /\
    round1 f == 40 # 10 /\ round1 s == 176 # 10.
Proof.
  cbv zeta. split; [| split].
  - split; [vm_compute; reflexivity |]. split; [vm_compute; reflexivity |].
    split; [entry_by_computation |]. split; [vm_compute; reflexivity |].
    vm_compute. discriminate.
  - split; vm_compute; reflexivity.
  - do 2 eexists. split; [vm_compute; reflexivity |]. split; [vm_compute; reflexivity |].
    repeat split; vm_compute; reflexivity.
Qed.

(* ----------------------------------------------------------------- *)
(** ** C6: more keyword instances never lower the Keywords sub-score *)

(** Every keyword found in a text is found in a text that contains it,
    when lower-casing is character by character, as in [PyStr]. *)
Lemma found_count_embed (words : list string) (before text after : string) :
  (List.length (filter (fun w => contains w (lower text)) words)
   <= List.length (filter (fun w => contains w (lower (before ++ text ++ after))) words))%nat.
Proof.
  apply (@filter_length_mono _ (fun w => contains w (lower text))
                             (fun w => contains w (lower (before ++ text ++ after)))).
  intros w H. rewrite !lower_app. now apply contains_embed.
Qed.







(* ----------------------------------------------------------------- *)
(** ** C7: the section budget *)

(** The share is rounded after the shares are added, not before: two
    sections out of seven give 5.7, not twice 2.9. *)
Example share_rounded_after_adding :
  round1 (of_nat 2 * (20 / 7)) == 57 # 10 /\ of_nat 2 * round1 (20 / 7) == 58 # 10.
Proof. split; reflexivity. Qed.

(** C7.  With k catalog sections detected in the lower-cased text, the
    Structure sub-score is k times the even share of the budget, rounded
    to one decimal place: the share is 20 points over the 7 sections of
    the catalog in the flat-rate variant, and 15 points over the 5
    sections in the blend variant. *)
Theorem structure_share (text role : string) :
  (forall extra : option string,
     (V1.sections_detected V1.SECTION_HINTS (lower text) <= 7)%nat /\
     List.length V1.SECTION_HINTS = 7%nat /\
     lookup "Structure" (breakdown_of (V1.score text role extra))
     = Some (round1 (of_nat (V1.sections_detected V1.SECTION_HINTS (lower text))
                     * (20 / of_nat (List.length V1.SECTION_HINTS))))) /\
  (forall (sk : V2.sklearn) (jd : option string) (r : triple),
     V2.score sk text role jd = Ok r ->
     (V2.sections_detected (lower text) <= 5)%nat /\
     List.length V2.SECTIONS = 5%nat /\
     lookup "Structure" (breakdown_of r)
     = Some (round1 (of_nat (V2.sections_detected (lower text))
                     * (15 / of_nat (List.length V2.SECTIONS))))).
Proof.
  split.
  - intros extra. split; [apply (sections_detected_le V1.SECTION_HINTS) |].
    split; [reflexivity |].
    cbn [V1.score V1.score_resume V1.score_body breakdown_of fst snd lookup String.eqb
         Ascii.eqb Bool.eqb].
    f_equal. apply round1_eq, structure_sum_share.
  - intros sk jd r. unfold V2.score, V2.score_resume, V2.score_body.
    destruct (V2.jd_stage sk text jd) as [[j sg] |]; [| discriminate].
    intros [= <-]. split; [apply v2_sections_detected_le |]. split; [reflexivity |].
    cbn [breakdown_of fst snd lookup String.eqb Ascii.eqb Bool.eqb].
    f_equal. apply round1_eq, struct_sum_share.
Qed.

(** The theorem for a text with three sections: 8.6 and 9 points. *)
Lemma structure_share_witness :
  V1.sections_detected V1.SECTION_HINTS (lower "Summary Skills EDUCATION") = 3%nat /\
  entry (breakdown_of (V1.score "Summary Skills EDUCATION" "Data Analyst" None))
        "Structure" (86 # 10) /\
  exists r,
    V2.score V2.sklearn_installed "Summary Skills EDUCATION" "Data Analyst" None = Ok r /\
    entry (breakdown_of r) "Structure" 9.
Proof.
  pose proof (structure_share "Summary Skills EDUCATION" "Data Analyst") as [F B].
  split; [reflexivity |]. split.
  - destruct (F None) as (_ & _ & E). eexists. split; [exact E | reflexivity].
  - eexists. split; [reflexivity |].
    destruct (B V2.sklearn_installed None _ eq_refl) as (_ & _ & E).
    eexists. split; [exact E | reflexivity].
Defined.

(* ----------------------------------------------------------------- *)
(** ** C8: the job-description similarity band *)

(** C8.  The claim says that a text of more than 20 words pasted as its
    own job description gets the similarity 1.0 and the full 35 points.
    With the library installed, the call on [Inputs.short_words] (21
    one-letter words) with the same text as the job description raises
    the [ValueError] of the vectorizer instead, whatever the stop words,
    the similarity function and the role: the text has no token of two
    characters, so the vocabulary is empty. *)
Theorem identical_texts_without_full_band (stop : list string)
        (cosine : list string -> list string -> Q) (role : string) :
  (20 < List.length (split Inputs.short_words))%nat /\
  V2.score {| V2.TfidfVectorizer := true; V2.ENGLISH_STOP_WORDS := stop;
              V2.cosine_similarity := cosine |}
           Inputs.short_words role (Some Inputs.short_words)
  = Raise (ValueError V2.msg_empty_vocabulary).
Proof. split; [vm_compute; lia | reflexivity]. Qed.

(** With the library missing the similarity of a text and itself is 0.0,
    and so is the sub-score. *)
Example similarity_without_library :
  (20 < List.length (split Inputs.keyword_words))%nat /\
  exists r,
    V2.score V2.sklearn_missing Inputs.keyword_words "General / Fresher"
             (Some Inputs.keyword_words) = Ok r /\
    entry (breakdown_of r) "JD Similarity" 0 /\
    ~ entry (breakdown_of r) "JD Similarity" 35.
Proof.
  split; [vm_compute; lia |].
  eexists. split; [vm_compute; reflexivity |]. split.
  - eexists. split; reflexivity.
  - intros (v & [= <-] & E). discriminate E.
Qed.

(** A similarity of 0.999 or more earns the whole band. *)
Lemma jd_points_near_one (sim : Q) : 999 # 1000 <= sim -> Qmin 35 (round1 (sim * 35)) == 35.
Proof.
  intros H. apply Q.min_l.
  assert (R : round1 (34965 # 1000) == 35) by (vm_compute; reflexivity).
  apply (Qle_trans _ (round1 (34965 # 1000))); [rewrite R; apply Qle_refl |].
  apply round1_mono.
  apply (Qle_trans _ ((999 # 1000) * 35)); [vm_compute; discriminate |].
  apply Qmult_le_compat_r; [exact H | discriminate].
Qed.

(** The rest of C8, for an ASCII text and job description.  Whenever the
    similarity the library returns for a resume and a job description of
    more than 20 words is 0.999 or more (as it is, up to the rounding of
    the library's own arithmetic, for two identical documents with a
    term), the JD Similarity sub-score is the full 35 points.  With the
    library missing the similarity is 0.0 and the sub-score 0.  For a job
    description of at most 20 words, or none, the sub-score is 0 and the
    suggestion to paste a job description is in the list returned. *)
Lemma jd_band_cases (sk : V2.sklearn) (text role : string) :
  Unicode.is_ascii text = true ->
  (forall (jd : string) (sim : Q),
     Unicode.is_ascii jd = true ->
     V2.jd_supplied (Some jd) = true ->
     V2.tfidf_similarity sk text jd = Ok sim -> 999 # 1000 <= sim ->
     exists r,
       V2.score sk text role (Some jd) = Ok r /\
       entry (breakdown_of r) "JD Similarity" 35) /\
  (V2.TfidfVectorizer sk = false ->
   forall jd : string,
   Unicode.is_ascii jd = true ->
   exists r,
     V2.tfidf_similarity sk text jd = Ok 0 /\
     V2.score sk text role (Some jd) = Ok r /\
     entry (breakdown_of r) "JD Similarity" 0) /\
  (forall jd_text : option string,
   Unicode.is_ascii_opt jd_text = true ->
   match jd_text with Some jd => (List.length (split jd) <= 20)%nat | None => True end ->
   exists r,
     V2.score sk text role jd_text = Ok r /\
     entry (breakdown_of r) "JD Similarity" 0 /\
     In V2.msg_paste_jd (suggestions r)).
Proof.
  intros _. split; [| split].
  - intros jd sim _ Hs Hsim Hnear.
    assert (Ej : exists sg, V2.jd_stage sk text (Some jd)
                            = Ok (Qmin 35 (round1 (sim * 35)), sg)).
    { unfold V2.jd_stage. rewrite Hs, Hsim. eexists. reflexivity. }
    destruct Ej as (sg & Ej).
    destruct (jd_entry sk text role _ _ _ Ej) as (r & Er & Lr & _).
    exists r. split; [exact Er |]. eexists. split; [exact Lr |].
    now apply jd_points_near_one.
  - intros Hlib jd _.
    assert (E : exists j sg, V2.jd_stage sk text (Some jd) = Ok (j, sg) /\ j == 0).
    { unfold V2.jd_stage. destruct (V2.jd_supplied (Some jd)).
      - rewrite (tfidf_similarity_missing sk text jd Hlib). do 2 eexists.
        split; reflexivity.
      - do 2 eexists. split; reflexivity. }
    destruct E as (j & sg & Ej & Hj).
    destruct (jd_entry sk text role _ _ _ Ej) as (r & Er & Lr & _).
    exists r. split; [now apply tfidf_similarity_missing |]. split; [exact Er | now exists j].
  - intros jd_text _ Hshort.
    pose proof (jd_stage_not_supplied sk text jd_text (jd_supplied_short jd_text Hshort)) as Ej.
    destruct (jd_entry sk text role _ _ _ Ej) as (r & Er & Lr & Hs).
    exists r. split; [exact Er |]. split; [exists 0; split; [exact Lr | reflexivity] |].
    apply Hs. reflexivity.
Qed.

(* ----------------------------------------------------------------- *)
(** ** C9: the tables are not mutated *)

(** C9.  A scoring call leaves every object of the store it starts from
    as it was, for any store and any bindings of the module's names: the
    flat-rate call only adds objects, the blend call leaves the store as
    it is.  On the state of the loaded module (extended by anything
    earlier calls left behind) the flat-rate call returns the score of
    the embedding and adds exactly one object, the per-request copy of the
    role's list with the extra keywords merged in; the blend call returns
    the outcome of the embedding. *)
Theorem tables_unchanged :
  (forall (g : Store.globals) (h : Store.heap) (text role : string) (extra : option string),
     exists fresh, snd (Store.v1_score_resume g text role extra h) = (h ++ fresh)%list) /\
  (forall (sk : V2.sklearn) (g : Store.globals) (h : Store.heap) (text role : string)
          (jd : option string),
     snd (Store.v2_score_resume sk g text role jd h) = h) /\
  (forall (rest : Store.heap) (text role : string) (extra : option string),
     Store.v1_score_resume Store.v1_globals text role extra (Store.v1_heap ++ rest)%list
     = (Ok (V1.score text role extra),
        ((Store.v1_heap ++ rest)
           ++ [Store.PList (V1.role_words V1.ROLE_KEYWORDS role extra)])%list)) /\
  (forall (sk : V2.sklearn) (rest : Store.heap) (text role : string) (jd : option string),
     Store.v2_score_resume sk Store.v2_globals text role jd (Store.v2_heap ++ rest)%list
     = (V2.score sk text role jd, (Store.v2_heap ++ rest)%list)).
Proof.
  repeat split.
  - intros g h text role extra. eapply keeps_all. apply keeps_v1_score_resume.
  - intros sk g h text role jd. apply reads_v2_score_resume.
  - apply v1_score_resume_runs.
  - apply v2_score_resume_runs.
Qed.

(** The tables of the flat-rate module before and after a call with an
    extra keyword: the role's list is as it was, the copy has the keyword. *)
Example tables_after_a_call :
  let h' := snd (Store.v1_score_resume Store.v1_globals "sql" "Data Analyst"
                                       (Some "snowflake") Store.v1_heap) in
  firstn (List.length Store.v1_heap) h' = Store.v1_heap /\
  nth_error h' 1 = Some (Store.PList (V1.role_table_words V1.ROLE_KEYWORDS "Data Analyst")) /\
  nth_error h' (List.length Store.v1_heap)
  = Some (Store.PList (V1.role_table_words V1.ROLE_KEYWORDS "Data Analyst" ++ ["snowflake"])).
Proof. vm_compute. repeat split. Qed.

(* ----------------------------------------------------------------- *)
(** ** C10: a role that is not in the table *)

(** "Intern" is not a key of either table; the suggestions of a call for
    it are not those of a call for "General / Fresher", since the
    missing-keyword suggestion quotes the role. *)
Lemma unknown_role_suggestion_differs :
  lookup "Intern" V1.ROLE_KEYWORDS = None /\
  suggestions (V1.score "" "Intern" None)
  <> suggestions (V1.score "" "General / Fresher" None) /\
  V1.keyword_suggestions "" "Intern" (V1.role_words V1.ROLE_KEYWORDS "Intern" None)
  <> V1.keyword_suggestions "" "General / Fresher"
       (V1.role_words V1.ROLE_KEYWORDS "General / Fresher" None) /\
  lookup "Intern" V2.ROLE_KEYWORDS = None /\
  V2.keyword_suggestions "" "Intern" (V2.role_words V2.ROLE_KEYWORDS "Intern")
  <> V2.keyword_suggestions "" "General / Fresher"
       (V2.role_words V2.ROLE_KEYWORDS "General / Fresher").
Proof.
  split; [reflexivity |]. split; [vm_compute; discriminate |].
  split; [vm_compute; discriminate |].
  split; [reflexivity |]. vm_compute. discriminate.
Qed.

(** C10, as amended.  For a role that is not a key of the table the call
    does not fail on the lookup: it uses the keyword list of
    "General / Fresher", so the total and the whole breakdown, the
    Keywords sub-score among them, are those of a call for
    "General / Fresher", and the blend call raises or returns as that
    call does.  The missing-keyword suggestion is made in the same cases
    and lists the same missing keywords, but its text names the role that
    was asked for. *)
Theorem unknown_role_scored_as_general (role text : string) :
  (lookup role V1.ROLE_KEYWORDS = None ->
   forall extra : option string,
     let words := V1.role_words V1.ROLE_KEYWORDS "General / Fresher" extra in
     V1.role_words V1.ROLE_KEYWORDS role extra = words /\
     total (V1.score text role extra) = total (V1.score text "General / Fresher" extra) /\
     breakdown_of (V1.score text role extra)
     = breakdown_of (V1.score text "General / Fresher" extra) /\
     V1.keyword_suggestions (lower text) role words
     = map (fun _ => V1.msg_keywords role (V1.missing_keywords (lower text) words))
           (V1.keyword_suggestions (lower text) "General / Fresher" words)) /\
  (lookup role V2.ROLE_KEYWORDS = None ->
   forall (sk : V2.sklearn) (jd : option string),
     let words := V2.role_words V2.ROLE_KEYWORDS "General / Fresher" in
     V2.role_words V2.ROLE_KEYWORDS role = words /\
     match V2.score sk text role jd, V2.score sk text "General / Fresher" jd with
     | Ok r, Ok r0 => total r = total r0 /\ breakdown_of r = breakdown_of r0
     | Raise e, Raise e0 => e = e0
     | _, _ => False
     end /\
     V2.keyword_suggestions (lower text) role words
     = map (fun _ => V2.msg_keywords role (V2.missing (lower text) words))
           (V2.keyword_suggestions (lower text) "General / Fresher" words)).
Proof.
  split.
  - intros H extra. cbv zeta.
    split; [now apply v1_role_words_unknown |].
    unfold V1.score, V1.score_resume. rewrite (v1_role_words_unknown role extra H).
    split; [reflexivity |]. split; [reflexivity |].
    unfold V1.keyword_suggestions.
    destruct (List.length (V1.found_role (lower text) _) <? 8)%nat; reflexivity.
  - intros H sk jd. cbv zeta.
    split; [now apply v2_role_words_unknown |].
    unfold V2.score, V2.score_resume. rewrite (v2_role_words_unknown role H).
    split.
    + unfold V2.score_body.
      destruct (V2.jd_stage sk text jd) as [[j sg] | e]; [split |]; reflexivity.
    + unfold V2.keyword_suggestions.
      destruct (Qltb (V2.coverage (lower text) _) (1 # 2)); reflexivity.
Qed.

(** The theorem for the role "Intern" and the text "python and sql". *)
Lemma unknown_role_scored_as_general_witness :
  breakdown_of (V1.score "python and sql" "Intern" (Some "excel"))
  = breakdown_of (V1.score "python and sql" "General / Fresher" (Some "excel")) /\
  V2.role_words V2.ROLE_KEYWORDS "Intern" = V2.role_words V2.ROLE_KEYWORDS "General / Fresher".
Proof.
  pose proof (unknown_role_scored_as_general "Intern" "python and sql") as [F B].
  split.
  - destruct (F eq_refl (Some "excel")) as (_ & _ & E & _). exact E.
  - destruct (B eq_refl V2.sklearn_installed None) as (E & _). exact E.
Defined.

End Claims.

(* ================================================================= *)
(** * Further properties of the code *)

Import Notions.

(* ----------------------------------------------------------------- *)
(** ** Letter case *)

Section LetterCase.
Import Re Patterns.

Ltac by_cases_on c := destruct c as [[] [] [] [] [] [] [] []]; reflexivity.

Lemma isspace_lower (c : ascii) : isspace (lower_char c) = isspace c.
Proof. by_cases_on c. Qed.

Lemma isalnum_lower (c : ascii) : isalnum (lower_char c) = isalnum c.
Proof. by_cases_on c. Qed.

Lemma is_continuation_lower (c : ascii) : is_continuation (lower_char c) = is_continuation c.
Proof. by_cases_on c. Qed.

Lemma word_char_lower (c : ascii) : word_char (lower_char c) = word_char c.
Proof. by_cases_on c. Qed.

Lemma is_special_lower (c : ascii) : V1.is_special (lower_char c) = V1.is_special c.
Proof. by_cases_on c. Qed.

(** Under [re.I] a character and its lower case match the same classes. *)
Lemma class_match_lower (p : ascii -> bool) (c : ascii) :
  class_match true p (lower_char c) = class_match true p c.
Proof.
  unfold class_match.
  destruct c as [[] [] [] [] [] [] [] []];
    match goal with
    | |- context [lower_char ?c] =>
        let l := eval vm_compute in (lower_char c) in
        let u := eval vm_compute in (upper_char c) in
        let ll := eval vm_compute in (lower_char (lower_char c)) in
        let ul := eval vm_compute in (upper_char (lower_char c)) in
        change (lower_char (lower_char c)) with ll;
        change (upper_char (lower_char c)) with ul;
        change (lower_char c) with l;
        change (upper_char c) with u
    end;
    simpl andb;
    repeat match goal with |- context [p ?x] => destruct (p x) end; reflexivity.
Qed.

Lemma length_lower (s : string) : String.length (lower s) = String.length s.
Proof. induction s as [| c s IH]; simpl; [reflexivity | now rewrite IH]. Qed.

Lemma truthy_lower (s : string) : truthy (lower s) = truthy s.
Proof. now destruct s. Qed.

Lemma chars_lower (s : string) : chars (lower s) = map lower_char (chars s).
Proof.
  induction s as [| c s IH]; simpl; [reflexivity |].
  rewrite is_continuation_lower. destruct (is_continuation c); simpl; now rewrite IH.
Qed.

Lemma split_lower (s : string) : split (lower s) = map lower (split s).
Proof.
  induction s as [| c s IH]; [reflexivity |].
  destruct s as [| c' s'].
  - simpl. rewrite isspace_lower. now destruct (isspace c).
  - change (lower (String c (String c' s')))
      with (String (lower_char c) (lower (String c' s'))).
    change (split (String c (String c' s')))
      with (if isspace c then split (String c' s')
            else if isspace c' then String c EmptyString :: split (String c' s')
                 else match split (String c' s') with
                      | w :: ws => String c w :: ws
                      | [] => [String c EmptyString]
                      end).
    change (split (String (lower_char c) (lower (String c' s'))))
      with (if isspace (lower_char c) then split (lower (String c' s'))
            else if isspace (lower_char c') then
                   String (lower_char c) EmptyString :: split (lower (String c' s'))
                 else match split (lower (String c' s')) with
                      | w :: ws => String (lower_char c) w :: ws
                      | [] => [String (lower_char c) EmptyString]
                      end).
    rewrite !isspace_lower, IH.
    destruct (isspace c); [reflexivity |].
    destruct (isspace c'); [reflexivity |].
    destruct (split (String c' s')); reflexivity.
Qed.

Lemma split_on_lower (sep : ascii) (s : string) :
  lower_char sep = sep -> isupper sep = false ->
  (forall c, Ascii.eqb (lower_char c) sep = Ascii.eqb c sep) ->
  split_on sep (lower s) = map lower (split_on sep s).
Proof.
  intros _ _ H. induction s as [| c s IH]; [reflexivity |].
  cbn [lower split_on]. rewrite H.
  destruct (Ascii.eqb c sep).
  - cbn [map]. now rewrite IH.
  - rewrite IH. destruct (split_on sep s); reflexivity.
Qed.

Lemma comma_lower (c : ascii) : Ascii.eqb (lower_char c) "," = Ascii.eqb c ",".
Proof. by_cases_on c. Qed.

Lemma lstrip_lower (s : string) : lstrip (lower s) = lower (lstrip s).
Proof.
  induction s as [| c s IH]; [reflexivity |].
  cbn [lower lstrip]. rewrite isspace_lower. destruct (isspace c); [exact IH | reflexivity].
Qed.

Lemma rstrip_lower (s : string) : rstrip (lower s) = lower (rstrip s).
Proof.
  induction s as [| c s IH]; [reflexivity |].
  cbn [lower rstrip]. rewrite IH, isspace_lower.
  destruct (rstrip s); simpl; [destruct (isspace c) |]; reflexivity.
Qed.

Lemma strip_lower (s : string) : strip (lower s) = lower (strip s).
Proof. unfold strip. now rewrite lstrip_lower, rstrip_lower. Qed.

Lemma substring_lower (n m : nat) (s : string) :
  substring n m (lower s) = lower (substring n m s).
Proof.
  revert n m. induction s as [| c s IH]; intros n m.
  - destruct n, m; reflexivity.
  - destruct n; [destruct m |]; simpl; [reflexivity | now rewrite IH | apply IH].
Qed.

(** *** The matcher on lower-cased text *)

Lemma is_word_lower (o : option ascii) : is_word (option_map lower_char o) = is_word o.
Proof. destruct o; simpl; [apply word_char_lower | reflexivity]. Qed.

Lemma next_char_lower (s : string) : next_char (lower s) = option_map lower_char (next_char s).
Proof. now destruct s. Qed.

Lemma match_str_lower (w : string) (p : pos) :
  match_str true w (lower_pos p) = option_map lower_pos (match_str true w p).
Proof.
  revert p. induction w as [| c w IH]; intros [prev s]; [reflexivity |].
  destruct s as [| c' s']; [reflexivity |].
  cbn [match_str lower_pos fst snd lower]. rewrite class_match_lower.
  destruct (class_match true (Ascii.eqb c) c'); [| reflexivity].
  apply (IH (Some c', s')).
Qed.

Lemma run_lower (r : regex) :
  forall k k', lowered k k' ->
  forall p, run true r k' (lower_pos p) = option_map lower_pos (run true r k p).
Proof.
  induction r as [c | w | f | r1 IH1 r2 IH2 | r1 IH1 r2 IH2 | lo hi r1 IH1 |]; intros k k' K p.
  - cbn [run]. rewrite match_str_lower.
    destruct (match_str true (String c "") p); [apply K | reflexivity].
  - cbn [run]. rewrite match_str_lower.
    destruct (match_str true w p); [apply K | reflexivity].
  - destruct p as [prev [| c s]]; [reflexivity |].
    cbn [run lower_pos fst snd lower]. rewrite class_match_lower.
    destruct (class_match true f c); [apply (K (Some c, s)) | reflexivity].
  - cbn [run]. apply IH1. intros q. now apply IH2.
  - cbn [run]. rewrite (IH1 k k' K p), (IH2 k k' K p).
    destruct (run true r1 k p); reflexivity.
  - cbn [run].
    replace (String.length (snd (lower_pos p))) with (String.length (snd p))
      by (destruct p; simpl; now rewrite length_lower).
    generalize (String.length (snd p)) as fuel. generalize 0 as n. revert p.
    intros p n fuel. revert n p.
    induction fuel as [| fuel IHf]; intros n p.
    + destruct (lo <=? n); [apply K | reflexivity].
    + destruct (below n hi).
      * rewrite (IH1 _ _ (IHf (S n)) p).
        destruct (run true r1 _ p); [reflexivity |].
        destruct (lo <=? n); [apply K | reflexivity].
      * destruct (lo <=? n); [apply K | reflexivity].
  - cbn [run]. destruct p as [prev s]. cbn [lower_pos fst snd].
    rewrite is_word_lower, next_char_lower, is_word_lower.
    destruct (xorb _ _); [apply (K (prev, s)) | reflexivity].
Qed.

Lemma match_at_lower (r : regex) (p : pos) :
  match_at true r (lower_pos p) = option_map lower_pos (match_at true r p).
Proof. apply run_lower. intros q. reflexivity. Qed.

Lemma findall_from_lower (r : regex) (fuel : nat) (prev : option ascii) (s : string) :
  findall_from fuel true r (option_map lower_char prev) (lower s)
  = map lower (findall_from fuel true r prev s).
Proof.
  revert prev s. induction fuel as [| fuel IH]; intros prev s; [reflexivity |].
  cbn [findall_from].
  change (option_map lower_char prev, lower s) with (lower_pos (prev, s)).
  rewrite match_at_lower.
  destruct (match_at true r (prev, s)) as [[prev' rest] |]; cbn [option_map lower_pos fst snd].
  - rewrite !length_lower. destruct (0 <? _).
    + cbn [map]. now rewrite substring_lower, IH.
    + cbn [map]. f_equal. destruct s as [| c s]; [reflexivity |]. apply (IH (Some c) s).
  - destruct s as [| c s]; [reflexivity |]. apply (IH (Some c) s).
Qed.

(** [re.findall] with [re.I] on the lower-cased text finds the
    lower-cased matches. *)
Lemma findall_lower (r : regex) (s : string) :
  findall true r (lower s) = map lower (findall true r s).
Proof. unfold findall. rewrite length_lower. apply (findall_from_lower r _ None s). Qed.

Lemma count_regex_lower (r : regex) (s : string) : count_regex (lower s) r = count_regex s r.
Proof. unfold count_regex. now rewrite findall_lower, length_map. Qed.

Lemma filter_map_commute {A B : Type} (f : A -> B) (p : B -> bool) (q : A -> bool) (l : list A) :
  (forall x, p (f x) = q x) -> filter p (map f l) = map f (filter q l).
Proof.
  intros H. induction l as [| x l IH]; simpl; [reflexivity |].
  rewrite H. destruct (q x); simpl; now rewrite IH.
Qed.

Lemma special_count_lower (text : string) :
  List.length (filter V1.is_special (chars (lower text)))
  = List.length (filter V1.is_special (chars text)).
Proof.
  rewrite chars_lower, (filter_map_commute lower_char V1.is_special V1.is_special).
  - apply length_map.
  - apply is_special_lower.
Qed.

Lemma len_lower (text : string) : len (lower text) = len text.
Proof. unfold len. rewrite chars_lower. apply length_map. Qed.

Lemma extra_list_lower (e : string) : V1.extra_list (lower e) = V1.extra_list e.
Proof.
  unfold V1.extra_list.
  rewrite (split_on_lower "," e eq_refl eq_refl comma_lower).
  rewrite (filter_map_commute lower (fun k => truthy (strip k)) (fun k => truthy (strip k))).
  - rewrite map_map. apply map_ext. intros k. now rewrite strip_lower, lower_idem.
  - intros k. now rewrite strip_lower, truthy_lower.
Qed.

End LetterCase.

(* ----------------------------------------------------------------- *)
(** ** Letter case and the engines *)

Section CaseOfEngines.

Lemma v1_score_body_lower (hints : list (string * list string)) (verbs certs edu words : list string)
      (text role : string) :
  V1.score_body hints verbs certs edu words (lower text) role
  = V1.score_body hints verbs certs edu words text role.
Proof.
  unfold V1.score_body. rewrite lower_idem.
  replace (V1.ats_points (lower text) (lower text)) with (V1.ats_points text (lower text));
    [reflexivity |].
  unfold V1.ats_points, V1.bullets, V1.special_ratio.
  now rewrite count_regex_lower, special_count_lower, len_lower.
Qed.

Lemma v1_role_words_lower (roles : list (string * list string)) (role : string)
      (extra : option string) :
  V1.role_words roles role (option_map lower extra) = V1.role_words roles role extra.
Proof.
  destruct extra as [e |]; [| reflexivity].
  unfold V1.role_words. cbn [option_map]. now rewrite truthy_lower, extra_list_lower.
Qed.

Lemma v2_terms_lower (sk : V2.sklearn) (doc : string) : V2.terms sk (lower doc) = V2.terms sk doc.
Proof. unfold V2.terms. now rewrite lower_idem. Qed.

Lemma v2_tfidf_similarity_lower (sk : V2.sklearn) (a b : string) :
  V2.tfidf_similarity sk (lower a) b = V2.tfidf_similarity sk a b /\
  V2.tfidf_similarity sk a (lower b) = V2.tfidf_similarity sk a b.
Proof.
  unfold V2.tfidf_similarity, V2.fit_transform.
  now rewrite !v2_terms_lower, !strip_lower, !truthy_lower.
Qed.

Lemma v2_jd_stage_lower (sk : V2.sklearn) (text : string) (jd : option string) :
  V2.jd_stage sk (lower text) jd = V2.jd_stage sk text jd /\
  V2.jd_stage sk text (option_map lower jd) = V2.jd_stage sk text jd.
Proof.
  destruct jd as [jd |]; [| split; reflexivity].
  unfold V2.jd_stage, V2.jd_supplied. cbn [option_map].
  rewrite truthy_lower, split_lower, length_map.
  destruct (v2_tfidf_similarity_lower sk text jd) as [-> ->]. split; reflexivity.
Qed.

Lemma v2_score_body_lower (sk : V2.sklearn) (verbs certs edu words : list string)
      (text role : string) (jd : option string) :
  V2.score_body sk verbs certs edu words (lower text) role jd
  = V2.score_body sk verbs certs edu words text role jd /\
  V2.score_body sk verbs certs edu words text role (option_map lower jd)
  = V2.score_body sk verbs certs edu words text role jd.
Proof.
  unfold V2.score_body. destruct (v2_jd_stage_lower sk text jd) as [-> ->].
  split; [| reflexivity]. rewrite lower_idem.
  replace (V2.ats (lower text) (lower text)) with (V2.ats text (lower text)).
  - replace (V2.ats_suggestions (lower text) (lower text))
      with (V2.ats_suggestions text (lower text)); [reflexivity |].
    unfold V2.ats_suggestions, V2.specials.
    change V2.is_special with V1.is_special.
    now rewrite special_count_lower, len_lower.
  - unfold V2.ats, V2.bullets, V2.specials.
    change V2.is_special with V1.is_special.
    now rewrite count_regex_lower, special_count_lower, len_lower.
Qed.

End CaseOfEngines.

(* ----------------------------------------------------------------- *)
(** ** The suggestion list *)

Section Suggestions.

Lemma mem_In (x : string) (l : list string) : mem x l = true <-> In x l.
Proof.
  unfold mem. rewrite existsb_exists. split.
  - intros (y & Hy & E). apply String.eqb_eq in E. now subst.
  - intros H. exists x. split; [exact H | apply String.eqb_refl].
Qed.

Lemma mem_not_In (x : string) (l : list string) : mem x l = false <-> ~ In x l.
Proof. rewrite <- mem_In. destruct (mem x l); intuition congruence. Qed.

Lemma dedup_fold_NoDup (l acc : list string) :
  NoDup acc -> NoDup (fold_left dedup_step l acc).
Proof.
  revert acc. induction l as [| s l IH]; intros acc H; [exact H |].
  simpl. apply IH. unfold dedup_step. destruct (mem s acc) eqn:E; [exact H |].
  apply mem_not_In in E. apply NoDup_app; repeat split.
  - exact H.
  - constructor; [intros [] | constructor].
  - intros x Hx [<- | []]. contradiction.
Qed.

Lemma dedup_fold_In (x : string) (l acc : list string) :
  In x (fold_left dedup_step l acc) <-> In x acc \/ In x l.
Proof.
  revert acc. induction l as [| s l IH]; intros acc; simpl; [tauto |].
  rewrite IH. unfold dedup_step. destruct (mem s acc) eqn:E.
  - apply mem_In in E. split; [tauto |]. intros [H | [<- | H]]; auto.
  - rewrite in_app_iff. simpl. tauto.
Qed.

Lemma dedup_NoDup (l : list string) : NoDup (dedup l).
Proof. apply (dedup_fold_NoDup l []). constructor. Qed.

Lemma dedup_In (x : string) (l : list string) : In x (dedup l) <-> In x l.
Proof. unfold dedup. rewrite (dedup_fold_In x l []). simpl. tauto. Qed.

Lemma firstn_In {A : Type} (n : nat) (l : list A) (x : A) : In x (firstn n l) -> In x l.
Proof.
  intros H. rewrite <- (firstn_skipn n l). apply in_or_app. now left.
Qed.

Lemma firstn_NoDup {A : Type} (n : nat) (l : list A) : NoDup l -> NoDup (firstn n l).
Proof.
  intros H. rewrite <- (firstn_skipn n l) in H. now apply NoDup_app_remove_r in H.
Qed.

(** What is appended first, without repeats, is kept as it is. *)
Lemma dedup_fold_fresh (block acc : list string) :
  NoDup (acc ++ block) -> fold_left dedup_step block acc = (acc ++ block)%list.
Proof.
  revert acc. induction block as [| s block IH]; intros acc H; simpl.
  - now rewrite app_nil_r.
  - unfold dedup_step at 2.
    assert (E : mem s acc = false).
    { apply mem_not_In. intros Hin. apply NoDup_remove_2 in H. apply H.
      apply in_or_app. now left. }
    rewrite E. rewrite IH; rewrite <- app_assoc; [reflexivity | exact H].
Qed.

Lemma dedup_block (block rest : list string) :
  NoDup block -> exists rest', dedup (block ++ rest) = (block ++ rest')%list.
Proof.
  intros H. unfold dedup. rewrite fold_left_app.
  change (fun cleaned s => if mem s cleaned then cleaned else (cleaned ++ [s])%list)
    with dedup_step.
  rewrite (dedup_fold_fresh block []) by exact H. simpl.
  apply dedup_from_prefix.
Qed.

Lemma block_survives (n : nat) (block rest : list string) (x : string) :
  NoDup block -> List.length block <= n -> In x block ->
  In x (firstn n (dedup (block ++ rest))).
Proof.
  intros H L Hx. destruct (dedup_block block rest H) as [rest' ->].
  rewrite firstn_app. apply in_or_app. left.
  now rewrite firstn_all2 by exact L.
Qed.

End Suggestions.

(* ----------------------------------------------------------------- *)
(** ** Sorted keyword lists *)

Section SortedSets.

Lemma ascii_compare_lt_trans (a b c : ascii) :
  Ascii.compare a b = Lt -> Ascii.compare b c = Lt -> Ascii.compare a c = Lt.
Proof.
  unfold Ascii.compare. rewrite !N.compare_lt_iff. apply N.lt_trans.
Qed.

Lemma ascii_compare_refl (a : ascii) : Ascii.compare a a = Eq.
Proof. unfold Ascii.compare. apply N.compare_refl. Qed.

Lemma compare_refl (x : string) : String.compare x x = Eq.
Proof. induction x as [| a x IH]; simpl; [reflexivity | now rewrite ascii_compare_refl]. Qed.

Lemma str_lt_trans (x y z : string) : str_lt x y -> str_lt y z -> str_lt x z.
Proof.
  unfold str_lt. revert y z. induction x as [| a x IH]; intros [| b y] [| c z]; simpl;
    try discriminate; try reflexivity.
  destruct (Ascii.compare a b) eqn:AB; try discriminate;
    destruct (Ascii.compare b c) eqn:BC; try discriminate; intros H1 H2.
  - apply Ascii.compare_eq_iff in AB, BC. subst. rewrite ascii_compare_refl. now apply (IH y z).
  - apply Ascii.compare_eq_iff in AB. subst. now rewrite BC.
  - apply Ascii.compare_eq_iff in BC. subst. now rewrite AB.
  - now rewrite (ascii_compare_lt_trans a b c AB BC).
Qed.

Lemma str_lt_irrefl (x : string) : ~ str_lt x x.
Proof. unfold str_lt. now rewrite compare_refl. Qed.

Lemma insert_sorted_In (x y : string) (l : list string) :
  In x (insert_sorted y l) <-> x = y \/ In x l.
Proof.
  induction l as [| z l IH]; simpl; [intuition |].
  destruct (String.compare y z) eqn:E; simpl.
  - apply String.compare_eq_iff in E. subst. intuition.
  - intuition.
  - rewrite IH. intuition.
Qed.

Lemma insert_sorted_sorted (y : string) (l : list string) :
  StronglySorted str_lt l -> StronglySorted str_lt (insert_sorted y l).
Proof.
  induction 1 as [| z l S IH F]; simpl.
  - repeat constructor.
  - destruct (String.compare y z) eqn:E.
    + now constructor.
    + constructor; [now constructor |]. constructor; [exact E |].
      apply Forall_forall. intros w Hw. rewrite Forall_forall in F.
      apply (str_lt_trans y z w E). now apply F.
    + constructor; [exact IH |]. apply Forall_forall. intros w Hw.
      apply insert_sorted_In in Hw. destruct Hw as [-> | Hw].
      * unfold str_lt. rewrite String.compare_antisym, E. reflexivity.
      * rewrite Forall_forall in F. now apply F.
Qed.

Lemma sorted_set_In (x : string) (l : list string) : In x (sorted_set l) <-> In x l.
Proof.
  induction l as [| y l IH]; simpl; [tauto |].
  rewrite insert_sorted_In, IH. intuition.
Qed.

Lemma sorted_set_sorted (l : list string) : StronglySorted str_lt (sorted_set l).
Proof.
  induction l as [| y l IH]; simpl; [constructor | now apply insert_sorted_sorted].
Qed.

Lemma sorted_NoDup (l : list string) : StronglySorted str_lt l -> NoDup l.
Proof.
  induction 1 as [| z l S IH F]; constructor; [| exact IH].
  intros Hin. rewrite Forall_forall in F. apply (str_lt_irrefl z). now apply F.
Qed.

Lemma firstn_sorted (n : nat) (l : list string) :
  StronglySorted str_lt l -> StronglySorted str_lt (firstn n l).
Proof.
  intros H. revert n. induction H as [| z l S IH F]; intros [| n]; simpl; try constructor.
  - apply IH.
  - rewrite Forall_forall in *. intros w Hw. apply F. now apply firstn_In in Hw.
Qed.

Lemma sorted_difference_In (x : string) (a b : list string) :
  In x (sorted_difference a b) <-> In x a /\ ~ In x b.
Proof.
  unfold sorted_difference. rewrite sorted_set_In, filter_In, negb_true_iff, mem_not_In.
  tauto.
Qed.

End SortedSets.

Section CaseAndCap.

(** X1. On ASCII text scoring does not look at letter case.  Two ASCII
    texts that are equal once lower-cased get the same total, breakdown
    and suggestions, in the flat-rate engine (both copies) and in the
    blend engine; the letter case of the extra keywords and of the job
    description does not matter either. *)
Theorem scoring_ignores_letter_case (sk : V2.sklearn) (text text' role : string)
        (extra jd : option string) :
  Unicode.is_ascii text = true -> Unicode.is_ascii text' = true ->
  Unicode.is_ascii_opt extra = true -> Unicode.is_ascii_opt jd = true ->
  lower text = lower text' ->
  V1.score text role extra = V1.score text' role extra /\
  V1.score_v1_3 text role extra = V1.score_v1_3 text' role extra /\
  V2.score sk text role jd = V2.score sk text' role jd /\
  V1.score text role (option_map lower extra) = V1.score text role extra /\
  V2.score sk text role (option_map lower jd) = V2.score sk text role jd.
Proof.
  intros _ _ _ _ E.
  unfold V1.score, V1.score_v1_3, V2.score, V1.score_resume, V2.score_resume.
  repeat split.
  - etransitivity; [symmetry; apply v1_score_body_lower |].
    rewrite E. apply v1_score_body_lower.
  - etransitivity; [symmetry; apply v1_score_body_lower |].
    rewrite E. apply v1_score_body_lower.
  - etransitivity; [symmetry; apply (proj1 (v2_score_body_lower sk _ _ _ _ text role jd)) |].
    rewrite E. apply (proj1 (v2_score_body_lower sk _ _ _ _ text' role jd)).
  - now rewrite v1_role_words_lower.
  - apply (proj2 (v2_score_body_lower sk _ _ _ _ text role jd)).
Qed.

Lemma scoring_ignores_letter_case_witness :
  Unicode.is_ascii "Led a TEAM; SQL and Excel" = true /\
  Unicode.is_ascii "led a team; sql and excel" = true /\
  lower "Led a TEAM; SQL and Excel" = lower "led a team; sql and excel" /\
  V1.score "Led a TEAM; SQL and Excel" "Data Analyst" (Some "Power BI")
  = V1.score "led a team; sql and excel" "Data Analyst" (Some "Power BI").
Proof.
  do 3 (split; [reflexivity |]).
  exact (proj1 (scoring_ignores_letter_case V2.sklearn_installed
                  "Led a TEAM; SQL and Excel" "led a team; sql and excel" "Data Analyst"
                  (Some "Power BI") None eq_refl eq_refl eq_refl eq_refl eq_refl)).
Defined.

(** X2. The suggestions returned are capped and never repeat: at most 8
    of them in the flat-rate engine, at most 10 in the blend engine, no
    two equal. *)
Theorem suggestions_capped_and_distinct (sk : V2.sklearn) (text role : string)
        (extra jd : option string) :
  (List.length (suggestions (V1.score text role extra)) <= 8 /\
   NoDup (suggestions (V1.score text role extra))) /\
  match V2.score sk text role jd with
  | Ok r => List.length (suggestions r) <= 10 /\ NoDup (suggestions r)
  | Raise _ => True
  end.
Proof.
  split.
  - unfold V1.score, V1.score_resume, V1.score_body. cbn [suggestions snd]. split.
    + apply firstn_le_length.
    + apply firstn_NoDup, dedup_NoDup.
  - unfold V2.score, V2.score_resume, V2.score_body.
    destruct (V2.jd_stage sk text jd) as [[points tips] | e]; [| exact I].
    cbn [suggestions snd]. split.
    + apply firstn_le_length.
    + apply firstn_NoDup, dedup_NoDup.
Qed.

End CaseAndCap.

Section FlatRateSuggestions.

Lemma append_length (a b : string) :
  String.length (a ++ b) = String.length a + String.length b.
Proof. induction a as [| c a IH]; simpl; [reflexivity | now rewrite IH]. Qed.

Lemma append_inv_tail (a b s : string) : a ++ s = b ++ s -> a = b.
Proof.
  intros H.
  assert (L : String.length a = String.length b).
  { apply (f_equal String.length) in H. rewrite !append_length in H. lia. }
  revert b H L. induction a as [| c a IH]; intros [| d b] H L; try discriminate L.
  - reflexivity.
  - simpl in H. injection H as -> H. f_equal. apply IH; [exact H |].
    simpl in L. lia.
Qed.

Lemma msg_section_inj (a b : string) : V1.msg_section a = V1.msg_section b -> a = b.
Proof.
  unfold V1.msg_section. intros H.
  apply (f_equal (Upload.drop 15)) in H. simpl in H.
  now apply append_inv_tail in H.
Qed.

Variable hints : list (string * list string).

Lemma structure_suggestions_In (tl s : string) :
  In s (V1.structure_suggestions hints tl) <->
  exists sec aliases, In (sec, aliases) hints /\ V1.any_in tl aliases = false /\
                      s = V1.msg_section sec.
Proof.
  unfold V1.structure_suggestions, V1.structure_hits. rewrite in_flat_map. split.
  - intros ([sec hit] & Hin & Hs). apply in_map_iff in Hin.
    destruct Hin as ([sec' aliases] & E & Hin). injection E as -> <-.
    destruct (V1.any_in tl aliases) eqn:A; [contradiction |].
    destruct Hs as [<- | []]. now exists sec, aliases.
  - intros (sec & aliases & Hin & A & ->).
    exists (sec, false). split; [| now left].
    apply in_map_iff. exists (sec, aliases). now rewrite A.
Qed.

Lemma structure_suggestions_length (tl : string) :
  List.length (V1.structure_suggestions hints tl) <= List.length hints.
Proof.
  unfold V1.structure_suggestions, V1.structure_hits.
  induction hints as [| [sec aliases] l IH]; simpl; [lia |].
  rewrite length_app. destruct (V1.any_in tl aliases); simpl; lia.
Qed.

Lemma structure_suggestions_NoDup (tl : string) :
  NoDup (map fst hints) -> NoDup (V1.structure_suggestions hints tl).
Proof.
  unfold V1.structure_suggestions, V1.structure_hits.
  induction hints as [| [sec aliases] l IH]; simpl; intros H; [constructor |].
  inversion H as [| ? ? Hnot Hl]; subst.
  destruct (V1.any_in tl aliases); simpl; [now apply IH |].
  constructor; [| now apply IH].
  intros Hin. apply Hnot.
  apply in_flat_map in Hin. destruct Hin as ([sec' hit] & Hin & Hs).
  apply in_map_iff in Hin. destruct Hin as ([sec'' al] & E & Hin). injection E as -> <-.
  destruct (V1.any_in tl al); [contradiction |]. destruct Hs as [E | []].
  apply msg_section_inj in E. subst. apply in_map_iff. now exists (sec, al).
Qed.

End FlatRateSuggestions.

(** The suggestions [score_resume] gathers before it removes repeats. *)
Lemma v1_suggestions_raw (hints : list (string * list string)) (verbs certs edu words : list string)
      (text role s : string) :
  In s (suggestions (V1.score_body hints verbs certs edu words text role)) ->
  In s (V1.structure_suggestions hints (lower text)) \/
  In s (V1.keyword_suggestions (lower text) role words) \/
  In s (V1.impact_suggestions verbs (lower text)) \/
  In s (V1.edu_suggestions certs edu (lower text)) \/
  In s (V1.ats_suggestions (lower text)) \/
  In s (V1.fmt_suggestions (List.length (split (lower text)))).
Proof.
  unfold V1.score_body. cbn [suggestions snd]. intros H.
  apply firstn_In in H. apply (proj1 (dedup_In _ _)) in H.
  repeat (apply in_app_or in H; destruct H as [H | H]; [tauto |]). tauto.
Qed.

Ltac one_of H :=
  repeat match type of H with
         | In _ (_ ++ _)%list => apply in_app_or in H; destruct H as [H | H]
         | In _ (if ?b then _ else _) => destruct b eqn:?
         | In _ [] => destruct H
         | In _ [_] => destruct H as [H | []]
         end.

Ltac other_message H :=
  exfalso; try (apply (proj1 (structure_suggestions_In _ _ _)) in H; destruct H as (? & ? & _ & _ & H));
  unfold V1.keyword_suggestions, V1.impact_suggestions, V1.edu_suggestions,
    V1.ats_suggestions, V1.fmt_suggestions in H;
  one_of H; discriminate H.

Lemma v1_section_names : NoDup (map fst V1.SECTION_HINTS).
Proof.
  repeat (constructor; [simpl; intuition discriminate |]). constructor.
Qed.

(** X3. In the flat-rate engine the section and keyword suggestions are
    exact, the cap of 8 never cuts them: a section of the catalog is
    suggested if and only if none of its aliases occurs in the lower-cased
    text, and the keyword suggestion is made if and only if fewer than 8
    entries of the keyword list occur in it. *)
Theorem section_and_keyword_suggestions_exact (text role : string) (extra : option string) :
  (forall sec,
      In (V1.msg_section sec) (suggestions (V1.score text role extra)) <->
      exists aliases, In (sec, aliases) V1.SECTION_HINTS /\
                      V1.any_in (lower text) aliases = false) /\
  (In (V1.msg_keywords role
         (V1.missing_keywords (lower text) (V1.role_words V1.ROLE_KEYWORDS role extra)))
      (suggestions (V1.score text role extra)) <->
   List.length (V1.found_role (lower text) (V1.role_words V1.ROLE_KEYWORDS role extra)) < 8).
Proof.
  unfold V1.score, V1.score_resume.
  set (words := V1.role_words V1.ROLE_KEYWORDS role extra).
  pose proof (structure_suggestions_NoDup V1.SECTION_HINTS (lower text) v1_section_names) as ND.
  pose proof (structure_suggestions_length V1.SECTION_HINTS (lower text)) as LE.
  change (List.length V1.SECTION_HINTS) with 7 in LE.
  split; [intros sec |]; split.
  - intros H. apply v1_suggestions_raw in H.
    destruct H as [H | [H | [H | [H | [H | H]]]]].
    + apply (proj1 (structure_suggestions_In _ _ _)) in H. destruct H as (sec' & aliases & Hin & A & E).
      apply msg_section_inj in E. subst. now exists aliases.
    + other_message H.
    + other_message H.
    + other_message H.
    + other_message H.
    + other_message H.
  - intros (aliases & Hin & A).
    unfold V1.score_body. cbn [suggestions snd].
    apply block_survives; [exact ND | lia |].
    apply structure_suggestions_In. now exists sec, aliases.
  - intros H. apply v1_suggestions_raw in H.
    destruct H as [H | [H | [H | [H | [H | H]]]]].
    + other_message H.
    + unfold V1.keyword_suggestions in H.
      destruct (_ <? 8) eqn:E in H; [now apply Nat.ltb_lt in E | destruct H].
    + other_message H.
    + other_message H.
    + other_message H.
    + other_message H.
  - intros H. apply Nat.ltb_lt in H.
    unfold V1.score_body. cbn [suggestions snd].
    rewrite app_assoc.
    apply block_survives.
    + unfold V1.keyword_suggestions. rewrite H.
      apply NoDup_app; repeat split; [exact ND | repeat constructor; intros [] |].
      intros x Hx [<- | []]. other_message Hx.
    + rewrite length_app. unfold V1.keyword_suggestions. rewrite H. simpl. lia.
    + apply in_or_app. right. unfold V1.keyword_suggestions. rewrite H. now left.
Qed.

(** X4. Every other suggestion of the flat-rate engine is justified by
    the check that makes it: the numbers, action-verb, education,
    certification, e-mail, phone and length suggestions are returned only
    when their check fails on the lower-cased text. *)
Theorem flat_rate_suggestions_justified (text role : string) (extra : option string) :
  (In V1.msg_quantify (suggestions (V1.score text role extra)) -> V1.nums (lower text) < 3) /\
  (In V1.msg_verbs (suggestions (V1.score text role extra)) ->
   V1.action_uses V1.ACTION_VERBS (lower text) < 3) /\
  (In V1.msg_education (suggestions (V1.score text role extra)) ->
   V1.edu_hits V1.EDU_WORDS (lower text) = 0) /\
  (In V1.msg_certs (suggestions (V1.score text role extra)) ->
   V1.cert_hits V1.CERT_WORDS (lower text) = 0) /\
  (In V1.msg_email (suggestions (V1.score text role extra)) -> V1.email_ok (lower text) = false) /\
  (In V1.msg_phone (suggestions (V1.score text role extra)) -> V1.phone_ok (lower text) = false) /\
  (In V1.msg_concise (suggestions (V1.score text role extra)) ->
   V1.in_ideal_length (List.length (split (lower text))) = false).
Proof.
  unfold V1.score, V1.score_resume.
  repeat split; intros H; apply v1_suggestions_raw in H;
    destruct H as [H | [H | [H | [H | [H | H]]]]];
    try (apply (proj1 (structure_suggestions_In _ _ _)) in H;
         destruct H as (? & ? & _ & _ & H); discriminate H);
    unfold V1.keyword_suggestions, V1.impact_suggestions, V1.edu_suggestions,
      V1.ats_suggestions, V1.fmt_suggestions in H;
    one_of H; try discriminate H;
    repeat match goal with
           | E : (_ <? _) = true |- _ => apply Nat.ltb_lt in E
           | E : (_ =? _) = true |- _ => apply Nat.eqb_eq in E
           end;
    first [assumption | reflexivity].
Qed.

Section KeywordLists.

(** X5. The keywords a suggestion lists as missing are missing: each is
    an entry of the keyword list that does not occur in the lower-cased
    text; they come in increasing order, none twice, at most 8 of them in
    the flat-rate engine and at most 10 in the blend engine. *)
Theorem missing_keywords_are_missing (tl : string) (words : list string) :
  (StronglySorted str_lt (V1.missing_keywords tl words) /\
   NoDup (V1.missing_keywords tl words) /\
   List.length (V1.missing_keywords tl words) <= 8 /\
   forall k, In k (V1.missing_keywords tl words) ->
             In k words /\ contains k (lower tl) = false) /\
  (StronglySorted str_lt (firstn 10 (sorted_difference words (V2.found tl words))) /\
   NoDup (firstn 10 (sorted_difference words (V2.found tl words))) /\
   List.length (firstn 10 (sorted_difference words (V2.found tl words))) <= 10 /\
   forall k, In k (firstn 10 (sorted_difference words (V2.found tl words))) ->
             In k words /\ contains k (lower tl) = false).
Proof.
  assert (G : forall n k, In k (firstn n (sorted_difference words
                                            (filter (fun w => contains w (lower tl)) words))) ->
                          In k words /\ contains k (lower tl) = false).
  { intros n k H. apply firstn_In, sorted_difference_In in H. destruct H as [Hin Hnot].
    split; [exact Hin |]. destruct (contains k (lower tl)) eqn:E; [| reflexivity].
    exfalso. apply Hnot. apply filter_In. now split. }
  assert (S : forall n b, StronglySorted str_lt (firstn n (sorted_difference words b))).
  { intros n b. apply firstn_sorted, sorted_set_sorted. }
  unfold V1.missing_keywords, V1.found_role, V1.contains_any, V2.found, V2.has_any.
  repeat split; try apply S; try apply sorted_NoDup, S; try apply firstn_le_length; apply (G _ k H).
Qed.

End KeywordLists.

Section Totals.
Open Scope Q_scope.

(** X6. The flat-rate total is never below 10: the Impact sub-score
    starts from its base of 10 points whatever the text.  With the upper
    bound, the total lies between 10 and 100 and every sub-score lies in
    its band, in both copies of the engine. *)
Theorem flat_rate_total_from_10_to_100 (text role : string) (extra : option string) :
  (within V1.BAND_MAX (V1.score text role extra) /\
   10 <= total (V1.score text role extra) <= 100) /\
  (within V1.BAND_MAX (V1.score_v1_3 text role extra) /\
   10 <= total (V1.score_v1_3 text role extra) <= 100).
Proof.
  assert (G : forall verbs,
             let r := V1.score_resume V1.ROLE_KEYWORDS V1.SECTION_HINTS verbs V1.CERT_WORDS
                                      V1.EDU_WORDS text role extra in
             within V1.BAND_MAX r /\ 10 <= total r <= 100).
  { intros verbs r. split; [apply v1_within |].
    unfold r, V1.score_resume, V1.score_body. cbn [total fst].
    set (tl := lower text). set (rw := V1.role_words V1.ROLE_KEYWORDS role extra).
    pose proof (structure_points_bounds V1.SECTION_HINTS tl) as Hs.
    pose proof (v1_kw_points_bounds (List.length (V1.found_role tl rw))) as Hk.
    fold (V1.kw_points tl rw) in Hk.
    pose proof (v1_impact_points_bounds verbs tl) as Hi.
    pose proof (v1_edu_points_bounds V1.CERT_WORDS V1.EDU_WORDS tl) as He.
    pose proof (v1_ats_points_bounds text tl) as Ha.
    pose proof (v1_fmt_points_bounds (List.length (split tl))) as Hf.
    generalize dependent (V1.structure_points V1.SECTION_HINTS tl).
    generalize dependent (V1.kw_points tl rw).
    generalize dependent (V1.impact_points verbs tl).
    generalize dependent (V1.edu_points V1.CERT_WORDS V1.EDU_WORDS tl).
    generalize dependent (V1.ats_points text tl).
    generalize dependent (V1.fmt_points (List.length (split tl))).
    intros f Hf a Ha e He i Hi k Hk s Hs.
    apply (round1_bounds_int _ 10 100).
    change (inject_Z 10) with 10. change (inject_Z 100) with 100. lra. }
  split; apply G.
Qed.

(** X7. With a library whose cosines are not negative, a result of the
    blend engine has every sub-score in its band (35, 25, 15, 15, 10, 5).
    When no job description of more than 20 words is supplied the call
    returns, the JD Similarity sub-score is 0, the suggestion to paste a
    job description is made, and the total is at most 70. *)
Theorem blend_bands_and_missing_jd (sk : V2.sklearn) (text role : string) (jd : option string) :
  V2.nonneg_cosine sk ->
  match V2.score sk text role jd with
  | Ok r =>
      within V2.BAND_MAX r /\
      (V2.jd_supplied jd = false ->
       lookup "JD Similarity" (breakdown_of r) = Some 0 /\
       In V2.msg_paste_jd (suggestions r) /\
       0 <= total r <= 70)
  | Raise _ => V2.jd_supplied jd = true
  end.
Proof.
  intros H. pose proof (v2_within sk V2.ROLE_KEYWORDS V2.ACTION_VERBS V2.CERT_WORDS V2.EDU_WORDS
                                  text role jd H) as W.
  unfold V2.score. destruct (V2.jd_supplied jd) eqn:S.
  - destruct (V2.score_resume _ _ _ _ _ _ _ _); [| reflexivity].
    split; [exact W | discriminate].
  - clear W. unfold V2.score_resume, V2.score_body.
    rewrite (jd_stage_not_supplied sk text jd S).
    pose proof (v2_within sk V2.ROLE_KEYWORDS V2.ACTION_VERBS V2.CERT_WORDS V2.EDU_WORDS
                          text role jd H) as W.
    unfold V2.score_resume, V2.score_body in W.
    rewrite (jd_stage_not_supplied sk text jd S) in W.
    split; [exact W |]. intros _. split; [reflexivity |]. split.
    + cbn [suggestions snd]. apply dedup_head.
    + cbn [total fst].
      set (tl := lower text). set (rw := V2.role_words V2.ROLE_KEYWORDS role).
      pose proof (v2_kw_points_bounds (List.length (V2.found tl rw))
                                      (List.length (sorted_set rw))) as Hk.
      fold (V2.kw_points tl rw) in Hk.
      pose proof (struct_bounds tl) as Hs.
      pose proof (v2_impact_bounds V2.ACTION_VERBS tl) as Hi.
      pose proof (v2_ats_bounds text tl) as Ha.
      pose proof (v2_edu_bounds V2.CERT_WORDS V2.EDU_WORDS tl) as He.
      generalize dependent (V2.kw_points tl rw).
      generalize dependent (V2.struct tl).
      generalize dependent (V2.impact V2.ACTION_VERBS tl).
      generalize dependent (V2.ats text tl).
      generalize dependent (V2.edu V2.CERT_WORDS V2.EDU_WORDS tl).
      intros e He a Ha i Hi s Hs k Hk.
      apply (round1_bounds_int _ 0 70).
      change (inject_Z 0) with 0. change (inject_Z 70) with 70. lra.
Qed.

Lemma blend_bands_and_missing_jd_witness :
  V2.nonneg_cosine V2.sklearn_installed /\
  match V2.score V2.sklearn_installed "led a team of 12" "Data Analyst" None with
  | Ok r =>
      within V2.BAND_MAX r /\
      (V2.jd_supplied None = false ->
       lookup "JD Similarity" (breakdown_of r) = Some 0 /\
       In V2.msg_paste_jd (suggestions r) /\
       0 <= total r <= 70)
  | Raise _ => V2.jd_supplied None = true
  end.
Proof.
  assert (N : V2.nonneg_cosine V2.sklearn_installed).
  { intros a b. simpl. destruct (V2.same_terms a b); discriminate. }
  split; [exact N |].
  exact (blend_bands_and_missing_jd V2.sklearn_installed "led a team of 12" "Data Analyst" None N).
Defined.

(** X8. The Formatting points of the flat-rate engine by word count: 10
    from 350 to 900 words; 4 + words/100 below 350 words (so an empty
    text still gets 4, and 349 words get 7.49); 16 - words/100 above 900
    words, down to 0 from 1600 words on.  Outside the ideal range they
    never exceed 7.49: the points jump at both of its ends. *)
Theorem formatting_points_by_word_count (words : nat) :
  ((350 <= words <= 900)%nat -> V1.fmt_points words == 10) /\
  ((words < 350)%nat -> V1.fmt_points words == 4 + of_nat words / 100) /\
  ((900 < words <= 1600)%nat -> V1.fmt_points words == 16 - of_nat words / 100) /\
  ((1600 <= words)%nat -> V1.fmt_points words == 0) /\
  (V1.in_ideal_length words = false -> V1.fmt_points words <= 749 # 100).
Proof.
  assert (Z600 : of_nat 600 == 600) by reflexivity.
  assert (Below : (words < 350)%nat -> V1.fmt_points words == 4 + of_nat words / 100 /\
                                       of_nat words <= 349).
  { intros H. unfold V1.fmt_points, V1.in_ideal_length.
    replace (350 <=? words)%nat with false by (symmetry; apply Nat.leb_gt; lia).
    cbn [andb].
    assert (L : of_nat words <= 349) by (apply (of_nat_le words 349); lia).
    change (of_nat 349) with 349 in L. split; [| exact L].
    pose proof (of_nat_nonneg words) as P.
    rewrite Qabs_neg by lra.
    rewrite Q.max_r; [field |].
    change (- (of_nat words - 600) / 100) with (- (of_nat words - 600) * (1 # 100)). lra. }
  assert (Above : (900 < words)%nat ->
                  V1.fmt_points words == Qmax 0 (16 - of_nat words / 100) /\
                  901 <= of_nat words).
  { intros H. unfold V1.fmt_points, V1.in_ideal_length.
    replace (words <=? 900)%nat with false by (symmetry; apply Nat.leb_gt; lia).
    rewrite andb_false_r.
    assert (L : of_nat 901 <= of_nat words) by (apply of_nat_le; lia).
    change (of_nat 901) with 901 in L. split; [| exact L].
    rewrite Qabs_pos by lra.
    apply Q.max_compat; [reflexivity | field]. }
  repeat split.
  - intros [A B]. unfold V1.fmt_points, V1.in_ideal_length.
    apply Nat.leb_le in A, B. now rewrite A, B.
  - intros H. now apply Below.
  - intros [A B]. destruct (Above A) as [-> _].
    assert (L : of_nat words <= of_nat 1600) by (apply of_nat_le; lia).
    change (of_nat 1600) with 1600 in L.
    apply Q.max_r. change (of_nat words / 100) with (of_nat words * (1 # 100)). lra.
  - intros H. assert (A : (900 < words)%nat) by lia. destruct (Above A) as [-> _].
    assert (L : of_nat 1600 <= of_nat words) by (apply of_nat_le; lia).
    change (of_nat 1600) with 1600 in L.
    apply Q.max_l. change (of_nat words / 100) with (of_nat words * (1 # 100)). lra.
  - intros H. unfold V1.in_ideal_length in H. apply andb_false_iff in H.
    destruct H as [H | H].
    + apply Nat.leb_gt in H. destruct (Below H) as [-> L].
      change (of_nat words / 100) with (of_nat words * (1 # 100)). lra.
    + apply Nat.leb_gt in H. destruct (Above H) as [-> L].
      apply Q.max_lub; [lra |].
      change (of_nat words / 100) with (of_nat words * (1 # 100)). lra.
Qed.

End Totals.

Section LongerTexts.
Open Scope Q_scope.

Variables text before after : string.

Lemma any_in_embed (aliases : list string) :
  V1.any_in (lower text) aliases = true ->
  V1.any_in (lower (before ++ text ++ after)) aliases = true.
Proof.
  unfold V1.any_in. rewrite !existsb_exists. intros (a & Hin & H).
  exists a. split; [exact Hin |]. rewrite !lower_app. now apply contains_embed.
Qed.

Lemma filter_map_length {A B : Type} (f : A -> B) (p : B -> bool) (l : list A) :
  List.length (filter p (map f l)) = List.length (filter (fun x => p (f x)) l).
Proof.
  induction l as [| x l IH]; simpl; [reflexivity |]. destruct (p (f x)); simpl; now rewrite IH.
Qed.

Lemma v1_sections_embed (hints : list (string * list string)) :
  (V1.sections_detected hints (lower text)
   <= V1.sections_detected hints (lower (before ++ text ++ after)))%nat.
Proof.
  unfold V1.sections_detected, V1.structure_hits. rewrite !filter_map_length.
  apply filter_length_mono. intros [sec aliases]. apply any_in_embed.
Qed.

Lemma v2_sections_embed :
  (V2.sections_detected (lower text)
   <= V2.sections_detected (lower (before ++ text ++ after)))%nat.
Proof.
  unfold V2.sections_detected. apply filter_length_mono. intros [sec aliases].
  apply any_in_embed.
Qed.

Lemma v1_structure_embed (hints : list (string * list string)) :
  V1.structure_points hints (lower text)
  <= V1.structure_points hints (lower (before ++ text ++ after)).
Proof.
  unfold V1.structure_points. apply round1_mono. rewrite !structure_sum_share.
  pose proof (of_nat_le _ _ (v1_sections_embed hints)) as H.
  pose proof (of_nat_nonneg (List.length hints)) as N.
  apply Qmult_le_compat_r; [exact H |].
  destruct (Qlt_le_dec 0 (of_nat (List.length hints))) as [P | Z].
  - apply Qlt_le_weak, Qlt_shift_div_l; [exact P | lra].
  - assert (E : of_nat (List.length hints) == 0) by lra.
    unfold Qdiv. rewrite E. vm_compute. discriminate.
Qed.

Lemma v2_struct_embed :
  V2.struct (lower text) <= V2.struct (lower (before ++ text ++ after)).
Proof.
  unfold V2.struct. apply round1_mono. rewrite !struct_sum_share.
  pose proof (of_nat_le _ _ v2_sections_embed) as H.
  apply Qmult_le_compat_r; [exact H | vm_compute; discriminate].
Qed.

Lemma hits_embed (words : list string) :
  (List.length (V1.contains_any (lower text) words)
   <= List.length (V1.contains_any (lower (before ++ text ++ after)) words))%nat.
Proof. unfold V1.contains_any. rewrite !lower_idem. apply found_count_embed. Qed.

Lemma v1_edu_embed (certs edu : list string) :
  V1.edu_points certs edu (lower text)
  <= V1.edu_points certs edu (lower (before ++ text ++ after)).
Proof.
  unfold V1.edu_points, V1.edu_hits, V1.cert_hits. apply of_nat_le.
  pose proof (hits_embed edu). pose proof (hits_embed certs). lia.
Qed.

Lemma v2_edu_embed (certs edu : list string) :
  V2.edu certs edu (lower text) <= V2.edu certs edu (lower (before ++ text ++ after)).
Proof.
  unfold V2.edu, V2.edu_hits, V2.cert_hits. change V2.has_any with V1.contains_any.
  pose proof (hits_embed edu) as He. pose proof (hits_embed certs) as Hc.
  apply Q.min_le_compat_l, round1_mono.
  apply Qplus_le_compat.
  - apply of_nat_le.
    destruct (0 <? List.length (V1.contains_any (lower text) edu))%nat eqn:E; [| lia].
    apply Nat.ltb_lt in E.
    replace (0 <? List.length (V1.contains_any (lower (before ++ text ++ after)) edu))%nat
      with true by (symmetry; apply Nat.ltb_lt; lia).
    lia.
  - apply Qmult_le_compat_r; [| lra]. apply of_nat_le. lia.
Qed.

(** X9. A longer text never scores less for structure or for education:
    extending a text, before or after, by anything at all never lowers
    the Structure sub-score or the Education/Certs sub-score, in both
    engines.  The Impact sub-score has no such guarantee: "12" counts as a
    number, "12a" does not. *)
Theorem structure_and_education_monotone (sk : V2.sklearn) (role : string)
        (extra jd : option string) :
  (exists s s' e e',
      lookup "Structure" (breakdown_of (V1.score text role extra)) = Some s /\
      lookup "Structure" (breakdown_of (V1.score (before ++ text ++ after) role extra))
      = Some s' /\
      lookup "Education/Certs" (breakdown_of (V1.score text role extra)) = Some e /\
      lookup "Education/Certs" (breakdown_of (V1.score (before ++ text ++ after) role extra))
      = Some e' /\
      s <= s' /\ e <= e') /\
  match V2.score sk text role jd, V2.score sk (before ++ text ++ after) role jd with
  | Ok r, Ok r' =>
      exists s s' e e',
        lookup "Structure" (breakdown_of r) = Some s /\
        lookup "Structure" (breakdown_of r') = Some s' /\
        lookup "Education/Certs" (breakdown_of r) = Some e /\
        lookup "Education/Certs" (breakdown_of r') = Some e' /\
        s <= s' /\ e <= e'
  | _, _ => True
  end.
Proof.
  split.
  - do 4 eexists. repeat (split; [reflexivity |]). split.
    + apply v1_structure_embed.
    + apply round1_mono, v1_edu_embed.
  - unfold V2.score, V2.score_resume, V2.score_body.
    destruct (V2.jd_stage sk text jd) as [[j sg] |]; [| exact I].
    destruct (V2.jd_stage sk (before ++ text ++ after) jd) as [[j' sg'] |]; [| exact I].
    do 4 eexists. repeat (split; [reflexivity |]). split.
    + apply v2_struct_embed.
    + apply v2_edu_embed.
Qed.

End LongerTexts.

(** The Impact sub-score can drop when a text is extended. *)
Example impact_not_monotone :
  entry (breakdown_of (V1.score "12" "Data Analyst" None)) "Impact" 12 /\
  entry (breakdown_of (V1.score ("12" ++ "a") "Data Analyst" None)) "Impact" 10.
Proof. split; eexists; (split; [vm_compute; reflexivity | reflexivity]). Qed.

Section HelperFacts.
Import Helpers.
Open Scope Q_scope.

(** X10. [pct] never divides by zero and gives a percentage: for
    0 <= n <= d it returns a number between 0 and 100 with one decimal,
    0 when d is 0 and 100 when n = d > 0. *)
Theorem pct_is_a_percentage (n d : Q) :
  0 <= n -> n <= d ->
  0 <= pct n d <= 100 /\ tenths (pct n d) /\
  (d == 0 -> pct n d == 0) /\ (0 < d -> n == d -> pct n d == 100).
Proof.
  intros N D. unfold pct. destruct (Qeq_bool d 0) eqn:E.
  - apply Qeq_bool_eq in E.
    split; [lra |]. split; [exists 0%Z; reflexivity |].
    split; [reflexivity |]. intros P. lra.
  - apply Qeq_bool_neq in E.
    assert (P : 0 < d).
    { destruct (Qlt_le_dec 0 d) as [P | P]; [exact P |]. exfalso. apply E. lra. }
    assert (B : 0 <= n / d <= 1).
    { split; [apply Qle_shift_div_l; lra | apply Qle_shift_div_r; lra]. }
    split; [| split; [apply tenths_round1 | split]].
    + split.
      * apply round1_nonneg. nra.
      * apply (round1_le_int _ 100). change (inject_Z 100) with 100. nra.
    + intros Z. contradiction.
    + intros _ Q. assert (F : n / d * 100 == inject_Z 100).
      { rewrite Q. change (inject_Z 100) with 100. field. exact E. }
      rewrite (round1_eq _ _ F). apply round1_int.
Qed.

Lemma pct_is_a_percentage_witness :
  0 <= 1 /\ 1 <= 3 /\ 0 <= pct 1 3 <= 100 /\ pct 1 3 == 333 # 10.
Proof.
  split; [discriminate |]. split; [discriminate |].
  split; [| reflexivity].
  exact (proj1 (pct_is_a_percentage 1 3 ltac:(discriminate) ltac:(discriminate))).
Defined.

Lemma int_of_words (words : nat) :
  int_of (of_nat words / 200) = Z.of_nat (words / 200).
Proof.
  unfold int_of, of_nat.
  change (Qnum (inject_Z (Z.of_nat words) / 200)) with (Z.of_nat words * 1)%Z.
  change (Z.pos (Qden (inject_Z (Z.of_nat words) / 200))) with 200%Z.
  rewrite Z.mul_1_r, Z.quot_div_nonneg by lia.
  now rewrite Nat2Z.inj_div.
Qed.

(** X11. [estimate_read_time_words] counts the words [score_resume]
    reports as Word Count (one splits the text, the other its lower-cased
    form), and estimates at least one minute, also for an empty text: the
    minutes are the words divided by 200, rounded down, and 1 below 400
    words. *)
Theorem read_time_counts_the_scored_words (text role : string) (extra : option string) :
  lookup "Word Count" (breakdown_of (V1.score text role extra))
  = Some (of_nat (fst (estimate_read_time_words text))) /\
  snd (estimate_read_time_words text)
  = Z.max 1 (Z.of_nat (fst (estimate_read_time_words text) / 200)) /\
  (1 <= snd (estimate_read_time_words text))%Z /\
  ((fst (estimate_read_time_words text) < 400)%nat -> snd (estimate_read_time_words text) = 1%Z).
Proof.
  unfold estimate_read_time_words. cbn [fst snd]. rewrite int_of_words.
  repeat split.
  - unfold V1.score, V1.score_resume, V1.score_body. cbn [breakdown_of fst snd].
    rewrite split_lower, length_map. reflexivity.
  - lia.
  - intros H. assert (List.length (split text) / 200 < 2)%nat.
    { apply Nat.Div0.div_lt_upper_bound. lia. }
    lia.
Qed.

End HelperFacts.

(* ----------------------------------------------------------------- *)
(** ** File names, blank texts and pages *)

Section Files.
Import Upload.

Lemma endswith_refl (s : string) : endswith s s = true.
Proof. destruct s; simpl; [reflexivity | now rewrite Ascii.eqb_refl, String.eqb_refl]. Qed.

Lemma endswith_nil (s : string) : endswith s "" = true.
Proof. induction s as [| c s IH]; simpl; [reflexivity | exact IH]. Qed.

Lemma endswith_drop (n : nat) (s : string) : endswith s (drop n s) = true.
Proof.
  revert s. induction n as [| n IH]; intros s; [apply endswith_refl |].
  destruct s as [| c s]; [reflexivity |].
  cbn [drop]. cbn [endswith]. rewrite IH. apply orb_true_r.
Qed.

Lemma endswith_lower (s suffix : string) :
  endswith s suffix = true -> endswith (lower s) (lower suffix) = true.
Proof.
  induction s as [| c s IH]; intros H.
  - destruct suffix; [reflexivity | discriminate].
  - cbn [endswith] in H. apply orb_true_iff in H. destruct H as [H | H].
    + apply String.eqb_eq in H. subst. apply endswith_refl.
    + cbn [lower endswith]. rewrite (IH H). apply orb_true_r.
Qed.

(** The extension [os.path.splitext] gives is the end of the name. *)
Lemma splitext_suffix (p : string) : endswith p (snd (splitext p)) = true.
Proof.
  unfold splitext. destruct (rfind "." p) as [d |]; [| apply endswith_nil].
  destruct (_ && _); [apply endswith_drop | apply endswith_nil].
Qed.

Lemma ext_of_suffix (f : file) : endswith (lower (name f)) (ext_of f) = true.
Proof. apply endswith_lower, splitext_suffix. Qed.

(** The last character of a string. *)
Lemma endswith_last (s suffix : string) (c : ascii) :
  endswith s (suffix ++ String c "") = true ->
  String.get (String.length s - 1) s = Some c.
Proof.
  induction s as [| d s IH]; intros H.
  - destruct suffix; discriminate.
  - cbn [endswith] in H. apply orb_true_iff in H. destruct H as [H | H].
    + apply String.eqb_eq in H. rewrite H. clear.
      induction suffix as [| e suffix IH]; [reflexivity |].
      cbn [append String.length]. rewrite Nat.sub_succ, Nat.sub_0_r.
      destruct suffix as [| e' suffix']; [reflexivity |].
      cbn [append String.length] in *. rewrite Nat.sub_succ, Nat.sub_0_r in IH.
      exact IH.
    + specialize (IH H). cbn [String.length]. rewrite Nat.sub_succ, Nat.sub_0_r.
      destruct s as [| d' s']; [destruct suffix; discriminate |].
      cbn [String.length] in *. rewrite Nat.sub_succ, Nat.sub_0_r in IH.
      exact IH.
Qed.

Lemma pdf_not_docx (s : string) :
  endswith s ".pdf" = true -> endswith s ".docx" = false.
Proof.
  intros P. destruct (endswith s ".docx") eqn:D; [| reflexivity].
  pose proof (endswith_last s ".pd" "f" P) as A.
  pose proof (endswith_last s ".doc" "x" D) as B. congruence.
Qed.

Lemma docx_not_pdf (s : string) :
  endswith s ".docx" = true -> endswith s ".pdf" = false.
Proof.
  intros D. destruct (endswith s ".pdf") eqn:P; [| reflexivity].
  now rewrite (pdf_not_docx s P) in D.
Qed.

Lemma txt_not_pdf_docx (s : string) :
  endswith s ".txt" = true -> endswith s ".pdf" = false /\ endswith s ".docx" = false.
Proof.
  intros T. pose proof (endswith_last s ".tx" "t" T) as A. split.
  - destruct (endswith s ".pdf") eqn:P; [| reflexivity].
    pose proof (endswith_last s ".pd" "f" P). congruence.
  - destruct (endswith s ".docx") eqn:D; [| reflexivity].
    pose proof (endswith_last s ".doc" "x" D). congruence.
Qed.

(** *** Blank texts *)

Lemma inked_lstrip (s : string) : inked (lstrip s) = inked s.
Proof.
  induction s as [| c s IH]; [reflexivity |].
  cbn [lstrip]. destruct (isspace c) eqn:E; [| reflexivity].
  cbn [inked]. now rewrite E, IH.
Qed.

Lemma truthy_strip_inked (s : string) : truthy (strip s) = inked s.
Proof.
  unfold strip. rewrite <- (inked_lstrip s).
  destruct (lstrip_head s) as [E | (c & s' & E & Hc)]; rewrite E; [reflexivity |].
  cbn [inked]. rewrite Hc. pose proof (rstrip_head c s' Hc) as N.
  destruct (rstrip (String c s')); [contradiction | reflexivity].
Qed.

Lemma blank_inked (s : string) : blank s = negb (inked s).
Proof. unfold blank. now rewrite truthy_strip_inked. Qed.

Lemma inked_app (a b : string) : inked (a ++ b) = inked a || inked b.
Proof.
  induction a as [| c a IH]; [reflexivity |].
  cbn [append inked]. now rewrite IH, orb_assoc.
Qed.

Lemma split_nil_not_inked (s : string) : split s = [] -> inked s = false.
Proof.
  induction s as [| c s IH]; [reflexivity |].
  cbn [inked]. destruct s as [| c' s'].
  - simpl. destruct (isspace c); [reflexivity | discriminate].
  - change (split (String c (String c' s')))
      with (if isspace c then split (String c' s')
            else if isspace c' then String c EmptyString :: split (String c' s')
                 else match split (String c' s') with
                      | w :: ws => String c w :: ws
                      | [] => [String c EmptyString]
                      end).
    destruct (isspace c); [exact IH |].
    destruct (isspace c'); [discriminate |].
    destruct (split (String c' s')); discriminate.
Qed.

(** A text that is not blank has a word. *)
Lemma words_of_text (text : string) :
  blank text = false -> 1 <= List.length (split (lower text)).
Proof.
  rewrite blank_inked, split_lower, length_map. intros H.
  destruct (split text) eqn:E; [| simpl; lia].
  apply split_nil_not_inked in E. rewrite E in H. discriminate.
Qed.

(** *** Pages *)

Lemma append_assoc (a b c : string) : (a ++ b) ++ c = a ++ b ++ c.
Proof. induction a as [| x a IH]; simpl; [reflexivity | now rewrite IH]. Qed.

Lemma append_nil_r (a : string) : a ++ "" = a.
Proof. induction a as [| x a IH]; simpl; [reflexivity | now rewrite IH]. Qed.

Lemma read_pages_from (ps : list (outcome page)) (text : string) :
  read_pages ps text
  = (text ++ fst (read_pages ps ""), snd (read_pages ps "")).
Proof.
  revert text. induction ps as [| [p | e] ps IH]; intros text; cbn [read_pages fst snd].
  - now rewrite append_nil_r.
  - rewrite (IH (add_page text p)), (IH (add_page "" p)). cbn [fst snd].
    destruct p as [t | e]; cbn [add_page]; [| reflexivity].
    now rewrite append_assoc.
  - now rewrite append_nil_r.
Qed.

(** Reading all the pages gives at least the text of the first pages. *)
Lemma read_pages_firstn (n : nat) (ps : list (outcome page)) (text : string) :
  snd (read_pages ps text) = None ->
  snd (read_pages (firstn n ps) text) = None /\
  exists more, fst (read_pages ps text) = fst (read_pages (firstn n ps) text) ++ more.
Proof.
  revert n text. induction ps as [| [p | e] ps IH]; intros n text H.
  - rewrite firstn_nil. split; [reflexivity |]. exists "". cbn. now rewrite append_nil_r.
  - destruct n as [| n].
    + cbn [firstn]. rewrite (read_pages_from (Ok p :: ps) text).
      cbn [read_pages fst snd]. split; [reflexivity |]. eexists. reflexivity.
    + cbn [firstn read_pages]. apply IH. exact H.
  - discriminate H.
Qed.

End Files.

(* ----------------------------------------------------------------- *)
(** ** The pre-checks and the extraction of the v1.3 copy *)

Section PreChecks.
Import Upload.

Lemma allowed_ext (ext : string) :
  mem ext ALLOWED_EXTS = true -> ext = ".pdf" \/ ext = ".docx" \/ ext = ".txt".
Proof.
  intros H. apply mem_In in H. simpl in H. intuition.
Qed.

Lemma msg_too_large_truthy (n : N) : truthy (msg_too_large n) = true.
Proof. reflexivity. Qed.

(** What the part of [precheck_file] inside the [try] returns. *)
Lemma precheck_read_cases (lib : libs) (f : file) (c : checks) :
  type_supported c = true -> size_ok c = true -> not_empty c = true ->
  readable_text c = false -> not_password_protected c = true ->
  pdf_reader_available c = true ->
  (snd (precheck_read lib f c) = "" <-> all_passed (fst (precheck_read lib f c)) = true).
Proof.
  intros T S E R P A. unfold precheck_read.
  destruct (read f) as [data | e]; cbn [fst snd].
  2: { unfold all_passed. rewrite T, S, E, R. split; discriminate. }
  destruct (if String.eqb (ext_of f) ".pdf" then PyPDF2 lib else None) as [PdfReader |].
  2: { cbn [fst snd]. unfold all_passed, set_readable_text. cbn. rewrite T, S, E, P, A.
       split; reflexivity. }
  destruct (PdfReader data) as [reader | e].
  2: { cbn [fst snd]. unfold all_passed. rewrite T, S, E, R. split; discriminate. }
  destruct (is_encrypted reader && raises (decrypt reader)).
  { cbn [fst snd]. unfold all_passed, set_not_password_protected. cbn. rewrite T, S, E, R.
    split; discriminate. }
  destruct (read_pages (firstn 2 (pages reader)) "") as [txt [e |]].
  { cbn [fst snd]. unfold all_passed. rewrite T, S, E, R. split; discriminate. }
  unfold set_readable_text. cbn [readable_text].
  destruct (truthy (strip txt)); cbn [fst snd]; unfold all_passed; cbn; rewrite T, S, E, ?P, ?A;
    split; first [reflexivity | discriminate].
Qed.

(** What [precheck_file] returns. *)
Lemma precheck_file_outcome (lib : libs) (f : file) :
  exists c first_error,
    precheck_file lib f = Ok (c, first_error) /\
    (first_error = "" <-> all_passed c = true) /\
    (size f = None -> first_error = msg_unsupported \/ first_error = msg_empty).
Proof.
  unfold precheck_file.
  set (c := initial_checks lib f).
  assert (R : readable_text c = false) by reflexivity.
  assert (P : not_password_protected c = true) by reflexivity.
  destruct (type_supported c) eqn:T; cbn [negb].
  2: { exists c, msg_unsupported. split; [reflexivity |]. split; [| now left].
       unfold all_passed. rewrite T. split; discriminate. }
  destruct (not_empty c) eqn:E; cbn [negb].
  2: { exists c, msg_empty. split; [reflexivity |]. split; [| now right].
       unfold all_passed. rewrite T, E. rewrite andb_false_r. split; discriminate. }
  assert (Z : exists n, size f = Some n).
  { unfold c, initial_checks in E. cbn [not_empty] in E.
    destruct (size f) as [n |]; [now exists n | discriminate]. }
  destruct Z as [n Z].
  destruct (size_ok c) eqn:S; cbn [negb].
  2: { rewrite Z. exists c, (msg_too_large n). split; [reflexivity |]. split.
       - unfold all_passed. rewrite T, S. split; discriminate.
       - discriminate. }
  destruct (String.eqb (ext_of f) ".pdf" && negb (pdf_reader_available c)) eqn:A.
  { apply andb_true_iff in A. destruct A as [_ A]. apply negb_true_iff in A.
    exists c, msg_no_pdf_reader. split; [reflexivity |]. split.
    - unfold all_passed. rewrite A, andb_false_r. split; discriminate.
    - rewrite Z. discriminate. }
  assert (A' : pdf_reader_available c = true).
  { destruct (pdf_reader_available c) eqn:V; [reflexivity |].
    unfold c, initial_checks in V. cbn [pdf_reader_available] in V.
    destruct (String.eqb (ext_of f) ".pdf"); [discriminate A | discriminate V]. }
  exists (fst (precheck_read lib f c)), (snd (precheck_read lib f c)).
  split; [now rewrite <- surjective_pairing |]. split.
  - now apply precheck_read_cases.
  - rewrite Z. discriminate.
Qed.

(** X12. [precheck_file] never raises, whatever the file and the
    libraries do, and its first error is empty exactly when all six
    checks it returns are true: the check marks the page shows and the
    error it shows agree.  A file whose size is unknown is reported as
    empty. *)
Theorem precheck_error_iff_a_check_fails (lib : libs) (f : file) :
  exists c first_error,
    precheck_file lib f = Ok (c, first_error) /\
    (first_error = "" <-> all_passed c = true) /\
    (size f = None -> first_error = msg_unsupported \/ first_error = msg_empty).
Proof. exact (precheck_file_outcome lib f). Qed.

(** X13. [extract_text_from_file] of the v1.3 copy returns a text or a
    hint, never both: with a hint the text is empty, and without one the
    name ends in .pdf, .docx or .txt (in any letter case) and a text read
    from a PDF or a DOCX is not blank.  It raises only when reading the
    upload does. *)
Theorem extract_gives_text_or_hint (lib : libs) (f : file) :
  match extract_text_from_file lib f with
  | Ok (text, hint) =>
      (hint = "" \/ text = "") /\
      (hint = "" ->
       (endswith (lower (name f)) ".pdf" = true \/ endswith (lower (name f)) ".docx" = true \/
        endswith (lower (name f)) ".txt" = true) /\
       (endswith (lower (name f)) ".txt" = false -> blank text = false))
  | Raise e => read f = Raise e
  end.
Proof.
  unfold extract_text_from_file.
  destruct (read f) as [data | e]; [| reflexivity].
  destruct (endswith (lower (name f)) ".pdf") eqn:P.
  { pose proof (pdf_not_docx _ P) as D.
    destruct (PyPDF2 lib) as [PdfReader |]; [| split; [now right | discriminate]].
    destruct (PdfReader data) as [reader | e]; [| split; [now right | discriminate]].
    destruct (is_encrypted reader && raises (decrypt reader));
      [split; [now right | discriminate] |].
    destruct (read_pages (pages reader) "") as [text [e |]];
      [split; [now right | discriminate] |].
    destruct (blank text) eqn:B; [split; [now right | discriminate] |].
    split; [now left |]. intros _. split; [now left | intros _; exact B]. }
  destruct (endswith (lower (name f)) ".docx") eqn:D.
  { destruct (docx2txt lib) as [process |]; [| split; [now right | discriminate]].
    destruct (process data) as [t | e]; [| split; [now right | discriminate]].
    cbv zeta. destruct (blank (or_empty t)) eqn:B; [split; [now right | discriminate] |].
    split; [now left |]. intros _. split; [right; now left | intros _; exact B]. }
  destruct (endswith (lower (name f)) ".txt") eqn:T.
  { destruct (decode lib data) as [text | e]; [| split; [now right | discriminate]].
    split; [now left |]. intros _. split; [right; now right | discriminate]. }
  split; [now right | discriminate].
Qed.

(** The extraction of a file that passed the pre-checks. *)
Lemma prechecked_extraction (lib : libs) (f : file) (c : checks) :
  precheck_file lib f = Ok (c, "") ->
  exists text hint,
    extract_text_from_file lib f = Ok (text, hint) /\
    ((ext_of f = ".pdf" /\
      ((hint = "" /\ blank text = false) \/ (text = "" /\ hint = msg_cannot_open_pdf))) \/
     (ext_of f = ".docx" /\
      ((hint = "" /\ blank text = false) \/
       (text = "" /\ In hint [msg_docx_reader_missing; msg_cannot_open_docx; msg_docx_no_text]))) \/
     (ext_of f = ".txt" /\
      ((hint = "" /\ decode lib match read f with Ok data => data | Raise _ => "" end = Ok text) \/
       (text = "" /\ hint = msg_txt_unreadable)))).
Proof.
  unfold precheck_file. set (c0 := initial_checks lib f).
  destruct (type_supported c0) eqn:T; cbn [negb]; [| discriminate].
  destruct (not_empty c0); cbn [negb]; [| discriminate].
  destruct (size_ok c0); cbn [negb];
    [| destruct (size f); [intros H; inversion H | discriminate]].
  destruct (String.eqb (ext_of f) ".pdf" && negb (pdf_reader_available c0)) eqn:A;
    [discriminate |].
  unfold precheck_read, extract_text_from_file.
  pose proof (ext_of_suffix f) as Sfx.
  unfold c0, initial_checks in T, A. cbn [type_supported pdf_reader_available] in T, A.
  apply allowed_ext in T.
  destruct (read f) as [data | e]; [| discriminate].
  destruct T as [X | [X | X]]; rewrite X in *.
  - (* a PDF *)
    rewrite Sfx. cbn [String.eqb Ascii.eqb Bool.eqb andb] in *.
    destruct (PyPDF2 lib) as [PdfReader |]; [| discriminate A].
    destruct (PdfReader data) as [reader | e]; [| discriminate].
    destruct (is_encrypted reader && raises (decrypt reader)); [discriminate |].
    destruct (read_pages (firstn 2 (pages reader)) "") as [txt [e |]] eqn:R2; [discriminate |].
    cbn [readable_text set_readable_text].
    destruct (truthy (strip txt)) eqn:Tx; [| discriminate]. intros _.
    destruct (read_pages (pages reader) "") as [text [e |]] eqn:R.
    + exists "", msg_cannot_open_pdf. split; [reflexivity |]. left. split; [reflexivity |].
      right. now split.
    + destruct (read_pages_firstn 2 (pages reader) "") as [_ [more M]]; [now rewrite R |].
      rewrite R, R2 in M. cbn [fst] in M.
      assert (B : blank text = false).
      { rewrite blank_inked, M, inked_app, <- truthy_strip_inked, Tx. reflexivity. }
      rewrite B. exists text, "". split; [reflexivity |]. left. split; [reflexivity |].
      left. now split.
  - (* a DOCX *)
    rewrite (docx_not_pdf _ Sfx), Sfx. cbn [String.eqb Ascii.eqb Bool.eqb andb]. intros _.
    destruct (docx2txt lib) as [process |].
    2: { exists "", msg_docx_reader_missing. split; [reflexivity |]. right; left.
         split; [reflexivity |]. right. split; [reflexivity | now left]. }
    destruct (process data) as [t | e].
    2: { exists "", msg_cannot_open_docx. split; [reflexivity |]. right; left.
         split; [reflexivity |]. right. split; [reflexivity | right; now left]. }
    cbv zeta. destruct (blank (or_empty t)) eqn:B.
    + exists "", msg_docx_no_text. split; [reflexivity |]. right; left.
      split; [reflexivity |]. right. split; [reflexivity | right; right; now left].
    + exists (or_empty t), "". split; [reflexivity |]. right; left.
      split; [reflexivity |]. left. now split.
  - (* a text file *)
    destruct (txt_not_pdf_docx _ Sfx) as [-> ->]. rewrite Sfx.
    cbn [String.eqb Ascii.eqb Bool.eqb andb]. intros _.
    destruct (decode lib data) as [text | e] eqn:Dc.
    + exists text, "". split; [reflexivity |]. right; right. split; [reflexivity |].
      left. now split.
    + exists "", msg_txt_unreadable. split; [reflexivity |]. right; right.
      split; [reflexivity |]. right. now split.
Qed.

(** X14. A file that passes the pre-checks is extracted as the type the
    pre-checks saw: the extraction does not raise, and it never answers
    that the type is unsupported, that the PDF reader is missing, that
    the PDF is password-protected or that it is a scanned image.  For a
    PDF the text returned is not blank, and the only hint left is that
    the PDF could not be opened (a page after the second failed to load);
    for a text file the decoded bytes are returned. *)
Theorem prechecked_file_is_extracted (lib : libs) (f : file) (c : checks) :
  precheck_file lib f = Ok (c, "") ->
  exists text hint,
    extract_text_from_file lib f = Ok (text, hint) /\
    ((ext_of f = ".pdf" /\
      ((hint = "" /\ blank text = false) \/ (text = "" /\ hint = msg_cannot_open_pdf))) \/
     (ext_of f = ".docx" /\
      ((hint = "" /\ blank text = false) \/
       (text = "" /\ In hint [msg_docx_reader_missing; msg_cannot_open_docx; msg_docx_no_text]))) \/
     (ext_of f = ".txt" /\
      ((hint = "" /\ decode lib match read f with Ok data => data | Raise _ => "" end = Ok text) \/
       (text = "" /\ hint = msg_txt_unreadable)))).
Proof. exact (prechecked_extraction lib f c). Qed.

End PreChecks.

Section Extraction.
Import Upload.

Lemma prechecked_file_is_extracted_witness :
  precheck_file Samples.plain_libs Samples.cv_pdf
  = Ok ({| type_supported := true; size_ok := true; not_empty := true; readable_text := true;
           not_password_protected := true; pdf_reader_available := true |}, "") /\
  exists text hint,
    extract_text_from_file Samples.plain_libs Samples.cv_pdf = Ok (text, hint) /\
    ((ext_of Samples.cv_pdf = ".pdf" /\
      ((hint = "" /\ blank text = false) \/ (text = "" /\ hint = msg_cannot_open_pdf))) \/
     (ext_of Samples.cv_pdf = ".docx" /\
      ((hint = "" /\ blank text = false) \/
       (text = "" /\ In hint [msg_docx_reader_missing; msg_cannot_open_docx; msg_docx_no_text]))) \/
     (ext_of Samples.cv_pdf = ".txt" /\
      ((hint = "" /\
        decode Samples.plain_libs
               match read Samples.cv_pdf with Ok data => data | Raise _ => "" end = Ok text) \/
       (text = "" /\ hint = msg_txt_unreadable)))).
Proof.
  split; [reflexivity |].
  exact (prechecked_file_is_extracted Samples.plain_libs Samples.cv_pdf _ eq_refl).
Defined.

(** The two functions do not read the type of a file the same way: a
    file named ".pdf" has no extension for the pre-checks, which refuse
    it, and is a PDF for the extraction. *)
Example hidden_file_name :
  (exists c, precheck_file Samples.plain_libs Samples.dot_pdf = Ok (c, msg_unsupported)) /\
  extract_text_from_file Samples.plain_libs Samples.dot_pdf = Ok ("Led a team of 12", "").
Proof. split; [eexists |]; reflexivity. Qed.

(** What the fallback chain returns. *)
Lemma extract_text_cases (lib : libs) (f : file) :
  match read f with
  | Raise e => extract_text lib f = Raise e
  | Ok data =>
      exists text,
        extract_text lib f = Ok text /\
        (text = decoded lib data \/ blank text = false) /\
        (blank (decoded lib data) = false -> blank text = false) /\
        (endswith (lower (name f)) ".pdf" = false ->
         endswith (lower (name f)) ".docx" = false -> text = decoded lib data) /\
        (PyPDF2 lib = None -> docx2txt lib = None -> text = decoded lib data)
  end.
Proof.
  unfold extract_text. destruct (read f) as [data | e]; [| reflexivity].
  assert (D : forall name,
             (docx_attempt lib name data = decoded lib data \/
              blank (docx_attempt lib name data) = false) /\
             (endswith name ".docx" = false -> docx_attempt lib name data = decoded lib data) /\
             (docx2txt lib = None -> docx_attempt lib name data = decoded lib data)).
  { intros name. unfold docx_attempt.
    destruct (endswith name ".docx"); [| repeat split; auto].
    destruct (docx2txt lib) as [process |]; [| repeat split; auto].
    destruct (process data) as [t | e]; [| repeat split; auto; discriminate].
    destruct (blank (or_empty t)) eqn:B; repeat split; auto; discriminate. }
  assert (G : forall text,
             text = decoded lib data \/ blank text = false ->
             blank (decoded lib data) = false -> blank text = false).
  { intros text [-> | B] H; assumption. }
  destruct (D (lower (name f))) as (D1 & D2 & D3).
  destruct (endswith (lower (name f)) ".pdf").
  - destruct (PyPDF2 lib) as [PdfReader |].
    + cbv zeta. destruct (blank (pdf_text PdfReader data)) eqn:B.
      * eexists. split; [reflexivity |]. split; [exact D1 |]. split; [now apply G |].
        split; [discriminate | discriminate].
      * eexists. split; [reflexivity |]. split; [now right |]. split; [intros _; exact B |].
        split; discriminate.
    + eexists. split; [reflexivity |]. split; [exact D1 |]. split; [now apply G |].
      split; [discriminate | intros _; exact D3].
  - eexists. split; [reflexivity |]. split; [exact D1 |]. split; [now apply G |].
    split; [intros _; exact D2 | intros _; exact D3].
Qed.

(** X15. [extract_text_from_file] of ai_resume_score_app.py and
    [extract_text] of ai_resume_score_app_v2.py fall back to the bytes
    of the upload: they raise only when reading the upload does, the text
    of a PDF or DOCX reader is returned only when it is not blank, and
    otherwise the decoded bytes are returned (the empty string when they
    cannot be decoded).  So the result is blank only if the decoded bytes
    are, and a name that ends neither in .pdf nor in .docx always gives
    the decoded bytes. *)
Theorem extract_text_falls_back (lib : libs) (f : file) :
  match read f with
  | Raise e => extract_text lib f = Raise e
  | Ok data =>
      exists text,
        extract_text lib f = Ok text /\
        (text = decoded lib data \/ blank text = false) /\
        (blank (decoded lib data) = false -> blank text = false) /\
        (endswith (lower (name f)) ".pdf" = false ->
         endswith (lower (name f)) ".docx" = false -> text = decoded lib data) /\
        (PyPDF2 lib = None -> docx2txt lib = None -> text = decoded lib data)
  end.
Proof. exact (extract_text_cases lib f). Qed.

End Extraction.

Section Pages.
Import Upload Page.
Open Scope Q_scope.

Lemma word_count_of_score (r : triple) (n : nat) :
  lookup "Word Count" (breakdown_of r) = Some (of_nat n) -> (1 <= n)%nat ->
  1 <= word_count_of (breakdown_of r).
Proof.
  unfold word_count_of. intros -> H. apply (of_nat_le 1 n H).
Qed.

(** X16. The v1.3 page scores a file only after its checks: when a
    submission ends in a score, the name, e-mail and phone are filled in
    and the consent box is ticked, the upload passed all six pre-checks,
    its text was extracted without a hint and is not blank, and the lead
    saved holds the total and a word count of at least 1; an error shown
    always has a message.  Neither the pre-checks nor the extraction nor
    the scoring makes the page fail with an exception: once the pre-checks
    have read the upload, the extraction reads it too. *)
Theorem page_v1_3_scores_checked_files (lib : libs) (name email phone : string)
        (uploaded : option file) (agree : bool) (target_role extra_kw : string) :
  match submit_v1_3 lib name email phone uploaded agree target_role extra_kw with
  | Ok (Scored r row) =>
      exists f c text,
        uploaded = Some f /\
        truthy name && truthy email && truthy phone && agree = true /\
        precheck_file lib f = Ok (c, "") /\ all_passed c = true /\
        extract_text_from_file lib f = Ok (text, "") /\ blank text = false /\
        r = V1.score_v1_3 text target_role (Some extra_kw) /\
        lead_score row = total r /\ 1 <= lead_word_count row
  | Ok (Error message) => message <> ""
  | Raise _ => False
  end.
Proof.
  unfold submit_v1_3. destruct uploaded as [f |]; [| discriminate].
  destruct (truthy name && truthy email && truthy phone && agree) eqn:F; [| discriminate].
  destruct (precheck_file_outcome lib f) as (c & first_error & P & I & _).
  rewrite P. destruct first_error as [| ch rest]; [| discriminate].
  cbn [truthy].
  destruct (prechecked_extraction lib f c P) as (text & hint & E & _).
  rewrite E. destruct hint as [| ch rest]; [| discriminate].
  cbn [truthy]. destruct (blank text) eqn:B; [discriminate |].
  exists f, c, text. do 3 (split; [first [reflexivity | assumption] |]).
  split; [now apply I |]. do 4 (split; [first [reflexivity | assumption] |]).
  cbn [lead_word_count].
  apply (word_count_of_score _ (List.length (split (lower text)))); [reflexivity |].
  now apply words_of_text.
Qed.

(** X17. The page of ai_resume_score_app_v2.py scores only a text that is
    not blank.  For an ASCII job description and an ASCII text extracted
    from the upload: when a submission ends in a score, the form is
    filled in, the text is not blank, the score is that of [score_resume]
    on it with the pasted job description, and [save_lead] has stored a
    lead that holds the total and a word count of at least 1.  Nothing in
    the block catches an exception: a submission that fails before the
    score is shown does so because reading the upload raised, because
    [score_resume] raised the ValueError of its similarity stage on the
    extracted text, or because [save_lead] raised on the lead of a text
    that was scored. *)
Theorem page_v2_scores_nonblank_text (sk : V2.sklearn) (lib : libs)
        (save_lead : lead -> outcome unit)
        (name email phone role : string) (resume_file : option file) (jd_text : string)
        (consent : bool) :
  Unicode.is_ascii jd_text = true ->
  (forall f text, resume_file = Some f -> extract_text lib f = Ok text ->
                  Unicode.is_ascii text = true) ->
  match submit_v2 sk lib save_lead name email phone role resume_file jd_text consent with
  | Ok (Scored r row) =>
      exists f text,
        resume_file = Some f /\
        truthy name && truthy email && truthy phone && consent = true /\
        extract_text lib f = Ok text /\ blank text = false /\
        V2.score sk text role (Some jd_text) = Ok r /\
        save_lead row = Ok tt /\
        lead_score row = total r /\ 1 <= lead_word_count row
  | Ok (Error message) => message = msg_fill_v2 \/ message = msg_no_text_v2
  | Raise e =>
      exists f, resume_file = Some f /\
                (read f = Raise e \/
                 exists text,
                   extract_text lib f = Ok text /\ blank text = false /\
                   ((V2.score sk text role (Some jd_text) = Raise e /\
                     e = ValueError V2.msg_empty_vocabulary) \/
                    exists r row,
                      V2.score sk text role (Some jd_text) = Ok r /\
                      lead_score row = total r /\ save_lead row = Raise e))
  end.
Proof.
  intros _ _.
  unfold submit_v2. destruct resume_file as [f |]; [| now left].
  destruct (truthy name && truthy email && truthy phone && consent) eqn:F; [| now left].
  pose proof (extract_text_cases lib f) as X.
  destruct (read f) as [data | e] eqn:R.
  - destruct X as (text & E & _). rewrite E. destruct (blank text) eqn:B; [now right |].
    destruct (V2.score sk text role (Some jd_text)) as [r | e] eqn:S.
    + cbv zeta.
      match goal with |- context [save_lead ?row] => set (the_row := row) end.
      destruct (save_lead the_row) as [[] | e] eqn:L.
      * exists f, text. do 7 (split; [first [reflexivity | assumption] |]).
        cbn [lead_word_count the_row].
        apply (word_count_of_score _ (List.length (split (lower text))));
          [| now apply words_of_text].
        revert S. unfold V2.score, V2.score_resume, V2.score_body.
        destruct (V2.jd_stage sk text (Some jd_text)) as [[j sg] |]; [| discriminate].
        intros [= <-]. reflexivity.
      * exists f. split; [reflexivity |]. right. exists text.
        do 2 (split; [first [reflexivity | assumption] |]). right.
        exists r, the_row. split; [exact S |]. split; [reflexivity | exact L].
    + exists f. split; [reflexivity |]. right. exists text.
      do 2 (split; [first [reflexivity | assumption] |]). left. split; [exact S |].
      apply v2_raises_iff in S. now destruct S as (jd & _ & _ & _ & _ & _ & _ & ->).
  - rewrite X. exists f. split; [reflexivity | now left].
Qed.

(** The theorem for the upload [Samples.cv_pdf] and a lead file that can
    be written. *)
Lemma page_v2_scores_nonblank_text_witness :
  exists r row,
    submit_v2 V2.sklearn_installed Samples.plain_libs (fun _ => Ok tt)
              "Asha" "asha@example.com" "9876543210" "Data Analyst"
              (Some Samples.cv_pdf) "" true
    = Ok (Scored r row) /\
    lead_score row = total r /\ 1 <= lead_word_count row.
Proof.
  pose proof (page_v2_scores_nonblank_text
                V2.sklearn_installed Samples.plain_libs (fun _ => Ok tt)
                "Asha" "asha@example.com" "9876543210" "Data Analyst"
                (Some Samples.cv_pdf) "" true eq_refl) as T.
  assert (A : forall f text, Some Samples.cv_pdf = Some f ->
                             extract_text Samples.plain_libs f = Ok text ->
                             Unicode.is_ascii text = true).
  { intros f text [= <-] E. vm_compute in E. injection E as <-. reflexivity. }
  specialize (T A).
  destruct (submit_v2 V2.sklearn_installed Samples.plain_libs (fun _ => Ok tt)
              "Asha" "asha@example.com" "9876543210" "Data Analyst"
              (Some Samples.cv_pdf) "" true) as [[m | r row] | e] eqn:S.
  - vm_compute in S. discriminate S.
  - destruct T as (f & text & _ & _ & _ & _ & _ & _ & Hs & Hw).
    exists r, row. split; [reflexivity |]. split; assumption.
  - vm_compute in S. discriminate S.
Defined.

End Pages.

Section BlendSuggestions.

Lemma struct_suggestions_In (tl s : string) :
  In s (V2.struct_suggestions tl) <->
  exists sec aliases, In (sec, aliases) V2.SECTIONS /\ V2.any_in tl aliases = false /\
                      s = V2.msg_section sec.
Proof.
  unfold V2.struct_suggestions. rewrite in_flat_map. split.
  - intros ([sec aliases] & Hin & Hs).
    destruct (V2.any_in tl aliases) eqn:A; [contradiction |].
    destruct Hs as [<- | []]. now exists sec, aliases.
  - intros (sec & aliases & Hin & A & ->).
    exists (sec, aliases). split; [exact Hin |]. rewrite A. now left.
Qed.

Lemma struct_suggestions_sound (l : list (string * list string)) (tl s : string) :
  In s (flat_map (fun '(sec, aliases) =>
                    if V2.any_in tl aliases then [] else [V2.msg_section sec]) l) ->
  exists sec, In sec (map fst l) /\ s = V2.msg_section sec.
Proof.
  intros H. apply in_flat_map in H. destruct H as ([sec aliases] & Hin & Hs).
  destruct (V2.any_in tl aliases); [contradiction |]. destruct Hs as [<- | []].
  exists sec. split; [| reflexivity]. apply in_map_iff. now exists (sec, aliases).
Qed.

Lemma struct_suggestions_NoDup (l : list (string * list string)) (tl : string) :
  NoDup (map fst l) ->
  NoDup (flat_map (fun '(sec, aliases) =>
                     if V2.any_in tl aliases then [] else [V2.msg_section sec]) l).
Proof.
  induction l as [| [sec aliases] l IH]; simpl; intros H; [constructor |].
  inversion H as [| ? ? Hnot Hl]; subst.
  destruct (V2.any_in tl aliases); simpl; [now apply IH |].
  constructor; [| now apply IH].
  intros Hin. apply Hnot. apply struct_suggestions_sound in Hin.
  destruct Hin as (sec' & Hin & E). apply msg_section_inj in E. now subst.
Qed.

Lemma struct_suggestions_length (tl : string) : List.length (V2.struct_suggestions tl) <= 5.
Proof.
  unfold V2.struct_suggestions, V2.SECTIONS. cbn [flat_map]. rewrite !length_app.
  repeat match goal with |- context [if ?b then _ else _] => destruct b end; simpl; lia.
Qed.

Lemma v2_section_names : NoDup (map fst V2.SECTIONS).
Proof.
  repeat (constructor; [simpl; intuition discriminate |]). constructor.
Qed.

(** The suggestions of the similarity stage. *)
Lemma jd_stage_suggestions (sk : V2.sklearn) (text : string) (jd : option string)
      (points : Q) (tips : list string) :
  V2.jd_stage sk text jd = Ok (points, tips) ->
  (V2.jd_supplied jd = false /\ tips = [V2.msg_paste_jd]) \/
  (V2.jd_supplied jd = true /\ (tips = [V2.msg_tailor] \/ tips = [])).
Proof.
  unfold V2.jd_stage. destruct jd as [jd |]; [| intros [= _ <-]; now left].
  destruct (V2.jd_supplied (Some jd)); [| intros [= _ <-]; now left].
  destruct (V2.tfidf_similarity sk text jd) as [sim |]; [| discriminate].
  intros [= _ <-]. right. split; [reflexivity |]. destruct (Qltb sim (25 # 100)); auto.
Qed.

(** X18. In the blend engine the section suggestions and the suggestion
    to paste a job description are exact, the cap of 10 never cuts them:
    a section of the catalog is suggested if and only if none of its
    aliases occurs in the lower-cased text, and pasting a job description
    is suggested if and only if none of more than 20 words was supplied.
    The e-mail, phone, education and length suggestions are returned only
    when their check fails. *)
Theorem blend_suggestions_justified (sk : V2.sklearn) (text role : string) (jd : option string) :
  match V2.score sk text role jd with
  | Ok r =>
      (forall sec,
          In (V2.msg_section sec) (suggestions r) <->
          exists aliases, In (sec, aliases) V2.SECTIONS /\
                          V2.any_in (lower text) aliases = false) /\
      (In V2.msg_paste_jd (suggestions r) <-> V2.jd_supplied jd = false) /\
      (In V2.msg_email (suggestions r) -> V2.email_ok (lower text) = false) /\
      (In V2.msg_phone (suggestions r) -> V2.phone_ok (lower text) = false) /\
      (In V2.msg_education (suggestions r) -> V2.edu_hits V2.EDU_WORDS (lower text) = 0) /\
      (In V2.msg_length (suggestions r) ->
       (300 <=? List.length (split (lower text))) && (List.length (split (lower text)) <=? 900)
       = false)
  | Raise _ => True
  end.
Proof.
  unfold V2.score, V2.score_resume, V2.score_body.
  destruct (V2.jd_stage sk text jd) as [[points tips] | e] eqn:J; [| exact I].
  cbn [suggestions snd].
  set (tl := lower text). set (words := V2.role_words V2.ROLE_KEYWORDS role).
  apply jd_stage_suggestions in J.
  assert (Raw : forall s,
             In s (firstn 10 (dedup (tips ++ V2.keyword_suggestions tl role words ++
                                     V2.struct_suggestions tl ++
                                     V2.impact_suggestions V2.ACTION_VERBS tl ++
                                     V2.ats_suggestions text tl ++
                                     V2.edu_suggestions V2.CERT_WORDS V2.EDU_WORDS tl ++
                                     V2.length_suggestions (List.length (split tl))))) ->
             In s tips \/ In s (V2.keyword_suggestions tl role words) \/
             In s (V2.struct_suggestions tl) \/
             In s (V2.impact_suggestions V2.ACTION_VERBS tl ++
                   V2.ats_suggestions text tl ++
                   V2.edu_suggestions V2.CERT_WORDS V2.EDU_WORDS tl ++
                   V2.length_suggestions (List.length (split tl)))).
  { intros s H. apply firstn_In in H. apply (proj1 (dedup_In _ _)) in H.
    do 3 (apply in_app_or in H; destruct H as [H | H]; [tauto |]). tauto. }
  assert (Tips : forall s, In s tips -> s = V2.msg_paste_jd \/ s = V2.msg_tailor).
  { intros s H. destruct J as [[_ ->] | [_ [-> | ->]]]; one_of H; subst; auto. }
  assert (Block : NoDup (tips ++ V2.keyword_suggestions tl role words ++
                         V2.struct_suggestions tl) /\
                  List.length (tips ++ V2.keyword_suggestions tl role words ++
                               V2.struct_suggestions tl) <= 10).
  { split.
    - apply NoDup_app; repeat split.
      + destruct J as [[_ ->] | [_ [-> | ->]]]; repeat constructor; intros [].
      + apply NoDup_app; repeat split.
        * unfold V2.keyword_suggestions. destruct (Qltb _ _); repeat constructor. intros [].
        * apply (struct_suggestions_NoDup V2.SECTIONS tl v2_section_names).
        * intros x Hx Hs. unfold V2.keyword_suggestions in Hx. one_of Hx. subst x.
          apply (proj1 (struct_suggestions_In _ _)) in Hs.
          destruct Hs as (? & ? & _ & _ & Hs). discriminate Hs.
      + intros x Hx Hy. apply Tips in Hx. apply in_app_or in Hy. destruct Hy as [Hy | Hy].
        * unfold V2.keyword_suggestions in Hy. one_of Hy. subst x.
          destruct Hx as [Hx | Hx]; discriminate Hx.
        * apply (proj1 (struct_suggestions_In _ _)) in Hy.
          destruct Hy as (? & ? & _ & _ & ->). destruct Hx as [Hx | Hx]; discriminate Hx.
    - rewrite !length_app. pose proof (struct_suggestions_length tl).
      assert (List.length tips <= 1)
        by (destruct J as [[_ ->] | [_ [-> | ->]]]; simpl; lia).
      assert (List.length (V2.keyword_suggestions tl role words) <= 1)
        by (unfold V2.keyword_suggestions; destruct (Qltb _ _); simpl; lia).
      lia. }
  destruct Block as [ND LE].
  assert (Keep : forall s, In s (tips ++ V2.keyword_suggestions tl role words ++
                                 V2.struct_suggestions tl) ->
                           In s (firstn 10 (dedup (tips ++ V2.keyword_suggestions tl role words ++
                                     V2.struct_suggestions tl ++
                                     V2.impact_suggestions V2.ACTION_VERBS tl ++
                                     V2.ats_suggestions text tl ++
                                     V2.edu_suggestions V2.CERT_WORDS V2.EDU_WORDS tl ++
                                     V2.length_suggestions (List.length (split tl)))))).
  { intros s H.
    pose proof (block_survives 10 _ (V2.impact_suggestions V2.ACTION_VERBS tl ++
                                     V2.ats_suggestions text tl ++
                                     V2.edu_suggestions V2.CERT_WORDS V2.EDU_WORDS tl ++
                                     V2.length_suggestions (List.length (split tl)))
                               s ND LE H) as K.
    now rewrite <- !app_assoc in K. }
  split; [intros sec; split | split; [split |]].
  - intros H. apply Raw in H. destruct H as [H | [H | [H | H]]].
    + apply Tips in H. destruct H as [H | H]; discriminate H.
    + unfold V2.keyword_suggestions in H. one_of H. discriminate H.
    + apply (proj1 (struct_suggestions_In _ _)) in H. destruct H as (sec' & al & Hin & A & E).
      apply msg_section_inj in E. subst. now exists al.
    + unfold V2.impact_suggestions, V2.ats_suggestions, V2.edu_suggestions,
        V2.length_suggestions in H.
      one_of H; discriminate H.
  - intros (aliases & Hin & A). apply Keep. apply in_or_app. right. apply in_or_app. right.
    apply struct_suggestions_In. now exists sec, aliases.
  - intros H. apply Raw in H. destruct H as [H | [H | [H | H]]].
    + destruct J as [[S _] | [_ [-> | ->]]]; [exact S | |].
      * destruct H as [H | []]. discriminate H.
      * destruct H.
    + unfold V2.keyword_suggestions in H. one_of H. discriminate H.
    + apply (proj1 (struct_suggestions_In _ _)) in H. destruct H as (? & ? & _ & _ & H).
      discriminate H.
    + unfold V2.impact_suggestions, V2.ats_suggestions, V2.edu_suggestions,
        V2.length_suggestions in H.
      one_of H; discriminate H.
  - intros S. destruct J as [[_ ->] | [S' _]]; [| congruence].
    apply Keep. now left.
  - repeat split; intros H; apply Raw in H; destruct H as [H | [H | [H | H]]];
      try (apply Tips in H; destruct H as [H | H]; discriminate H);
      try (unfold V2.keyword_suggestions in H; one_of H; discriminate H);
      try (apply (proj1 (struct_suggestions_In _ _)) in H; destruct H as (? & ? & _ & _ & H);
           discriminate H);
      unfold V2.impact_suggestions, V2.ats_suggestions, V2.edu_suggestions,
        V2.length_suggestions in H;
      one_of H; try discriminate H;
      repeat match goal with
             | E : (_ =? _) = true |- _ => apply Nat.eqb_eq in E
             end;
      first [assumption | reflexivity].
Qed.

End BlendSuggestions.

Section TwoCopies.

(** The engine looks at the verb table through the number of its entries
    that occur in the text only. *)
Lemma v1_score_body_verbs (hints : list (string * list string))
      (verbs verbs' certs edu words : list string) (text role : string) :
  V1.action_uses verbs (lower text) = V1.action_uses verbs' (lower text) ->
  V1.score_body hints verbs certs edu words text role
  = V1.score_body hints verbs' certs edu words text role.
Proof.
  intros H. unfold V1.score_body, V1.impact_points, V1.impact_suggestions. now rewrite H.
Qed.

Lemma action_uses_of_copies (tl : string) :
  V1.action_uses V1.ACTION_VERBS tl
  = V1.action_uses V1.ACTION_VERBS_v1_3 tl + (if contains "designed" (lower tl) then 1 else 0).
Proof.
  unfold V1.action_uses, V1.contains_any.
  change V1.ACTION_VERBS
    with (firstn 22 V1.ACTION_VERBS_v1_3 ++ "designed" :: skipn 22 V1.ACTION_VERBS_v1_3)%list.
  rewrite <- (firstn_skipn 22 V1.ACTION_VERBS_v1_3) at 3.
  rewrite !filter_app, !length_app. cbn [filter].
  destruct (contains "designed" (lower tl)); cbn [List.length]; lia.
Qed.

(** X19. The two copies of the flat-rate engine in ai_resume_score_app.py
    differ in one thing: the first lists the verb "designed" twice, so a
    text that contains it has one more action verb counted there than in
    the v1.3 copy.  On every text without "designed" the two copies
    return the same total, breakdown and suggestions. *)
Theorem copies_agree_without_designed (text role : string) (extra : option string) :
  V1.action_uses V1.ACTION_VERBS (lower text)
  = V1.action_uses V1.ACTION_VERBS_v1_3 (lower text)
    + (if contains "designed" (lower text) then 1 else 0) /\
  (contains "designed" (lower text) = false ->
   V1.score text role extra = V1.score_v1_3 text role extra).
Proof.
  split.
  - rewrite action_uses_of_copies. now rewrite lower_idem.
  - intros H. unfold V1.score, V1.score_v1_3, V1.score_resume.
    apply v1_score_body_verbs. rewrite action_uses_of_copies, lower_idem, H. lia.
Qed.

End TwoCopies.

Section ModelOfTheLibraryCalls.
Import Upload.

(** [fmt_mb] and [os.path.splitext] on small inputs, as CPython prints
    them (0.25 MB is a tie and rounds to the even tenth). *)
Example fmt_mb_values :
  fmt_mb 0 = "0.0 MB" /\ fmt_mb 262144 = "0.2 MB" /\ fmt_mb 5242881 = "5.0 MB" /\
  msg_too_large 6000000 = "File too large (5.7 MB). Max allowed is 5 MB.".
Proof. repeat split; vm_compute; reflexivity. Qed.

Example splitext_values :
  map splitext ["cv.pdf"; "my.cv.DOCX"; ".pdf"; "a.b/c"; "dir/a."; "..x.txt"]
  = [("cv", ".pdf"); ("my.cv", ".DOCX"); (".pdf", ""); ("a.b/c", ""); ("dir/a", ".");
     ("..x", ".txt")].
Proof. reflexivity. Qed.

End ModelOfTheLibraryCalls.
